(** * esp.bitbucket: retry, pagination and reconciliation

    A shallow embedding of the request executor, the paginated listing
    helpers and the reconciling [main] functions of the esp.bitbucket
    Ansible collection, with the properties of its specification stated
    over the embedded code.

    Layout: the Python value model ([Py]), the effect model ([Eff]), the
    request executor ([Executor]), the helper class ([BitbucketHelper]),
    the modules ([Repo], [Branch], [BranchPermissions], [Checks],
    [Webhook], [PullRequest], [Find], [Fileglob], [FileglobRequest],
    [Project], [DefaultBranch], [RepoPermissions], [FindFiles] and the
    [_info] modules), a reference server ([Server]), the properties of
    the specification and then further properties of the code. *)

From Stdlib Require Import List String Ascii ZArith Bool Lia.
Import ListNotations.

Set Warnings "-register-all".

Local Open Scope string_scope.
Local Open Scope list_scope.

(* ================================================================== *)
(** ** Python values *)
(* ================================================================== *)

Module Py.

(** Values that cross the wire or live in [module.params]: what
    [json.loads] produces.  Numbers are integers (the API carries no
    fractional number in the fields read here).  A dict is an association
    list whose keys are pairwise distinct, in insertion order. *)
Inductive json : Type :=
| JNull
| JBool (b : bool)
| JInt (z : Z)
| JStr (s : string)
| JList (l : list json)
| JDict (d : list (string * json)).

Definition dict := list (string * json).

(** [k in d] and [d.get(k)] *)
Fixpoint lookup {A : Type} (k : string) (d : list (string * A)) : option A :=
  match d with
  | [] => None
  | (k', v) :: r => if String.eqb k k' then Some v else lookup k r
  end.

Definition has_key {A : Type} (k : string) (d : list (string * A)) : bool :=
  match lookup k d with Some _ => true | None => false end.

(** [d[k] = v]: replaces the value of an existing key in place, appends a
    new key at the end. *)
Fixpoint dict_set {A : Type} (k : string) (v : A) (d : list (string * A))
  : list (string * A) :=
  match d with
  | [] => [(k, v)]
  | (k', v') :: r =>
      if String.eqb k k' then (k', v) :: r else (k', v') :: dict_set k v r
  end.

(** [d.update(e)] *)
Definition dict_update {A : Type} (d e : list (string * A)) : list (string * A) :=
  fold_left (fun acc kv => dict_set (fst kv) (snd kv) acc) e d.

(** Python's [==] on these values: [True == 1], lists compare pointwise,
    dicts compare as maps (order of keys is irrelevant). *)
Fixpoint json_eqb (a b : json) {struct a} : bool :=
  match a with
  | JNull => match b with JNull => true | _ => false end
  | JBool x =>
      match b with
      | JBool y => Bool.eqb x y
      | JInt z => Z.eqb (if x then 1 else 0) z
      | _ => false
      end
  | JInt z =>
      match b with
      | JInt z' => Z.eqb z z'
      | JBool y => Z.eqb z (if y then 1 else 0)
      | _ => false
      end
  | JStr s => match b with JStr s' => String.eqb s s' | _ => false end
  | JList xs =>
      match b with
      | JList ys =>
          (fix go (xs ys : list json) {struct xs} : bool :=
             match xs, ys with
             | [], [] => true
             | x :: xs', y :: ys' => json_eqb x y && go xs' ys'
             | _, _ => false
             end) xs ys
      | _ => false
      end
  | JDict d =>
      match b with
      | JDict d' =>
          Nat.eqb (List.length d) (List.length d') &&
          (fix all (d : list (string * json)) : bool :=
             match d with
             | [] => true
             | (k, v) :: r =>
                 match lookup k d' with
                 | Some v' => json_eqb v v'
                 | None => false
                 end && all r
             end) d
      | _ => false
      end
  end.

(** Truth value of a value used as a condition ([not x], [if x], [x or y]). *)
Definition truthy (v : json) : bool :=
  match v with
  | JNull => false
  | JBool b => b
  | JInt z => negb (Z.eqb z 0)
  | JStr s => negb (String.eqb s EmptyString)
  | JList l => match l with [] => false | _ => true end
  | JDict d => match d with [] => false | _ => true end
  end.

(** [x or y] returns [x] when it is truthy and [y] otherwise. *)
Definition py_or (x y : json) : json := if truthy x then x else y.

(** The [info] dict returned with every response; only its [status] is
    ever read.  Status [-1] is the transport's connection-level failure. *)
Record Info : Type := { status : Z }.

(** A user-facing message: the literal template of the source and the
    keyword arguments given to [.format]. *)
Inductive fmt_arg : Type :=
| FStr (s : string)
| FOpt (s : option string)
| FInfo (i : Info).

Record message : Type := { msg_text : string; msg_args : list (string * fmt_arg) }.

Definition plain (s : string) : message := {| msg_text := s; msg_args := [] |}.

(** The exceptions the embedded code can raise.  [AnsibleError] carries its
    message; [AnsibleErrorFrom] is an [AnsibleError] whose message is a
    prefix followed by the text of a caught exception. *)
Inductive exn : Type :=
| KeyError (k : string)
| TypeError
| AttributeError (attr : string)
| NameError (name : string)
| ValueError
| UnboundLocalError (var : string)
| AnsibleError (msg : message)
| AnsibleErrorFrom (prefix : string) (inner : exn).

(** Result of a computation that may raise. *)
Inductive res (A : Type) : Type :=
| Ok (a : A)
| Err (e : exn).
Arguments Ok {A} a.
Arguments Err {A} e.

Definition rbind {A B : Type} (r : res A) (k : A -> res B) : res B :=
  match r with Ok a => k a | Err e => Err e end.

Fixpoint rmap {A B : Type} (f : A -> res B) (l : list A) : res (list B) :=
  match l with
  | [] => Ok []
  | x :: r => rbind (f x) (fun y => rbind (rmap f r) (fun ys => Ok (y :: ys)))
  end.

(** [any(f(x) for x in l)]: stops at the first true element, so a later
    element that would raise is never evaluated. *)
Fixpoint rany {A : Type} (f : A -> res bool) (l : list A) : res bool :=
  match l with
  | [] => Ok false
  | x :: r => rbind (f x) (fun b => if b then Ok true else rany f r)
  end.

(** [[x for x in l if f(x)]] *)
Fixpoint rfilter {A : Type} (f : A -> res bool) (l : list A) : res (list A) :=
  match l with
  | [] => Ok []
  | x :: r =>
      rbind (f x) (fun b =>
      rbind (rfilter f r) (fun ys => Ok (if b then x :: ys else ys)))
  end.

(** [d[k]] on a dict. *)
Definition getitem (d : dict) (k : string) : res json :=
  match lookup k d with Some v => Ok v | None => Err (KeyError k) end.

(** [v[k]] with a string key on an arbitrary value: only a dict can be
    indexed that way. *)
Definition subscript (v : json) (k : string) : res json :=
  match v with
  | JDict d => getitem d k
  | _ => Err TypeError
  end.

(** [v.get(k, default)]: only a dict has [get]. *)
Definition get (v : json) (k : string) (default : json) : res json :=
  match v with
  | JDict d => Ok (match lookup k d with Some x => x | None => default end)
  | _ => Err (AttributeError "get")
  end.

(** Iterating a value, as [list.extend] and [for] do: a list yields its
    elements, a string its characters, a dict its keys; nothing else is
    iterable. *)
Definition chars (s : string) : list json :=
  map (fun c => JStr (String c EmptyString)) (list_ascii_of_string s).

Definition iter (v : json) : res (list json) :=
  match v with
  | JList l => Ok l
  | JStr s => Ok (chars s)
  | JDict d => Ok (map (fun kv => JStr (fst kv)) d)
  | _ => Err TypeError
  end.

(** *** Strings.  A string of the model stands for a Python [str] of
    ASCII characters: [ascii_text] says that every character is below
    128.  On such strings [upper], [lower], [capitalize] and [strip]
    below are [str.upper], [str.lower], [str.capitalize] and [str.strip];
    beyond ASCII Python maps and strips more characters than they do, so
    a statement that compares with their results is made for ASCII
    text. *)

Definition ascii_char (c : ascii) : bool := Nat.ltb (nat_of_ascii c) 128.

Definition ascii_text (s : string) : bool := forallb ascii_char (list_ascii_of_string s).

Definition is_lower (c : ascii) : bool :=
  let n := nat_of_ascii c in (Nat.leb 97 n && Nat.leb n 122)%bool.
Definition is_upper (c : ascii) : bool :=
  let n := nat_of_ascii c in (Nat.leb 65 n && Nat.leb n 90)%bool.

Definition upper_char (c : ascii) : ascii :=
  if is_lower c then ascii_of_nat (nat_of_ascii c - 32) else c.
Definition lower_char (c : ascii) : ascii :=
  if is_upper c then ascii_of_nat (nat_of_ascii c + 32) else c.

Fixpoint smap (f : ascii -> ascii) (s : string) : string :=
  match s with
  | EmptyString => EmptyString
  | String c r => String (f c) (smap f r)
  end.

Definition upper : string -> string := smap upper_char.
Definition lower : string -> string := smap lower_char.

(** [s.capitalize()]: first character upper-cased, the rest lower-cased. *)
Definition capitalize (s : string) : string :=
  match s with
  | EmptyString => EmptyString
  | String c r => String (upper_char c) (lower r)
  end.

(** The ASCII characters [str.isspace] accepts: the space, the controls
    9 to 13 (tab to carriage return) and the separators 28 to 31. *)
Definition is_space (c : ascii) : bool :=
  let n := nat_of_ascii c in
  (Nat.eqb n 32 || (Nat.leb 9 n && Nat.leb n 13) || (Nat.leb 28 n && Nat.leb n 31))%bool.

Fixpoint lstrip (s : string) : string :=
  match s with
  | EmptyString => EmptyString
  | String c r => if is_space c then lstrip r else s
  end.

(** [rstrip] keeps a character when it is not a space or when something
    survives to its right. *)
Fixpoint rstrip (s : string) : string :=
  match s with
  | EmptyString => EmptyString
  | String c r =>
      match rstrip r with
      | EmptyString => if is_space c then EmptyString else String c EmptyString
      | r' => String c r'
      end
  end.

Definition strip (s : string) : string := rstrip (lstrip s).

(** [s.split(',')]: always at least one field. *)
Fixpoint split_comma (s : string) : list string :=
  match s with
  | EmptyString => [EmptyString]
  | String c r =>
      if Ascii.eqb c ","%char then EmptyString :: split_comma r
      else match split_comma r with
           | [] => [String c EmptyString]
           | f :: fs => String c f :: fs
           end
  end.

(** [',' in s] *)
Fixpoint has_comma (s : string) : bool :=
  match s with
  | EmptyString => false
  | String c r => (Ascii.eqb c ","%char || has_comma r)%bool
  end.

Fixpoint list_eqb {A : Type} (eqb : A -> A -> bool) (l l' : list A) : bool :=
  match l, l' with
  | [], [] => true
  | x :: r, y :: r' => (eqb x y && list_eqb eqb r r')%bool
  | _, _ => false
  end.

(** [l.remove(x)]: drops the first occurrence. *)
Fixpoint remove_first (x : string) (l : list string) : list string :=
  match l with
  | [] => []
  | y :: r => if String.eqb x y then r else y :: remove_first x r
  end.

End Py.

(* ================================================================== *)
(** ** Effects: requests, outcomes, the monad of a module run *)
(* ================================================================== *)

Module Eff.
Import Py.

(** The keyword arguments of a call of [module.exit_json]: the [changed]
    flag and the other result fields.  A run ends where it makes that
    call; what [AnsibleModule] then does with the arguments is the
    library's. *)
Record Result : Type := { changed : bool; fields : dict }.

(** How a piece of module code ends: it returns a value, raises, calls
    [fail_json] or [exit_json] (both end the process), or the model ran
    out of fuel (a loop that did not finish within the fuel given). *)
Inductive outcome (A : Type) : Type :=
| Ret (a : A)
| Raise (e : exn)
| FailJson (msg : list message)
| ExitJson (r : Result)
| OutOfFuel.
Arguments Ret {A} a.
Arguments Raise {A} e.
Arguments FailJson {A} msg.
Arguments ExitJson {A} r.
Arguments OutOfFuel {A}.

(** One call of [bitbucket.request(api_url, method, data)] as its callers
    see it.  The URL is kept as the endpoint template of the source
    together with the keyword arguments of [.format] (the server base
    [url] left out). *)
Record Request : Type := {
  meth : string;
  template : string;
  args : list (string * json);
  data : option json
}.

Definition GET (tpl : string) (a : list (string * json)) : Request :=
  {| meth := "GET"; template := tpl; args := a; data := None |}.

(** The cursor a listing request carries in its [start] query parameter. *)
Definition req_cursor (r : Request) : option json := lookup "nextPageStart" (args r).

Definition is_get (r : Request) : bool := String.eqb (meth r) "GET".

(** The remote side, as seen through [bitbucket.request]: a call returns
    [(info, content)] or raises (as [request] does when [retries] is not
    positive), and what it does may depend on every request made before
    it in the run. *)
Definition Transport : Type := list Request -> Request -> res (Info * dict).

(** A run threads the list of requests made so far. *)
Definition M (A : Type) : Type := list Request -> outcome A * list Request.

Definition ret {A : Type} (a : A) : M A := fun tr => (Ret a, tr).
Definition raise {A : Type} (e : exn) : M A := fun tr => (Raise e, tr).
Definition fail_json {A : Type} (m : message) : M A := fun tr => (FailJson [m], tr).
Definition fail_json_list {A : Type} (ms : list message) : M A :=
  fun tr => (FailJson ms, tr).
Definition exit_json {A : Type} (r : Result) : M A := fun tr => (ExitJson r, tr).
Definition out_of_fuel {A : Type} : M A := fun tr => (OutOfFuel, tr).

Definition bind {A B : Type} (m : M A) (k : A -> M B) : M B :=
  fun tr =>
    match m tr with
    | (Ret a, tr') => k a tr'
    | (Raise e, tr') => (Raise e, tr')
    | (FailJson f, tr') => (FailJson f, tr')
    | (ExitJson r, tr') => (ExitJson r, tr')
    | (OutOfFuel, tr') => (OutOfFuel, tr')
    end.

(** A pure computation that may raise. *)
Definition lift {A : Type} (r : res A) : M A :=
  match r with Ok a => ret a | Err e => raise e end.

(** [bitbucket.request]: ask the transport, record the request. *)
Definition do_request (t : Transport) (r : Request) : M (Info * dict) :=
  fun tr =>
    match t tr r with
    | Ok answer => (Ret answer, tr ++ [r])
    | Err e => (Raise e, tr ++ [r])
    end.

End Eff.

Declare Scope eff_scope.
Delimit Scope eff_scope with eff.
Notation "x <- m ;; k" := (Eff.bind m (fun x => k))
  (at level 61, m at next level, right associativity) : eff_scope.
Notation "' pat <- m ;; k" := (Eff.bind m (fun x => match x with pat => k end))
  (at level 61, pat pattern, m at next level, right associativity) : eff_scope.
Notation "m ;;; k" := (Eff.bind m (fun _ => k))
  (at level 61, right associativity) : eff_scope.

(* ================================================================== *)
(** ** The retrying request executor: [BitbucketHelper.request] *)
(* ================================================================== *)

Module Executor.
Import Py Eff.

(** The module parameters [request] reads. *)
Record Params : Type := {
  token : option string;
  retries : Z;
  sleep : Z;
  use_proxy : bool
}.

(** One call of [fetch_url]. *)
Record Fetch : Type := {
  f_url : string;
  f_method : string;
  f_headers : list (string * string);
  f_data : option json;
  f_force : bool;
  f_use_proxy : bool
}.

(** What the executor does to the outside world, in order. *)
Inductive Event : Type :=
| EvFetch (f : Fetch)
| EvSleep (seconds : Z).

(** The text of a response as [json.loads] sees it: empty, a JSON
    document, or text that makes [json.loads] raise [ValueError]. *)
Inductive Body : Type :=
| BodyEmpty
| BodyJson (js : json)
| BodyText (s : string).

(** [fetch_url] returns [(response, info)]; [response] is [None] when the
    transport has nothing to read.  [info] is always a dict, so the test
    [info is not None] of the source always holds. *)
Definition FetchResult : Type := option Body * Info.

Definition Transport : Type := list Event -> Fetch -> FetchResult.

(** The locals [response] and [info]: unbound until the first [fetch_url]. *)
Inductive Locals : Type :=
| Unbound
| Bound (response : option Body) (info : Info).

Definition is_fetch (e : Event) : bool :=
  match e with EvFetch _ => true | EvSleep _ => false end.
Definition is_sleep (e : Event) : bool :=
  match e with EvFetch _ => false | EvSleep _ => true end.

Section WithParams.
Variable t : Transport.
Variable p : Params.

(** [while retries <= self.module.params['retries']: ...].
    [time.sleep] raises [ValueError] on a negative argument. *)
Fixpoint retry_loop (fuel : nat) (f : Fetch) (retries_ : Z) (loc : Locals)
    (tr : list Event) : outcome (Z * Locals) * list Event :=
  match fuel with
  | O => (OutOfFuel, tr)
  | S fuel' =>
      if (retries_ <=? retries p)%Z then
        let '(response, info) := t tr f in
        let tr1 := tr ++ [EvFetch f] in
        if negb (status info =? -1)%Z then (Ret (retries_, Bound response info), tr1)
        else if (sleep p <? 0)%Z then (Raise ValueError, tr1)
        else retry_loop fuel' f (retries_ + 1)%Z (Bound response info)
                        (tr1 ++ [EvSleep (sleep p)])
      else (Ret (retries_, loc), tr)
  end.

(** The [content] dict built from the response body. *)
Definition content_of (response : option Body) : dict :=
  match response with
  | None => []
  | Some BodyEmpty => []
  | Some (BodyJson (JDict d)) => d
  | Some (BodyJson js) => [("json", js)]
  | Some (BodyText body) => [("content", JStr body)]
  end.

Definition token_set : bool :=
  match token p with Some s => negb (String.eqb s EmptyString) | None => false end.

Definition is_dict (data_ : option json) : bool :=
  match data_ with Some (JDict _) => true | _ => false end.

(** The headers sent: the caller's, the bearer token when one is set, and
    a JSON content type for a dict payload that has none. *)
Definition build_headers (headers : option (list (string * string)))
    (data_ : option json) : list (string * string) :=
  let h0 := match headers with Some h => h | None => [] end in
  let h1 := if token_set
            then dict_update h0
                   [("Authorization",
                     ("Bearer " ++ match token p with Some s => s | None => EmptyString end)%string)]
            else h0 in
  if is_dict data_ && negb (has_key "Content-type" h1)
  then dict_update h1 [("Content-type", "application/json")]
  else h1.

(** The arguments [request] gives to [fetch_url]; [module.jsonify] is the
    identity on the structured payload. *)
Definition fetch_of (api_url method : string) (data_ : option json)
    (headers : option (list (string * string))) : Fetch :=
  {| f_url := api_url; f_method := method;
     f_headers := build_headers headers data_;
     f_data := data_; f_force := true; f_use_proxy := use_proxy p |}.

(** [request(api_url, method, data, headers)].  The loop runs at most
    [retries] times, so [S (Z.to_nat retries)] is fuel enough. *)
Definition request (api_url method : string) (data_ : option json)
    (headers : option (list (string * string)))
  : outcome (Info * dict) * list Event :=
  let f := fetch_of api_url method data_ headers in
  match retry_loop (S (Z.to_nat (retries p))) f 1%Z Unbound [] with
  | (Ret (retries_, Unbound), tr) => (Raise (UnboundLocalError "response"), tr)
  | (Ret (retries_, Bound response info), tr) =>
      (Ret (info, dict_set "fetch_url_retries" (JInt retries_) (content_of response)), tr)
  | (Raise e, tr) => (Raise e, tr)
  | (FailJson m, tr) => (FailJson m, tr)
  | (ExitJson r, tr) => (ExitJson r, tr)
  | (OutOfFuel, tr) => (OutOfFuel, tr)
  end.

End WithParams.

(** How the callers' view of [request] ([Eff.Transport]) comes from the
    executor: each call runs [request] from a fresh trace (nothing of a
    call's retries is carried to the next call), on the URL that
    [format] makes of the template and its arguments; the callers pass
    no headers.  [request] returns or raises, so the last case is not
    reached. *)
Definition through_executor (fetch : Transport) (p : Params)
    (format : Request -> string) : Eff.Transport :=
  fun _ r =>
    match request fetch p (format r) (meth r) (data r) None with
    | (Ret answer, _) => Ok answer
    | (Raise e, _) => Err e
    | (_, _) => Err ValueError
    end.

End Executor.

(* ================================================================== *)
(** ** [BitbucketHelper]: lookups and paginated listings *)
(* ================================================================== *)

Module BitbucketHelper.
Import Py Eff.
Local Open Scope eff_scope.

(** The entries of [BITBUCKET_API_ENDPOINTS] used below. *)
Definition BITBUCKET_API_ENDPOINTS : list (string * string) :=
  [ ("projects", "{url}/rest/api/1.0/projects");
    ("projects-projectKey", "{url}/rest/api/1.0/projects/{projectKey}");
    ("projects-permissions", "{url}/rest/api/1.0/projects/{projectKey}/permissions");
    ("repos", "{url}/rest/api/1.0/projects/{projectKey}/repos");
    ("repos-repositorySlug", "{url}/rest/api/1.0/projects/{projectKey}/repos/{repositorySlug}");
    ("repos-permissions", "{url}/rest/api/1.0/projects/{projectKey}/repos/{repositorySlug}/permissions");
    ("repos-files", "{url}/rest/api/1.0/projects/{projectKey}/repos/{repositorySlug}/files");
    ("branches", "{url}/rest/api/1.0/projects/{projectKey}/repos/{repositorySlug}/branches");
    ("branch-permissions-projects", "{url}/rest/branch-permissions/2.0/projects/{projectKey}/restrictions");
    ("branch-permissions-repos", "{url}/rest/branch-permissions/2.0/projects/{projectKey}/repos/{repositorySlug}/restrictions");
    ("webhooks", "{url}/rest/api/1.0/projects/{projectKey}/repos/{repositorySlug}/webhooks");
    ("pulls", "{url}/rest/api/1.0/projects/{projectKey}/repos/{repositorySlug}/pull-requests");
    ("pulls-delete", "{url}/rest/api/1.0/projects/{projectKey}/repos/{repositorySlug}/pull-requests/{pullid}");
    ("branch-default", "{url}/rest/api/1.0/projects/{projectKey}/repos/{repositorySlug}/branches/default");
    ("reviewers-get-project", "{url}/rest/default-reviewers/1.0/projects/{projectKey}/conditions");
    ("reviewers-get-repo", "{url}/rest/default-reviewers/1.0/projects/{projectKey}/repos/{repositorySlug}/conditions") ].

Definition endpoint (k : string) : string :=
  match lookup k BITBUCKET_API_ENDPOINTS with Some s => s | None => EmptyString end.

(** The parameters every module has.  [repository] is [None] only where
    the module declares it optional. *)
Record Common : Type := {
  check_mode : bool;
  project_key : string;
  repository : option string
}.

(** The same parameters, run in check mode ([b = true]) or for real. *)
Definition in_check_mode (b : bool) (c : Common) : Common :=
  {| check_mode := b; project_key := project_key c; repository := repository c |}.

(** A string-or-[None] parameter as a format argument. *)
Definition opt (s : option string) : json :=
  match s with Some x => JStr x | None => JNull end.

(** [filterText]: empty unless a filter is given. *)
Definition filter_text (prefix : string) (filter : option string) : json :=
  match filter with
  | Some f => JStr (prefix ++ f)%string
  | None => JStr EmptyString
  end.

(** The request [set_default_branch] sends. *)
Definition default_branch_request (c : Common) (branch : string) : Request :=
  {| meth := "PUT"; template := endpoint "branch-default";
     args := [("projectKey", JStr (project_key c)); ("repositorySlug", opt (repository c))];
     data := Some (JDict [("id", JStr ("refs/heads/" ++ branch)%string)]) |}.

Section WithTransport.
Variable t : Transport.

(** The loop shared by the listing helpers:
<<
    while not isLastPage:
        info, content = self.request(api_url=..., method='GET')
        items.extend(content[key])
        if 'isLastPage' in content:
            isLastPage = content['isLastPage']
            if 'nextPageStart' in content:
                nextPageStart = content['nextPageStart']
        else:
            isLastPage = True
>>
    [mk] builds the request from the cursor; it yields the last [info] and
    the accumulated items.  One unit of fuel per iteration. *)
Fixpoint paginate (fuel : nat) (key : string) (mk : json -> Request)
    (acc : list json) (nextPageStart : json) : M (Info * list json) :=
  match fuel with
  | O => out_of_fuel
  | S fuel' =>
      '(info, content) <- do_request t (mk nextPageStart) ;;
      values <- lift (getitem content key) ;;
      items <- lift (iter values) ;;
      let acc' := acc ++ items in
      match lookup "isLastPage" content with
      | Some isLastPage =>
          let nextPageStart' :=
            match lookup "nextPageStart" content with
            | Some c => c
            | None => nextPageStart
            end in
          if truthy isLastPage then ret (info, acc')
          else paginate fuel' key mk acc' nextPageStart'
      | None => ret (info, acc')
      end
  end.

Definition get_project_info (fail_when_not_exists : bool) (project_key_ : string)
  : M (option dict) :=
  '(info, content) <- do_request t
      (GET (endpoint "projects-projectKey") [("projectKey", JStr project_key_)]) ;;
  if (status info =? 200)%Z then ret (Some content)
  else if (status info =? 401)%Z then
    fail_json {| msg_text := "The currently authenticated user has insufficient permissions to view `{projectKey}` project.";
                 msg_args := [("projectKey", FStr project_key_)] |}
  else if (status info =? 404)%Z then
    if fail_when_not_exists
    then fail_json {| msg_text := "`{projectKey}` project does not exist.";
                      msg_args := [("projectKey", FStr project_key_)] |}
    else ret None
  else
    fail_json {| msg_text := "Failed to retrieve the project data which matches the supplied projectKey `{projectKey}`: {info}";
                 msg_args := [("projectKey", FStr project_key_); ("info", FInfo info)] |}.

Definition get_repository_info (fail_when_not_exists : bool) (project_key_ : string)
    (repository_ : option string) : M (option dict) :=
  '(info, content) <- do_request t
      (GET (endpoint "repos-repositorySlug")
           [("projectKey", JStr project_key_); ("repositorySlug", opt repository_)]) ;;
  if (status info =? 200)%Z then ret (Some content)
  else if (status info =? 401)%Z then
    fail_json {| msg_text := "The currently authenticated user has insufficient permissions to see `{repositorySlug}` repository.";
                 msg_args := [("repositorySlug", FOpt repository_)] |}
  else if (status info =? 404)%Z then
    if fail_when_not_exists
    then fail_json {| msg_text := "`{repositorySlug}` repository does not exist.";
                      msg_args := [("repositorySlug", FOpt repository_)] |}
    else ret None
  else
    fail_json {| msg_text := "Failed to retrieve the repository data which matches the supplied projectKey `{projectKey}` and repositorySlug `{repositorySlug}`: {info}";
                 msg_args := [("projectKey", FStr project_key_);
                              ("repositorySlug", FOpt repository_); ("info", FInfo info)] |}.

Definition get_all_projects_info (fuel : nat) (fail_when_not_exists : bool)
  : M (option (list json)) :=
  '(info, projects) <- paginate fuel "values"
      (fun nextPageStart =>
         GET (endpoint "projects" ++ "?limit=1000&start={nextPageStart}")%string
             [("nextPageStart", nextPageStart)])
      [] (JInt 0) ;;
  if (status info =? 200)%Z then ret (Some projects)
  else if (status info =? 400)%Z then
    fail_json (plain "The permission level is unknown or not related to projects")
  else fail_json (plain "Failed to retrieve the projects data.").

Definition get_all_repositories_info (fuel : nat) (c : Common)
    (fail_when_not_exists : bool) : M (option (list json)) :=
  '(info, repositories) <- paginate fuel "values"
      (fun nextPageStart =>
         GET (endpoint "repos" ++ "?limit=1000&start={nextPageStart}")%string
             [("projectKey", JStr (project_key c)); ("nextPageStart", nextPageStart)])
      [] (JInt 0) ;;
  if (status info =? 200)%Z then ret (Some repositories)
  else if (status info =? 401)%Z then
    fail_json {| msg_text := "The currently authenticated user has insufficient permissions to see `{projectKey}` project.";
                 msg_args := [("projectKey", FStr (project_key c))] |}
  else if (status info =? 404)%Z then
    if fail_when_not_exists
    then fail_json {| msg_text := "`{projectKey}` project does not exist.";
                      msg_args := [("projectKey", FStr (project_key c))] |}
    else ret None
  else fail_json (plain "Failed to retrieve the repository data.").

Definition get_branches_info (fuel : nat) (c : Common)
    (fail_when_not_exists : bool) (filter : option string) : M (option (list json)) :=
  '(info, branches) <- paginate fuel "values"
      (fun nextPageStart =>
         GET (endpoint "branches" ++ "?limit=1000&start={nextPageStart}&details=false{filterText}")%string
             [("projectKey", JStr (project_key c)); ("repositorySlug", opt (repository c));
              ("nextPageStart", nextPageStart);
              ("filterText", filter_text "&filterText=" filter)])
      [] (JInt 0) ;;
  if (status info =? 200)%Z then ret (Some branches)
  else if (status info =? 401)%Z then
    fail_json {| msg_text := "The currently authenticated user has insufficient permissions to read `{repositorySlug}` repository.";
                 msg_args := [("repositorySlug", FOpt (repository c))] |}
  else if (status info =? 404)%Z then
    if fail_when_not_exists
    then fail_json {| msg_text := "`{repositorySlug}` repository does not exist.";
                      msg_args := [("repositorySlug", FOpt (repository c))] |}
    else ret None
  else
    fail_json {| msg_text := "Failed to retrieve branches data which matches the supplied projectKey `{projectKey}` and repositorySlug `{repositorySlug}`: {info}";
                 msg_args := [("projectKey", FStr (project_key c));
                              ("repositorySlug", FOpt (repository c)); ("info", FInfo info)] |}.

Definition get_project_permissions_info (fuel : nat) (fail_when_not_exists : bool)
    (project_key_ : string) (scope : string) (filter : option string)
  : M (option (list json)) :=
  '(info, permissions) <- paginate fuel "values"
      (fun nextPageStart =>
         GET (endpoint "projects-permissions" ++ "/{scope}?limit=1000&start={nextPageStart}{filterText}")%string
             [("projectKey", JStr project_key_); ("scope", JStr scope);
              ("nextPageStart", nextPageStart);
              ("filterText", filter_text "&filter=" filter)])
      [] (JInt 0) ;;
  if (status info =? 200)%Z then ret (Some permissions)
  else if (status info =? 401)%Z then
    fail_json {| msg_text := "The currently authenticated user is not a project administrator for {projectKey} project.";
                 msg_args := [("projectKey", FStr project_key_)] |}
  else if (status info =? 404)%Z then
    if fail_when_not_exists
    then fail_json {| msg_text := "Project `{projectKey}` does not exist.";
                      msg_args := [("projectKey", FStr project_key_)] |}
    else ret None
  else
    fail_json {| msg_text := "Failed to retrieve permission data which matches the supplied projectKey `{projectKey}`: {info}";
                 msg_args := [("projectKey", FStr project_key_); ("info", FInfo info)] |}.

Definition get_repository_permissions_info (fuel : nat) (fail_when_not_exists : bool)
    (project_key_ : string) (repository_ : option string) (scope : string)
    (filter : option string) : M (option (list json)) :=
  '(info, permissions) <- paginate fuel "values"
      (fun nextPageStart =>
         GET (endpoint "repos-permissions" ++ "/{scope}?limit=1000&start={nextPageStart}{filterText}")%string
             [("projectKey", JStr project_key_); ("repositorySlug", opt repository_);
              ("scope", JStr scope); ("nextPageStart", nextPageStart);
              ("filterText", filter_text "&filter=" filter)])
      [] (JInt 0) ;;
  if (status info =? 200)%Z then ret (Some permissions)
  else if (status info =? 401)%Z then
    fail_json {| msg_text := "The currently authenticated user is not a repository administrator for {projectKey} project and {repositorySlug} repository.";
                 msg_args := [("projectKey", FStr project_key_);
                              ("repositorySlug", FOpt repository_)] |}
  else if (status info =? 404)%Z then
    if fail_when_not_exists
    then fail_json {| msg_text := "Repository `{repositorySlug}` does not exist.";
                      msg_args := [("repositorySlug", FOpt repository_)] |}
    else ret None
  else
    fail_json {| msg_text := "Failed to retrieve permission data which matches the supplied repository `{repositorySlug}`: {info}";
                 msg_args := [("repositorySlug", FOpt repository_); ("info", FInfo info)] |}.

(** The URL of [get_branch_permissions_info] is formatted once, before the
    loop, with the initial [nextPageStart = 0]: the request does not depend
    on the loop's cursor. *)
Definition branch_permissions_url (project_key_ : string)
    (repository_ : option string) (nextPageStart : json) : Request :=
  match repository_ with
  | None =>
      GET (endpoint "branch-permissions-projects" ++ "/?limit=1000&start={nextPageStart}")%string
          [("projectKey", JStr project_key_); ("nextPageStart", nextPageStart)]
  | Some r =>
      GET (endpoint "branch-permissions-repos" ++ "/?limit=1000&start={nextPageStart}")%string
          [("projectKey", JStr project_key_); ("repositorySlug", JStr r);
           ("nextPageStart", nextPageStart)]
  end.

Definition get_branch_permissions_info (fuel : nat) (fail_when_not_exists : bool)
    (project_key_ : string) (repository_ : option string) : M (option (list json)) :=
  let url := branch_permissions_url project_key_ repository_ (JInt 0) in
  '(info, restrictions) <- paginate fuel "values" (fun _ => url) [] (JInt 0) ;;
  if (status info =? 200)%Z then ret (Some restrictions)
  else if (status info =? 404)%Z then
    if fail_when_not_exists
    then fail_json (plain "The restriction could not be found")
    else ret None
  else
    fail_json {| msg_text := "Failed to retrieve restriction which matches the supplied project and/or repository: {info}";
                 msg_args := [("info", FInfo info)] |}.

(** The tail shared by the four helpers that accept [200] and [201]. *)
Definition repo_listing_tail (c : Common) (fail_when_not_exists : bool)
    (info : Info) (items : list json) : M (option (list json)) :=
  if ((status info =? 200) || (status info =? 201))%Z then ret (Some items)
  else if (status info =? 401)%Z then
    fail_json {| msg_text := "The currently authenticated user has insufficient permissions to read `{repositorySlug}` repository.";
                 msg_args := [("repositorySlug", FOpt (repository c))] |}
  else if (status info =? 404)%Z then
    if fail_when_not_exists
    then fail_json {| msg_text := "`{repositorySlug}` repository does not exist.";
                      msg_args := [("repositorySlug", FOpt (repository c))] |}
    else ret None
  else
    fail_json {| msg_text := "Failed to retrieve branches data which matches the supplied projectKey `{projectKey}` and repositorySlug `{repositorySlug}`: {info}";
                 msg_args := [("projectKey", FStr (project_key c));
                              ("repositorySlug", FOpt (repository c)); ("info", FInfo info)] |}.

Definition get_webhooks_info (fuel : nat) (c : Common)
    (fail_when_not_exists : bool) (filter : option string) : M (option (list json)) :=
  '(info, webhooks) <- paginate fuel "values"
      (fun nextPageStart =>
         GET (endpoint "webhooks" ++ "?limit=1000&start={nextPageStart}&details=false{filterText}")%string
             [("projectKey", JStr (project_key c)); ("repositorySlug", opt (repository c));
              ("nextPageStart", nextPageStart);
              ("filterText", filter_text "&filterText=" filter)])
      [] (JInt 0) ;;
  repo_listing_tail c fail_when_not_exists info webhooks.

Definition get_pull_request_info (fuel : nat) (c : Common)
    (fail_when_not_exists : bool) (filter : option string) : M (option (list json)) :=
  '(info, pulls) <- paginate fuel "values"
      (fun nextPageStart =>
         GET (endpoint "pulls" ++ "?limit=1000&start={nextPageStart}&details=false{filterText}")%string
             [("projectKey", JStr (project_key c)); ("repositorySlug", opt (repository c));
              ("nextPageStart", nextPageStart);
              ("filterText", filter_text "&filterText=" filter)])
      [] (JInt 0) ;;
  repo_listing_tail c fail_when_not_exists info pulls.

Definition get_project_reviewers (fuel : nat) (c : Common)
    (fail_when_not_exists : bool) (filter : option string) : M (option (list json)) :=
  '(info, reviewers) <- paginate fuel "json"
      (fun nextPageStart =>
         GET (endpoint "reviewers-get-project" ++ "?limit=1000&start={nextPageStart}&details=false{filterText}")%string
             [("projectKey", JStr (project_key c)); ("nextPageStart", nextPageStart);
              ("filterText", filter_text "&filterText=" filter)])
      [] (JInt 0) ;;
  if ((status info =? 200) || (status info =? 201))%Z then ret (Some reviewers)
  else if (status info =? 401)%Z then
    fail_json {| msg_text := "The currently authenticated user has insufficient permissions to read `{projectKey}` project settings.";
                 msg_args := [("projectKey", FStr (project_key c))] |}
  else if (status info =? 404)%Z then
    if fail_when_not_exists
    then fail_json {| msg_text := "`{projectKey}` project does not exist.";
                      msg_args := [("projectKey", FStr (project_key c))] |}
    else ret None
  else
    fail_json {| msg_text := "Failed to retrieve default project reviewers data which matches the supplied projectKey `{projectKey}`: {info}";
                 msg_args := [("projectKey", FStr (project_key c)); ("info", FInfo info)] |}.

Definition get_repo_reviewers (fuel : nat) (c : Common)
    (fail_when_not_exists : bool) (filter : option string) : M (option (list json)) :=
  '(info, reviewers) <- paginate fuel "json"
      (fun nextPageStart =>
         GET (endpoint "reviewers-get-repo" ++ "?limit=1000&start={nextPageStart}&details=false{filterText}")%string
             [("projectKey", JStr (project_key c)); ("repositorySlug", opt (repository c));
              ("nextPageStart", nextPageStart);
              ("filterText", filter_text "&filterText=" filter)])
      [] (JInt 0) ;;
  if ((status info =? 200) || (status info =? 201))%Z then ret (Some reviewers)
  else if (status info =? 401)%Z then
    fail_json {| msg_text := "The currently authenticated user has insufficient permissions to read `{repositorySlug}` repository settings.";
                 msg_args := [("repositorySlug", FOpt (repository c))] |}
  else if (status info =? 404)%Z then
    if fail_when_not_exists
    then fail_json {| msg_text := "`{repositorySlug}` project does not exist.";
                      msg_args := [("repositorySlug", FOpt (repository c))] |}
    else ret None
  else
    fail_json {| msg_text := "Failed to retrieve default repostory reviewers data which matches the supplied repository ID `{repositorySlug}`: {info}";
                 msg_args := [("repositorySlug", FOpt (repository c)); ("info", FInfo info)] |}.

(** [set_default_branch]: its three failure branches call [module.fail_json]
    where no [module] is in scope ([self.module] is), so they raise
    [NameError]. *)
Definition set_default_branch (c : Common) (branch : string) : M (option dict) :=
  '(info, content) <- do_request t (default_branch_request c branch) ;;
  if (status info =? 204)%Z then ret (Some content)
  else raise (NameError "module").

(** The ten paginated listing helpers, by name. *)
Inductive lister : Type :=
| AllProjects | AllRepositories | Branches | ProjectPermissions
| RepositoryPermissions | BranchPermissions | Webhooks | PullRequests
| ProjectReviewers | RepoReviewers.

Definition all_listers : list lister :=
  [AllProjects; AllRepositories; Branches; ProjectPermissions;
   RepositoryPermissions; BranchPermissions; Webhooks; PullRequests;
   ProjectReviewers; RepoReviewers].

(** Arguments of a listing call, the same record for every helper (each
    reads the fields it has). *)
Record ListArgs : Type := {
  la_common : Common;
  la_fail_when_not_exists : bool;
  la_scope : string;
  la_filter : option string
}.

Definition run_lister (h : lister) (fuel : nat) (a : ListArgs) : M (option (list json)) :=
  let c := la_common a in
  let f := la_fail_when_not_exists a in
  match h with
  | AllProjects => get_all_projects_info fuel f
  | AllRepositories => get_all_repositories_info fuel c f
  | Branches => get_branches_info fuel c f (la_filter a)
  | ProjectPermissions =>
      get_project_permissions_info fuel f (project_key c) (la_scope a) (la_filter a)
  | RepositoryPermissions =>
      get_repository_permissions_info fuel f (project_key c) (repository c)
        (la_scope a) (la_filter a)
  | BranchPermissions => get_branch_permissions_info fuel f (project_key c) (repository c)
  | Webhooks => get_webhooks_info fuel c f (la_filter a)
  | PullRequests => get_pull_request_info fuel c f (la_filter a)
  | ProjectReviewers => get_project_reviewers fuel c f (la_filter a)
  | RepoReviewers => get_repo_reviewers fuel c f (la_filter a)
  end.

End WithTransport.

(** The key of [content] a helper accumulates. *)
Definition items_key (h : lister) : string :=
  match h with
  | ProjectReviewers | RepoReviewers => "json"
  | _ => "values"
  end.

(** The request a helper sends for a cursor, read off its definition. *)
Definition lister_request (h : lister) (a : ListArgs) : json -> Request :=
  let c := la_common a in
  match h with
  | AllProjects => fun nextPageStart =>
      GET (endpoint "projects" ++ "?limit=1000&start={nextPageStart}")%string
          [("nextPageStart", nextPageStart)]
  | AllRepositories => fun nextPageStart =>
      GET (endpoint "repos" ++ "?limit=1000&start={nextPageStart}")%string
          [("projectKey", JStr (project_key c)); ("nextPageStart", nextPageStart)]
  | Branches => fun nextPageStart =>
      GET (endpoint "branches" ++ "?limit=1000&start={nextPageStart}&details=false{filterText}")%string
          [("projectKey", JStr (project_key c)); ("repositorySlug", opt (repository c));
           ("nextPageStart", nextPageStart);
           ("filterText", filter_text "&filterText=" (la_filter a))]
  | ProjectPermissions => fun nextPageStart =>
      GET (endpoint "projects-permissions" ++ "/{scope}?limit=1000&start={nextPageStart}{filterText}")%string
          [("projectKey", JStr (project_key c)); ("scope", JStr (la_scope a));
           ("nextPageStart", nextPageStart);
           ("filterText", filter_text "&filter=" (la_filter a))]
  | RepositoryPermissions => fun nextPageStart =>
      GET (endpoint "repos-permissions" ++ "/{scope}?limit=1000&start={nextPageStart}{filterText}")%string
          [("projectKey", JStr (project_key c)); ("repositorySlug", opt (repository c));
           ("scope", JStr (la_scope a)); ("nextPageStart", nextPageStart);
           ("filterText", filter_text "&filter=" (la_filter a))]
  | BranchPermissions => fun _ =>
      branch_permissions_url (project_key c) (repository c) (JInt 0)
  | Webhooks => fun nextPageStart =>
      GET (endpoint "webhooks" ++ "?limit=1000&start={nextPageStart}&details=false{filterText}")%string
          [("projectKey", JStr (project_key c)); ("repositorySlug", opt (repository c));
           ("nextPageStart", nextPageStart);
           ("filterText", filter_text "&filterText=" (la_filter a))]
  | PullRequests => fun nextPageStart =>
      GET (endpoint "pulls" ++ "?limit=1000&start={nextPageStart}&details=false{filterText}")%string
          [("projectKey", JStr (project_key c)); ("repositorySlug", opt (repository c));
           ("nextPageStart", nextPageStart);
           ("filterText", filter_text "&filterText=" (la_filter a))]
  | ProjectReviewers => fun nextPageStart =>
      GET (endpoint "reviewers-get-project" ++ "?limit=1000&start={nextPageStart}&details=false{filterText}")%string
          [("projectKey", JStr (project_key c)); ("nextPageStart", nextPageStart);
           ("filterText", filter_text "&filterText=" (la_filter a))]
  | RepoReviewers => fun nextPageStart =>
      GET (endpoint "reviewers-get-repo" ++ "?limit=1000&start={nextPageStart}&details=false{filterText}")%string
          [("projectKey", JStr (project_key c)); ("repositorySlug", opt (repository c));
           ("nextPageStart", nextPageStart);
           ("filterText", filter_text "&filterText=" (la_filter a))]
  end.

(** The helpers that format their URL inside the loop, from the current
    cursor: all but [get_branch_permissions_info]. *)
Definition rebuilds_url (h : lister) : bool :=
  match h with BranchPermissions => false | _ => true end.

End BitbucketHelper.

(* ================================================================== *)
(** ** Module [bitbucket_repo] *)
(* ================================================================== *)

Module Repo.
Import Py Eff BitbucketHelper.
Local Open Scope eff_scope.

Record Params : Type := { common : Common; state : string }.

Definition with_check_mode (b : bool) (p : Params) : Params :=
  {| common := in_check_mode b (common p); state := state p |}.

Section WithTransport.
Variable t : Transport.

Definition create_repository (p : Params) : M (option dict) :=
  let c := common p in
  '(info, content) <- do_request t
      {| meth := "POST"; template := endpoint "repos";
         args := [("projectKey", JStr (project_key c))];
         data := Some (JDict [("name", opt (repository c))]) |} ;;
  if (status info =? 201)%Z then ret (Some content)
  else if (status info =? 400)%Z then
    fail_json {| msg_text := "`{repositorySlug}` repository was not created due to a validation error";
                 msg_args := [("repositorySlug", FOpt (repository c))] |}
  else if (status info =? 401)%Z then
    fail_json {| msg_text := "The currently authenticated user has insufficient permissions to create `{repositorySlug}` repository";
                 msg_args := [("repositorySlug", FOpt (repository c))] |}
  else if (status info =? 409)%Z then
    fail_json {| msg_text := "A repository with same name ({repositorySlug}) already exists";
                 msg_args := [("repositorySlug", FOpt (repository c))] |}
  else
    fail_json {| msg_text := "Failed to create repository `{repositorySlug}` in the supplied projectKey `{projectKey}`: {info}";
                 msg_args := [("repositorySlug", FOpt (repository c));
                              ("projectKey", FStr (project_key c)); ("info", FInfo info)] |}.

Definition delete_repository (p : Params) : M (option dict) :=
  let c := common p in
  '(info, content) <- do_request t
      {| meth := "DELETE"; template := endpoint "repos-repositorySlug";
         args := [("projectKey", JStr (project_key c)); ("repositorySlug", opt (repository c))];
         data := None |} ;;
  if (status info =? 202)%Z then ret (Some content)
  else if (status info =? 204)%Z then
    fail_json {| msg_text := "`{repositorySlug}` repository does not exist";
                 msg_args := [("repositorySlug", FOpt (repository c))] |}
  else if (status info =? 401)%Z then
    fail_json {| msg_text := "The currently authenticated user has insufficient permissions to delete `{repositorySlug}` repository";
                 msg_args := [("repositorySlug", FOpt (repository c))] |}
  else
    fail_json {| msg_text := "Failed to delete repository `{repositorySlug}` in the supplied projectKey `{projectKey}`: {info}";
                 msg_args := [("repositorySlug", FOpt (repository c));
                              ("projectKey", FStr (project_key c)); ("info", FInfo info)] |}.

(** Truth value of [existing_repository]: [None] and the empty dict are
    false. *)
Definition exists_ (existing : option dict) : bool :=
  match existing with Some (_ :: _) => true | _ => false end.

(** [module.exit_json(changed=changed, **content)], or without fields when
    [content] is [None].  The call passes every key of [content] as a
    keyword argument beside [changed]: when [content] has a key [changed]
    Python raises [TypeError] (the keyword is given twice) and
    [exit_json] is not entered. *)
Definition finish {A : Type} (changed_ : bool) (content : option dict) : M A :=
  match content with
  | Some d =>
      match lookup "changed" d with
      | Some _ => raise TypeError
      | None => exit_json {| changed := changed_; fields := d |}
      end
  | None => exit_json {| changed := changed_; fields := [] |}
  end.

Definition main (p : Params) : M unit :=
  let c := common p in
  existing_repository <- get_repository_info t false (project_key c) (repository c) ;;
  if negb (exists_ existing_repository) && String.eqb (state p) "present" then
    if negb (check_mode c)
    then content <- create_repository p ;; finish true content
    else finish true existing_repository
  else if exists_ existing_repository && String.eqb (state p) "absent" then
    if negb (check_mode c)
    then content <- delete_repository p ;; finish true content
    else finish true existing_repository
  else finish false existing_repository.

End WithTransport.
End Repo.

(* ================================================================== *)
(** ** Module [bitbucket_branch] *)
(* ================================================================== *)

Module Branch.
Import Py Eff BitbucketHelper.
Local Open Scope eff_scope.

Record Params : Type := {
  common : Common;
  state : string;
  branch : string;
  from_branch : string;
  is_default : bool
}.

Definition with_check_mode (b : bool) (p : Params) : Params :=
  {| common := in_check_mode b (common p); state := state p; branch := branch p;
     from_branch := from_branch p; is_default := is_default p |}.

(** [for d in existing]: iterating [None] raises. *)
Definition listed (existing : option (list json)) : res (list json) :=
  match existing with Some l => Ok l | None => Err TypeError end.

(** [d.get('displayId', 'non_existing_branch') == branch] *)
Definition is_branch (branch_ : string) (d : json) : res bool :=
  rbind (get d "displayId" (JStr "non_existing_branch")) (fun v =>
  Ok (json_eqb v (JStr branch_))).

(** [d.get('displayId', ...) == branch and (not d.get('isDefault', False))] *)
Definition is_non_default_branch (branch_ : string) (d : json) : res bool :=
  rbind (is_branch branch_ d) (fun b =>
  if b then rbind (get d "isDefault" (JBool false)) (fun v => Ok (negb (truthy v)))
  else Ok false).

(** The request [create_branch] sends. *)
Definition create_request (p : Params) : Request :=
  {| meth := "POST"; template := endpoint "branches";
     args := [("projectKey", JStr (project_key (common p)));
              ("repositorySlug", opt (repository (common p)))];
     data := Some (JDict [("name", JStr (branch p));
                          ("startPoint", JStr ("refs/heads/" ++ from_branch p)%string)]) |}.

Section WithTransport.
Variable t : Transport.

Definition create_branch (p : Params) : M (option dict) :=
  let c := common p in
  '(info, content) <- do_request t (create_request p) ;;
  if (status info =? 200)%Z then ret (Some content)
  else if (status info =? 401)%Z then
    fail_json {| msg_text := "The currently authenticated user has insufficient permissions to write to `{repositorySlug}` repository";
                 msg_args := [("repositorySlug", FOpt (repository c))] |}
  else if (status info =? 404)%Z then raise (NameError "repository")
  else
    fail_json {| msg_text := "Failed to create `{branch}` branch in the supplied `{repositorySlug}` repository and `{projectKey}` project: {info}";
                 msg_args := [("branch", FStr (branch p)); ("repositorySlug", FOpt (repository c));
                              ("projectKey", FStr (project_key c)); ("info", FInfo info)] |}.

(** The seeded [result] dict without [changed] and [json]. *)
Definition seed (p : Params) : dict :=
  [("project_key", JStr (project_key (common p)));
   ("repository", opt (repository (common p)));
   ("state", JStr (state p));
   ("branch", JStr (branch p));
   ("from_branch", JStr (from_branch p));
   ("is_default", JBool (is_default p))].

Definition of_content (content : option dict) : json :=
  match content with Some d => JDict d | None => JNull end.

(** The first [if] of [main]: create the branch when no listed branch has
    its name.  Yields [(changed, json)]. *)
Definition ensure_created (p : Params) (existing : option (list json))
  : M (bool * json) :=
  if String.eqb (state p) "present" then
    found <- lift (rbind (listed existing) (rany (is_branch (branch p)))) ;;
    if negb found then
      if negb (check_mode (common p)) then
        content <- create_branch p ;;
        (if is_default p
         then set_default_branch t (common p) (branch p) ;;; ret tt
         else ret tt) ;;;
        ret (true, of_content content)
      else ret (true, JDict [])
    else ret (false, JDict [])
  else ret (false, JDict []).

(** The second [if]: make an existing, non-default branch the default one
    when [is_default] is set. *)
Definition ensure_default (p : Params) (existing : option (list json))
    (changed_ : bool) : M bool :=
  if String.eqb (state p) "present" then
    found <- lift (rbind (listed existing) (rany (is_non_default_branch (branch p)))) ;;
    if found && is_default p then
      if negb (check_mode (common p))
      then set_default_branch t (common p) (branch p) ;;; ret true
      else ret true
    else ret changed_
  else ret changed_.

Definition main (fuel : nat) (p : Params) : M unit :=
  existing_branches <- get_branches_info t fuel (common p) false None ;;
  '(changed1, json_) <- ensure_created p existing_branches ;;
  changed2 <- ensure_default p existing_branches changed1 ;;
  exit_json {| changed := changed2; fields := seed p ++ [("json", json_)] |}.

End WithTransport.
End Branch.

(* ================================================================== *)
(** ** Module [bitbucket_branch_permissions] *)
(* ================================================================== *)

Module BranchPermissions.
Import Py Eff BitbucketHelper.
Local Open Scope eff_scope.

Record Exemptions : Type := {
  groups : list string;
  users : list string;
  access_keys : list string
}.

Record Restriction : Type := {
  prevent : string;
  exemptions : option Exemptions
}.

Record Params : Type := {
  common : Common;
  state : string;
  branch_name : option string;
  branch_pattern : option string;
  branching_model : option string;
  restrictions : list Restriction
}.

Definition with_check_mode (b : bool) (p : Params) : Params :=
  {| common := in_check_mode b (common p); state := state p;
     branch_name := branch_name p; branch_pattern := branch_pattern p;
     branching_model := branching_model p; restrictions := restrictions p |}.

Definition get_restriction_type (prevent_ : string) : string :=
  match lookup prevent_
          [("deletion", "no-deletes");
           ("rewriting history", "fast-forward-only");
           ("changes without a pull request", "pull-request-only");
           ("all changes", "read-only")] with
  | Some ty => ty
  | None => "unknown-restriction"
  end.

Definition matcher_dict (displayId id_ type_id type_name : string) : json :=
  JDict [("active", JBool true);
         ("displayId", JStr displayId);
         ("id", JStr id_);
         ("type", JDict [("id", JStr type_id); ("name", JStr type_name)])].

(** [get_matcher].  The three [if]s are tried in order; the condition of
    the inner [if] is the value of
    [matcher_name == 'development' or 'production']. *)
Definition get_matcher (matcher_type matcher_name : string) : json :=
  let m0 := JDict [] in
  let m1 := if String.eqb matcher_type "branch_name"
            then matcher_dict matcher_name ("refs/heads/" ++ matcher_name)%string
                              "BRANCH" "Branch"
            else m0 in
  let m2 := if String.eqb matcher_type "branch_pattern"
            then matcher_dict matcher_name matcher_name "PATTERN" "Pattern"
            else m1 in
  if String.eqb matcher_type "branching_model" then
    if truthy (py_or (JBool (String.eqb matcher_name "development")) (JStr "production"))
    then matcher_dict (capitalize matcher_name) matcher_name
                      "MODEL_BRANCH" "Branching model branch"
    else matcher_dict (capitalize matcher_name) (upper matcher_name)
                      "MODEL_CATEGORY" "Branching model category"
  else m2.

(** The local [matcher] of [main]: assigned by each of the three
    parameters that is set, the later assignment winning; unbound when
    none is. *)
Definition main_matcher (p : Params) : option json :=
  let m1 := match branch_name p with
            | Some n => Some (get_matcher "branch_name" n)
            | None => None
            end in
  let m2 := match branch_pattern p with
            | Some n => Some (get_matcher "branch_pattern" n)
            | None => m1
            end in
  match branching_model p with
  | Some n => Some (get_matcher "branching_model" n)
  | None => m2
  end.

Definition use_matcher (m : option json) : res json :=
  match m with Some v => Ok v | None => Err (UnboundLocalError "matcher") end.

Definition default_exemptions : Exemptions :=
  {| groups := []; users := []; access_keys := [] |}.

Definition exemptions_of (r : Restriction) : Exemptions :=
  match exemptions r with Some e => e | None => default_exemptions end.

Definition scope_type (p : Params) : string :=
  match repository (common p) with Some _ => "REPOSITORY" | None => "PROJECT" end.

(** [a and b] where both may raise and [b] is evaluated only if [a] holds. *)
Definition rand (a : res bool) (b : res bool) : res bool :=
  rbind a (fun x => if x then b else Ok false).

(** [g.lower()] on a listed value: only a string has [lower]. *)
Definition lower_of (g : json) : res string :=
  match g with JStr s => Ok (lower s) | _ => Err (AttributeError "lower") end.

Definition strs (l : list string) : json := JList (map JStr l).

(** The condition of the comprehension that computes [found]. *)
Definition matches (p : Params) (r : Restriction) (perm : json) : res bool :=
  let e := exemptions_of r in
  rand (rbind (get perm "matcher" (JDict [])) (fun v =>
        rbind (use_matcher (main_matcher p)) (fun m => Ok (json_eqb v m))))
  (rand (rbind (get perm "type" (JStr "no_type")) (fun v =>
         Ok (json_eqb v (JStr (get_restriction_type (prevent r))))))
  (rand (rbind (get perm "groups" (JList [])) (fun v =>
         rbind (iter v) (fun gs =>
         rbind (rmap lower_of gs) (fun ls =>
         Ok (list_eqb String.eqb ls (map lower (groups e)))))))
  (rand (rbind (get perm "users" (JList [])) (fun v =>
         rbind (iter v) (fun us =>
         rbind (rmap (fun u => subscript u "name") us) (fun names =>
         Ok (json_eqb (JList names) (strs (map upper (users e))))))))
  (rand (rbind (get perm "accessKeys" (JList [])) (fun v =>
         Ok (json_eqb v (strs (access_keys e)))))
        (rbind (get perm "scope" (JDict [])) (fun s =>
         rbind (get s "type" (JStr "no_type")) (fun v =>
         Ok (json_eqb v (JStr (scope_type p)))))))))).

Definition listed (existing : option (list json)) : res (list json) :=
  match existing with Some l => Ok l | None => Err TypeError end.

(** The URL of the restrictions of the project, or of the repository when
    one is given: template and format arguments. *)
Definition restrictions_url (p : Params) (suffix : string)
    (extra : list (string * json)) : string * list (string * json) :=
  match repository (common p) with
  | None => ((endpoint "branch-permissions-projects" ++ suffix)%string,
             [("projectKey", JStr (project_key (common p)))] ++ extra)
  | Some r => ((endpoint "branch-permissions-repos" ++ suffix)%string,
               [("projectKey", JStr (project_key (common p)));
                ("repositorySlug", JStr r)] ++ extra)
  end.

(** The request [delete_branch_permission] sends. *)
Definition delete_request (p : Params) (restriction_id : json) : Request :=
  {| meth := "DELETE";
     template := fst (restrictions_url p "/{id}" [("id", restriction_id)]);
     args := snd (restrictions_url p "/{id}" [("id", restriction_id)]);
     data := None |}.

Section WithTransport.
Variable t : Transport.

Definition create_branch_permission (p : Params) (restriction_type : string)
    (matcher : json) (e : Exemptions) : M (option dict) :=
  let '(tpl, a) := restrictions_url p EmptyString [] in
  '(info, content) <- do_request t
      {| meth := "POST"; template := tpl; args := a;
         data := Some (JDict [("type", JStr restriction_type);
                              ("matcher", matcher);
                              ("users", strs (users e));
                              ("groups", strs (groups e));
                              ("accessKeys", strs (access_keys e))]) |} ;;
  if (status info =? 200)%Z then ret (Some content)
  else if (status info =? 400)%Z then
    fail_json (plain "The request has failed validation")
  else if (status info =? 401)%Z then
    fail_json (plain "The currently authenticated user has insufficient permissions to perform this operation.")
  else
    fail_json {| msg_text := "Failed to create branch permissions in the supplied project and/or repository: {info}";
                 msg_args := [("info", FInfo info)] |}.

Definition delete_branch_permission (p : Params) (restriction_id : json)
  : M dict :=
  '(info, content) <- do_request t (delete_request p restriction_id) ;;
  if (status info =? 204)%Z then ret content
  else
    fail_json {| msg_text := "Failed to delete branch permissions in the supplied project and/or repository: {info}";
                 msg_args := [("info", FInfo info)] |}.

(** The loop state: [result['changed']] and [result['results']]. *)
Definition Acc : Type := (bool * list json)%type.

(** One iteration of [for restriction in restrictions]. *)
Definition step (p : Params) (existing : option (list json)) (acc : Acc)
    (r : Restriction) : M Acc :=
  let '(changed_, results) := acc in
  found <- lift (rbind (listed existing) (rfilter (matches p r))) ;;
  match found with
  | [] =>
      if String.eqb (state p) "present" then
        if negb (check_mode (common p)) then
          m <- lift (use_matcher (main_matcher p)) ;;
          content <- create_branch_permission p (get_restriction_type (prevent r)) m
                       (exemptions_of r) ;;
          ret (true, results ++ [match content with Some d => JDict d | None => JNull end])
        else ret (true, results)
      else ret (changed_, results)
  | first :: _ =>
      if String.eqb (state p) "absent" then
        if negb (check_mode (common p)) then
          id_ <- lift (get first "id" (JStr "none")) ;;
          delete_result <- delete_branch_permission p id_ ;;
          ret (true, results ++
                     [JDict (dict_update delete_result
                               [("restriction", first); ("status", JStr "deleted")])])
        else ret (true, results)
      else ret (changed_, results)
  end.

Fixpoint loop (p : Params) (existing : option (list json)) (acc : Acc)
    (rs : list Restriction) : M Acc :=
  match rs with
  | [] => ret acc
  | r :: rest => acc' <- step p existing acc r ;; loop p existing acc' rest
  end.

(** The seeded [result] dict without [changed], [results] and [messages]
    (and without the echo of [restrictions]). *)
Definition seed (p : Params) : dict :=
  [("project_key", JStr (project_key (common p))); ("state", JStr (state p))]
  ++ match repository (common p) with Some r => [("repository", JStr r)] | None => [] end
  ++ match branch_name p with Some n => [("branch_name", JStr n)] | None => [] end
  ++ match branch_pattern p with Some n => [("branch_pattern", JStr n)] | None => [] end
  ++ match branching_model p with Some n => [("branching_model", JStr n)] | None => [] end.

Definition finish {A : Type} (p : Params) (changed_ : bool) (results : list json)
    (messages : list json) : M A :=
  exit_json {| changed := changed_;
               fields := seed p ++ [("results", JList results);
                                    ("messages", JList messages)] |}.

Definition truthy_dict (d : option dict) : bool :=
  match d with Some (_ :: _) => true | _ => false end.

Definition main (fuel : nat) (p : Params) : M unit :=
  let c := common p in
  project <- get_project_info t false (project_key c) ;;
  if negb (truthy_dict project) then
    finish p false [] [JStr ("Project `" ++ project_key c ++ "` does not exist.")]
  else
    repo_missing <-
      match repository c with
      | Some r =>
          repo <- get_repository_info t false (project_key c) (Some r) ;;
          ret (negb (truthy_dict repo))
      | None => ret false
      end ;;
    if repo_missing then
      finish p false []
        [JStr ("Repository `" ++ match repository c with Some r => r | None => "None" end
               ++ "` does not exist.")]
    else
      existing <- get_branch_permissions_info t fuel false (project_key c) (repository c) ;;
      '(changed_, results) <- loop p existing (false, []) (restrictions p) ;;
      finish p changed_ results [].

End WithTransport.
End BranchPermissions.

(* ================================================================== *)
(** ** The checks that open [main] in the webhook and pull-request modules *)
(* ================================================================== *)

Module Checks.
Import Py Eff BitbucketHelper.
Local Open Scope eff_scope.

(** Truth value of what a lookup returned: [None] and the empty dict are
    false. *)
Definition truthy_dict (d : option dict) : bool :=
  match d with Some (_ :: _) => true | _ => false end.

(** Both modules start with the same statements: fail unless the project
    exists, then fail unless the repository exists. *)
Definition require_project_and_repository (t : Transport) (c : Common) : M unit :=
  project <- get_project_info t false (project_key c) ;;
  if negb (truthy_dict project) then
    fail_json_list [{| msg_text := "Project `{projectKey}` does not exist.";
                       msg_args := [("projectKey", FStr (project_key c))] |}]
  else
    repo <- get_repository_info t false (project_key c) (repository c) ;;
    if negb (truthy_dict repo) then
      fail_json_list [{| msg_text := "Repository `{repositorySlug}` does not exist.";
                         msg_args := [("repositorySlug", FOpt (repository c))] |}]
    else ret tt.

End Checks.

(* ================================================================== *)
(** ** Module [bitbucket_webhook] *)
(* ================================================================== *)

Module Webhook.
Import Py Eff BitbucketHelper.
Local Open Scope eff_scope.

Record Params : Type := {
  common : Common;
  state : string;
  webhook_name : string;
  webhook_url : string;
  event : string
}.

Definition with_check_mode (b : bool) (p : Params) : Params :=
  {| common := in_check_mode b (common p); state := state p;
     webhook_name := webhook_name p; webhook_url := webhook_url p; event := event p |}.

Definition listed (existing : option (list json)) : res (list json) :=
  match existing with Some l => Ok l | None => Err TypeError end.

(** [d.get('name', 'non_existing_webhook') == webhook_name] *)
Definition is_webhook (name : string) (d : json) : res bool :=
  rbind (get d "name" (JStr "non_existing_webhook")) (fun v =>
  Ok (json_eqb v (JStr name))).

Section WithTransport.
Variable t : Transport.

(** [create_webhook]: the 404 branch formats its message with a name,
    [repository], that is not defined there. *)
Definition create_webhook (p : Params) : M (option dict) :=
  let c := common p in
  '(info, content) <- do_request t
      {| meth := "POST"; template := endpoint "webhooks";
         args := [("projectKey", JStr (project_key c)); ("repositorySlug", opt (repository c))];
         data := Some (JDict [("name", JStr (webhook_name p));
                              ("url", JStr (webhook_url p));
                              ("events", JList (map JStr (split_comma (event p))));
                              ("active", JStr "true")]) |} ;;
  if (status info =? 201)%Z then ret (Some content)
  else if (status info =? 401)%Z then
    fail_json {| msg_text := "The currently authenticated user has insufficient permissions to write to `{repositorySlug}` repository";
                 msg_args := [("repositorySlug", FOpt (repository c))] |}
  else if (status info =? 404)%Z then raise (NameError "repository")
  else ret None.

Definition seed (p : Params) : dict :=
  [("project_key", JStr (project_key (common p)));
   ("repository", opt (repository (common p)));
   ("state", JStr (state p));
   ("webhook_name", JStr (webhook_name p));
   ("parsed_event", JList (map JStr (split_comma (event p))));
   ("messages", JList [])].

Definition of_content (content : option dict) : json :=
  match content with Some d => JDict d | None => JNull end.

(** [main]: the only action is the creation of a missing webhook; nothing
    is done for [state == 'absent']. *)
Definition main (fuel : nat) (p : Params) : M unit :=
  let c := common p in
  Checks.require_project_and_repository t c ;;;
  existing_webhooks <- get_webhooks_info t fuel c false None ;;
  if String.eqb (state p) "present" then
    found <- lift (rbind (listed existing_webhooks) (rany (is_webhook (webhook_name p)))) ;;
    if negb found then
      if negb (check_mode c) then
        content <- create_webhook p ;;
        exit_json {| changed := true; fields := seed p ++ [("json", of_content content)] |}
      else exit_json {| changed := true; fields := seed p ++ [("json", JDict [])] |}
    else exit_json {| changed := false; fields := seed p ++ [("json", JDict [])] |}
  else exit_json {| changed := false; fields := seed p ++ [("json", JDict [])] |}.

End WithTransport.
End Webhook.

(* ================================================================== *)
(** ** Module [bitbucket_pull_request] *)
(* ================================================================== *)

Module PullRequest.
Import Py Eff BitbucketHelper.
Local Open Scope eff_scope.

Record Params : Type := {
  common : Common;
  state : string;
  title : string;
  from_branch : string;
  to_branch : string;
  reviewers : list string
}.

Definition with_check_mode (b : bool) (p : Params) : Params :=
  {| common := in_check_mode b (common p); state := state p; title := title p;
     from_branch := from_branch p; to_branch := to_branch p; reviewers := reviewers p |}.

(** [BitbucketHelper.listify_comma_sep_strings_in_list] *)
Definition listify_comma_sep_strings_in_list (some_list : list string) : list string :=
  let with_comma := filter has_comma some_list in
  let new_list := flat_map (fun element => map strip (split_comma element)) with_comma in
  let kept := fold_left (fun l element => remove_first element l) with_comma some_list in
  let out := kept ++ new_list in
  if list_eqb String.eqb out [EmptyString] then [] else out.

Definition listed (existing : option (list json)) : res (list json) :=
  match existing with Some l => Ok l | None => Err TypeError end.

(** [d.get(ref, default)['displayId'] == name]; the default is a string,
    which cannot be indexed by ['displayId']. *)
Definition ref_is (ref default name : string) (d : json) : res bool :=
  rbind (get d ref (JStr default)) (fun r =>
  rbind (subscript r "displayId") (fun v =>
  Ok (json_eqb v (JStr name)))).

(** The condition inside the deletion loop: [toRef] first, then [fromRef]. *)
Definition is_pull (p : Params) (d : json) : res bool :=
  rbind (ref_is "toRef" "non_existing_pull_to_branch" (to_branch p) d) (fun a =>
  if a then ref_is "fromRef" "non_existing_pull_to_branch" (from_branch p) d
  else Ok false).

(** The condition of the creation branch, without [state == 'present']. *)
Definition pull_missing (p : Params) (existing : option (list json)) : res bool :=
  rbind (rbind (listed existing)
           (rany (ref_is "fromRef" "non_existing_pull_from_branch" (from_branch p))))
    (fun from_found =>
  if negb from_found then Ok true
  else rbind (rbind (listed existing)
                (rany (ref_is "toRef" "non_existing_pull_to_branch" (to_branch p))))
         (fun to_found => Ok (negb to_found))).

Definition truthy_list (l : option (list json)) : bool :=
  match l with Some (_ :: _) => true | _ => false end.

Section WithTransport.
Variable t : Transport.

Definition ref (p : Params) (b : string) : json :=
  JDict [("id", JStr ("refs/heads/" ++ b)%string);
         ("repository",
          JDict [("slug", opt (repository (common p)));
                 ("name", JStr "null");
                 ("project", JDict [("key", JStr (project_key (common p)))])])].

Definition create_pull_request (p : Params) : M (option dict) :=
  let c := common p in
  let reviewers_ := listify_comma_sep_strings_in_list (map strip (reviewers p)) in
  let reviewers_data :=
    map (fun r => JDict [("user", JDict [("name", JStr (upper r))])]) reviewers_ in
  '(info, content) <- do_request t
      {| meth := "POST"; template := endpoint "pulls";
         args := [("projectKey", JStr (project_key c)); ("repositorySlug", opt (repository c))];
         data := Some (JDict [("title", JStr (title p));
                              ("description", JStr (title p));
                              ("state", JStr "open");
                              ("open", JStr "true");
                              ("closed", JStr "false");
                              ("fromRef", ref p (from_branch p));
                              ("toRef", ref p (to_branch p));
                              ("locked", JStr "false");
                              ("reviewers", JList reviewers_data)]) |} ;;
  if (status info =? 201)%Z then ret (Some content)
  else if (status info =? 401)%Z then
    fail_json {| msg_text := "The currently authenticated user has insufficient permissions to write to `{repositorySlug}` repository";
                 msg_args := [("repositorySlug", FOpt (repository c))] |}
  else if (status info =? 404)%Z then raise (NameError "repository")
  else if (status info =? 409)%Z then fail_json (plain "Wrong reviewer provided.")
  else ret None.

(** The request [delete_pull_request] sends. *)
Definition delete_request (p : Params) (pull_id version : json) : Request :=
  {| meth := "DELETE"; template := endpoint "pulls-delete";
     args := [("projectKey", JStr (project_key (common p)));
              ("repositorySlug", opt (repository (common p)));
              ("pullid", pull_id)];
     data := Some (JDict [("version", version)]) |}.

(** [delete_pull_request]: the 404 branch reads [module.params['pull_id']],
    a parameter the module does not declare. *)
Definition delete_pull_request (p : Params) (pull_id version : json)
  : M (option dict) :=
  let c := common p in
  '(info, content) <- do_request t (delete_request p pull_id version) ;;
  if (status info =? 204)%Z then ret (Some content)
  else if (status info =? 401)%Z then
    fail_json {| msg_text := "The currently authenticated user has insufficient permissions to write to `{repositorySlug}` repository";
                 msg_args := [("repositorySlug", FOpt (repository c))] |}
  else if (status info =? 404)%Z then raise (KeyError "pull_id")
  else if (status info =? 409)%Z then
    fail_json (plain "You are attempting to modify a pull request based on out-of-date information. Wrong version provided.")
  else ret None.

Definition of_content (content : option dict) : json :=
  match content with Some d => JDict d | None => JNull end.

(** [d.get('id')] and [d.get('version')]: [None] when the key is missing. *)
Definition field (d : json) (k : string) : json :=
  match get d k JNull with Ok v => v | Err _ => JNull end.

(** [for d in existing_pulls: ...], threading [(changed, json)]. *)
Fixpoint delete_loop (p : Params) (acc : bool * json) (pulls : list json)
  : M (bool * json) :=
  match pulls with
  | [] => ret acc
  | d :: rest =>
      hit <- lift (is_pull p d) ;;
      if hit then
        if negb (check_mode (common p)) then
          content <- delete_pull_request p (field d "id") (field d "version") ;;
          delete_loop p (true, of_content content) rest
        else delete_loop p (true, snd acc) rest
      else delete_loop p acc rest
  end.

Definition seed (p : Params) : dict :=
  [("project_key", JStr (project_key (common p)));
   ("repository", opt (repository (common p)));
   ("state", JStr (state p));
   ("messages", JList [])].

(** [main] after the listing. *)
Definition reconcile (p : Params) (existing_pulls : option (list json)) : M unit :=
  create <- (if String.eqb (state p) "present"
             then lift (pull_missing p existing_pulls)
             else ret false) ;;
  if create then
    if negb (check_mode (common p)) then
      content <- create_pull_request p ;;
      exit_json {| changed := true; fields := seed p ++ [("json", of_content content)] |}
    else exit_json {| changed := true; fields := seed p ++ [("json", JDict [])] |}
  else if truthy_list existing_pulls && String.eqb (state p) "absent" then
    '(changed_, json_) <-
       delete_loop p (false, JDict [])
         (match existing_pulls with Some l => l | None => [] end) ;;
    exit_json {| changed := changed_; fields := seed p ++ [("json", json_)] |}
  else exit_json {| changed := false; fields := seed p ++ [("json", JDict [])] |}.

Definition main (fuel : nat) (p : Params) : M unit :=
  let c := common p in
  Checks.require_project_and_repository t c ;;;
  existing_pulls <- get_pull_request_info t fuel c false None ;;
  reconcile p existing_pulls.

End WithTransport.
End PullRequest.

(* ================================================================== *)
(** ** Module [bitbucket_find]: [get_list_of_files] *)
(* ================================================================== *)

Module Find.
Import Py Eff BitbucketHelper.
Local Open Scope eff_scope.

(** [raise AnsibleError(msg)] in this module: the module does not import
    [AnsibleError], so evaluating the name raises [NameError] whatever the
    message. *)
Definition raise_AnsibleError {A : Type} (msg : message) : M A :=
  raise (NameError "AnsibleError").

Definition files_request (c : Common) (at_ : option string) (nextPageStart : json)
  : Request :=
  GET (endpoint "repos-files" ++ "?limit=1000&start={nextPageStart}{path}{at}")%string
      [("projectKey", JStr (project_key c)); ("repositorySlug", opt (repository c));
       ("nextPageStart", nextPageStart);
       ("at", filter_text "&at=" at_);
       ("path", JStr EmptyString)].

Section WithTransport.
Variable t : Transport.

(** The loop of [get_list_of_files]; the status is examined inside the
    loop, before the cursor is read. *)
Fixpoint files_loop (fuel : nat) (c : Common) (at_ : option string)
    (filelist : list json) (nextPageStart : json) : M (list json) :=
  match fuel with
  | O => out_of_fuel
  | S fuel' =>
      '(info, content) <- do_request t (files_request c at_ nextPageStart) ;;
      filelist' <-
        (if (status info =? 200)%Z
         then values <- lift (getitem content "values") ;;
              items <- lift (iter values) ;;
              ret (filelist ++ items)
         else ret filelist) ;;
      if (status info =? 400)%Z then
        raise_AnsibleError (plain "The path requested is not a directory at the supplied commit.")
      else if (status info =? 404)%Z then
        raise_AnsibleError (plain "The specified repository does not exist.")
      else if negb (status info =? 200)%Z then
        raise_AnsibleError
          {| msg_text := "Failed to retrieve a list of files Bitbucket Server.  : {info}";
             msg_args := [("info", FInfo info)] |}
      else
        match lookup "isLastPage" content with
        | Some isLastPage =>
            let nextPageStart' :=
              match lookup "nextPageStart" content with
              | Some c' => c'
              | None => nextPageStart
              end in
            if truthy isLastPage then ret filelist'
            else files_loop fuel' c at_ filelist' nextPageStart'
        | None => ret filelist'
        end
  end.

Definition get_list_of_files (fuel : nat) (c : Common) (at_ : option string)
  : M (list json) :=
  files_loop fuel c at_ [] (JInt 0).

End WithTransport.
End Find.

(* ================================================================== *)
(** ** Lookup plugin [bitbucket_fileglob]: the listing of [run] *)
(* ================================================================== *)

Module Fileglob.
Import Py Eff BitbucketHelper.
Local Open Scope eff_scope.

(** The lookup has its own [request], whose [content] is whatever
    [json.loads] returned: any value, not only a dict. *)
Definition Transport : Type := list Request -> Request -> res (Info * json).

Definition do_request (t : Transport) (r : Request) : M (Info * json) :=
  fun tr =>
    match t tr r with
    | Ok answer => (Ret answer, tr ++ [r])
    | Err e => (Raise e, tr ++ [r])
    end.

Definition is_substring (k s : string) : bool :=
  match String.index 0 k s with Some _ => true | None => false end.

(** [k in v] for a string [k]: key of a dict, element of a list, substring
    of a string. *)
Definition contains (v : json) (k : string) : res bool :=
  match v with
  | JDict d => Ok (has_key k d)
  | JList l => Ok (existsb (json_eqb (JStr k)) l)
  | JStr s => Ok (is_substring k s)
  | _ => Err TypeError
  end.

Record Options : Type := {
  project_key : string;
  repository : option string;
  at_ : option string
}.

Definition files_request (o : Options) (nextPageStart : json) : Request :=
  GET (endpoint "repos-files" ++ "?limit=1000&start={nextPageStart}{path}{at}")%string
      [("projectKey", JStr (project_key o)); ("repositorySlug", opt (repository o));
       ("nextPageStart", nextPageStart);
       ("path", JStr EmptyString);
       ("at", filter_text "&at=" (at_ o))].

Definition not_a_directory : message :=
  plain "The path requested is not a directory at the supplied commit.".
Definition repository_missing : message :=
  plain "The specified repository does not exist.".
Definition listing_failed (info : Info) : message :=
  {| msg_text := "Failed to retrieve a list of files Bitbucket Server.  : {info}";
     msg_args := [("info", FInfo info)] |}.

Section WithTransport.
Variable t : Transport.

Fixpoint files_loop (fuel : nat) (o : Options) (all_files : list json)
    (nextPageStart : json) : M (list json) :=
  match fuel with
  | O => out_of_fuel
  | S fuel' =>
      '(info, content) <- do_request t (files_request o nextPageStart) ;;
      all_files' <-
        (if (status info =? 200)%Z
         then values <- lift (subscript content "values") ;;
              items <- lift (iter values) ;;
              ret (all_files ++ items)
         else ret all_files) ;;
      if (status info =? 400)%Z then raise (AnsibleError not_a_directory)
      else if (status info =? 404)%Z then raise (AnsibleError repository_missing)
      else if negb (status info =? 200)%Z then raise (AnsibleError (listing_failed info))
      else
        has_last <- lift (contains content "isLastPage") ;;
        if has_last then
          isLastPage <- lift (subscript content "isLastPage") ;;
          has_next <- lift (contains content "nextPageStart") ;;
          nextPageStart' <- (if has_next then lift (subscript content "nextPageStart")
                             else ret nextPageStart) ;;
          if truthy isLastPage then ret all_files'
          else files_loop fuel' o all_files' nextPageStart'
        else ret all_files'
  end.

(** The [try: ... except Exception as e: raise AnsibleError(... % e)] around
    the loop: every exception leaves as an [AnsibleError] quoting it. *)
Definition list_files (fuel : nat) (o : Options) : M (list json) :=
  fun tr =>
    match files_loop fuel o [] (JInt 0) tr with
    | (Raise e, tr') =>
        (Raise (AnsibleErrorFrom
                  "Failed to retrieve a list of files Bitbucket Server. Error was: %s" e),
         tr')
    | other => other
    end.

End WithTransport.
End Fileglob.

(* ================================================================== *)
(** ** Lookup plugin [bitbucket_fileglob]: [request] and [fetch_url] *)
(* ================================================================== *)

Module FileglobRequest.
Import Py Eff.

(** The options [request] reads. *)
Record Options : Type := {
  token : option string;
  retries : Z;
  sleep : Z;
  validate_certs : bool;
  use_proxy : bool;
  username : option string;
  password : option string
}.

(** One call of [open_url].  No method is passed on: every call is a
    [GET]. *)
Record Open : Type := {
  o_url : string;
  o_validate_certs : bool;
  o_use_proxy : bool;
  o_url_username : option string;
  o_url_password : option string;
  o_headers : list (string * string);
  o_force_basic_auth : bool
}.

Inductive Event : Type :=
| EvOpen (o : Open)
| EvSleep (seconds : Z).

(** What [open_url] does: it returns a response, with its status code and
    body, or raises one of the exceptions [fetch_url] tells apart. *)
Inductive Opened : Type :=
| Response (code : Z) (body : Executor.Body)
| HTTPError (code : Z)
| URLError
| SSLValidationError
| ConnectionError
| OtherException.

Definition Transport : Type := list Event -> Open -> Opened.

(** [fetch_url] returns [(response, error, info)]; of [error] only
    [error is None] is ever looked at, of [info] only its [status].  A
    plain [URLError] has no [code], so its status is the default, -1. *)
Definition fetch_url (o : Opened) : option Executor.Body * bool * Info :=
  match o with
  | Response code body => (Some body, false, {| status := code |})
  | HTTPError code => (None, true, {| status := code |})
  | URLError => (None, true, {| status := -1 |})
  | SSLValidationError => (None, true, {| status := -1 |})
  | ConnectionError => (None, true, {| status := -1 |})
  | OtherException => (None, true, {| status := -1 |})
  end.

(** The locals [response], [error] and [info]: unbound until the first
    [fetch_url]. *)
Inductive Locals : Type :=
| Unbound
| Bound (response : option Executor.Body) (error : bool) (info : Info).

Definition is_open (e : Event) : bool :=
  match e with EvOpen _ => true | EvSleep _ => false end.
Definition is_sleep (e : Event) : bool :=
  match e with EvOpen _ => false | EvSleep _ => true end.

Section WithOptions.
Variable t : Transport.
Variable p : Options.

(** [while iretries <= self.get_option('retries'): ...]: the loop is left
    when [error is None]; every error, an HTTP error included, leads to a
    sleep and another attempt. *)
Fixpoint retry_loop (fuel : nat) (o : Open) (iretries : Z) (loc : Locals)
    (tr : list Event) : outcome Locals * list Event :=
  match fuel with
  | O => (OutOfFuel, tr)
  | S fuel' =>
      if (iretries <=? retries p)%Z then
        let '(response, error, info) := fetch_url (t tr o) in
        let tr1 := tr ++ [EvOpen o] in
        if negb error then (Ret (Bound response error info), tr1)
        else if (sleep p <? 0)%Z then (Raise ValueError, tr1)
        else retry_loop fuel' o (iretries + 1)%Z (Bound response error info)
                        (tr1 ++ [EvSleep (sleep p)])
      else (Ret loc, tr)
  end.

(** [content]: whatever [json.loads] returns, a dict or not. *)
Definition content_of (response : option Executor.Body) : json :=
  match response with
  | None => JDict []
  | Some Executor.BodyEmpty => JDict []
  | Some (Executor.BodyJson js) => js
  | Some (Executor.BodyText body) => JDict [("content", JStr body)]
  end.

(** The bearer token is sent whenever a token is given, the empty one
    included. *)
Definition open_of (url : string) : Open :=
  {| o_url := url;
     o_validate_certs := validate_certs p;
     o_use_proxy := use_proxy p;
     o_url_username := username p;
     o_url_password := password p;
     o_headers := match token p with
                  | Some tok => [("Authorization", ("Bearer " ++ tok)%string)]
                  | None => []
                  end;
     o_force_basic_auth := match token p with Some _ => false | None => true end |}.

(** [request(url, method)]. *)
Definition request (url : string) : outcome (Info * json) * list Event :=
  match retry_loop (S (Z.to_nat (retries p))) (open_of url) 1%Z Unbound [] with
  | (Ret Unbound, tr) => (Raise (UnboundLocalError "response"), tr)
  | (Ret (Bound response error info), tr) => (Ret (info, content_of response), tr)
  | (Raise e, tr) => (Raise e, tr)
  | (FailJson m, tr) => (FailJson m, tr)
  | (ExitJson r, tr) => (ExitJson r, tr)
  | (OutOfFuel, tr) => (OutOfFuel, tr)
  end.

End WithOptions.

(** The lookup's [request] as [run] sees it: each call starts afresh, on
    the URL that [format] makes of the template and its arguments. *)
Definition through_request (open : Transport) (p : Options)
    (format : Request -> string) : Fileglob.Transport :=
  fun _ r =>
    match request open p (format r) with
    | (Ret answer, _) => Ok answer
    | (Raise e, _) => Err e
    | (_, _) => Err ValueError
    end.

End FileglobRequest.

(* ================================================================== *)
(** ** [for] loops and list parameters *)
(* ================================================================== *)

Module Control.
Import Py Eff.
Local Open Scope eff_scope.

(** [for x in l: body], threading the variables the body assigns. *)
Fixpoint for_each {A S : Type} (body : S -> A -> M S) (l : list A) (s : S) : M S :=
  match l with
  | [] => ret s
  | x :: rest => s' <- body s x ;; for_each body rest s'
  end.

(** The statements with which a module reads a list parameter:
<<
    xs = [p.strip() for p in module.params[...]]
    xs = bitbucket.listify_comma_sep_strings_in_list(xs)
    if not xs:
        xs = [ '*' ]
>> *)
Definition list_param (default : string) (l : list string) : list string :=
  match PullRequest.listify_comma_sep_strings_in_list (map strip l) with
  | [] => [default]
  | xs => xs
  end.

(** ['*' in xs] *)
Definition has_star (xs : list string) : bool := existsb (String.eqb "*") xs.

(** A string-or-[None] value as [format] prints it. *)
Definition str_of (o : option string) : string :=
  match o with Some s => s | None => "None" end.

(** Truth value of what a lookup returned: [None] and the empty dict are
    false. *)
Definition truthy_dict (d : option dict) : bool :=
  match d with Some (_ :: _) => true | _ => false end.

(** Iterating what a listing returned: [None] is not iterable. *)
Definition listed (existing : option (list json)) : res (list json) :=
  match existing with Some l => Ok l | None => Err TypeError end.

(** A helper's return value as a result field. *)
Definition of_content (content : option dict) : json :=
  match content with Some d => JDict d | None => JNull end.

Definition of_listing (l : option (list json)) : json :=
  match l with Some x => JList x | None => JNull end.

Definition project_missing (project_key_ : string) : json :=
  JStr ("Project `" ++ project_key_ ++ "` does not exist.")%string.

End Control.

(* ================================================================== *)
(** ** Module [bitbucket_project] *)
(* ================================================================== *)

Module Project.
Import Py Eff BitbucketHelper Control.
Local Open Scope eff_scope.

Record Params : Type := {
  check_mode : bool;
  project_key : string;
  name : option string;
  description : option string;
  avatar : option string;
  state : string
}.

Definition with_check_mode (b : bool) (p : Params) : Params :=
  {| check_mode := b; project_key := project_key p; name := name p;
     description := description p; avatar := avatar p; state := state p |}.

(** The request [create_project] sends: the avatar is part of the payload
    only when one is given. *)
Definition create_request (p : Params) : Request :=
  {| meth := "POST"; template := endpoint "projects"; args := [];
     data := Some (JDict ([("key", JStr (project_key p));
                           ("name", opt (name p));
                           ("description", opt (description p))]
                          ++ match avatar p with
                             | Some a => [("avatar", JStr ("data:image/png;base64," ++ a)%string)]
                             | None => []
                             end)) |}.

(** The request [delete_project] sends. *)
Definition delete_request (p : Params) : Request :=
  {| meth := "DELETE"; template := endpoint "projects-projectKey";
     args := [("projectKey", JStr (project_key p))]; data := None |}.

Definition is_none {A : Type} (o : option A) : bool :=
  match o with None => true | Some _ => false end.

(** [AnsibleModule(..., required_together=[('username', 'password'),
    ('name', 'description')], ...)], the first statement of [main] that
    can fail: with one of [name] and [description] given and not the
    other, the constructor ends the run by [fail_json].  Its checks on
    the connection parameters ([username], [password], [token]), which
    are no part of [Params], are taken to pass. *)
Definition required_together (p : Params) : M unit :=
  if xorb (is_none (name p)) (is_none (description p))
  then fail_json (plain "parameters are required together: name, description")
  else ret tt.

(** [check_arguments]: [fail_json] ends the run, so the second test is
    reached only when the first one passes. *)
Definition check_arguments (p : Params) : M unit :=
  if is_none (name p) && String.eqb (state p) "present"
  then fail_json (plain "`name` is required when the `state` is `present`")
  else if is_none (description p) && String.eqb (state p) "present"
  then fail_json (plain "`description` is required when the `state` is `present`")
  else ret tt.

Section WithTransport.
Variable t : Transport.

Definition create_project (p : Params) : M (option dict) :=
  '(info, content) <- do_request t (create_request p) ;;
  if (status info =? 201)%Z then ret (Some content)
  else if (status info =? 400)%Z then
    fail_json {| msg_text := "`{projectKey}` project was not created due to a validation error";
                 msg_args := [("projectKey", FStr (project_key p))] |}
  else if (status info =? 401)%Z then
    fail_json {| msg_text := "The currently authenticated user has insufficient permissions to create `{projectKey}` project";
                 msg_args := [("projectKey", FStr (project_key p))] |}
  else if (status info =? 409)%Z then
    fail_json {| msg_text := "The project key ({projectKey}) or name ({name}) is already in use";
                 msg_args := [("projectKey", FStr (project_key p)); ("name", FOpt (name p))] |}
  else
    fail_json {| msg_text := "Failed to create project with the supplied projectKey `{projectKey}`: {info}";
                 msg_args := [("projectKey", FStr (project_key p)); ("info", FInfo info)] |}.

Definition delete_project (p : Params) : M (option dict) :=
  '(info, content) <- do_request t (delete_request p) ;;
  if (status info =? 204)%Z then ret (Some content)
  else if (status info =? 401)%Z then
    fail_json {| msg_text := "The currently authenticated user has insufficient permissions to delete `{projectKey}` project";
                 msg_args := [("projectKey", FStr (project_key p))] |}
  else if (status info =? 404)%Z then
    fail_json {| msg_text := "`{projectKey}` project does not exist.";
                 msg_args := [("projectKey", FStr (project_key p))] |}
  else if (status info =? 409)%Z then
    fail_json {| msg_text := "`{projectKey}` project can not be deleted as it contains repositories";
                 msg_args := [("projectKey", FStr (project_key p))] |}
  else
    fail_json {| msg_text := "Failed to delete project `{projectKey}`: {info}";
                 msg_args := [("projectKey", FStr (project_key p)); ("info", FInfo info)] |}.

(** [module.exit_json(changed=changed, **content)], or without fields when
    [content] is [None]; as in [bitbucket_repo], a key [changed] in
    [content] makes the call raise [TypeError]. *)
Definition finish {A : Type} (changed_ : bool) (content : option dict) : M A :=
  match content with
  | Some d =>
      match lookup "changed" d with
      | Some _ => raise TypeError
      | None => exit_json {| changed := changed_; fields := d |}
      end
  | None => exit_json {| changed := changed_; fields := [] |}
  end.

Definition main (p : Params) : M unit :=
  required_together p ;;;
  check_arguments p ;;;
  existing_project <- get_project_info t false (project_key p) ;;
  if negb (truthy_dict existing_project) && String.eqb (state p) "present" then
    if negb (check_mode p)
    then content <- create_project p ;; finish true content
    else finish true existing_project
  else if truthy_dict existing_project && String.eqb (state p) "absent" then
    if negb (check_mode p)
    then content <- delete_project p ;; finish true content
    else finish true existing_project
  else finish false existing_project.

End WithTransport.
End Project.

(* ================================================================== *)
(** ** Module [bitbucket_default_branch] *)
(* ================================================================== *)

Module DefaultBranch.
Import Py Eff BitbucketHelper Control.
Local Open Scope eff_scope.

Record Params : Type := { common : Common; branch : string }.

Definition with_check_mode (b : bool) (p : Params) : Params :=
  {| common := in_check_mode b (common p); branch := branch p |}.

(** [d.get('displayId', 'non_existing_branch') == branch and d.get('isDefault', False)] *)
Definition is_default_branch (branch_ : string) (d : json) : res bool :=
  rbind (Branch.is_branch branch_ d) (fun b =>
  if b then rbind (get d "isDefault" (JBool false)) (fun v => Ok (truthy v))
  else Ok false).

(** The seeded [result] dict without [changed] and [json]. *)
Definition seed (p : Params) : dict :=
  [("isDefault", JBool true);
   ("project_key", JStr (project_key (common p)));
   ("repository", opt (repository (common p)));
   ("branch", JStr (branch p))].

Section WithTransport.
Variable t : Transport.

(** [main] after the listing of the branches. *)
Definition reconcile (p : Params) (existing_branches : option (list json)) : M unit :=
  found <- lift (rbind (listed existing_branches) (rany (Branch.is_branch (branch p)))) ;;
  if found then
    is_default <- lift (rbind (listed existing_branches)
                               (rany (is_default_branch (branch p)))) ;;
    if negb is_default then
      if negb (check_mode (common p)) then
        content <- set_default_branch t (common p) (branch p) ;;
        exit_json {| changed := true; fields := seed p ++ [("json", of_content content)] |}
      else exit_json {| changed := true; fields := seed p ++ [("json", JDict [])] |}
    else exit_json {| changed := false; fields := seed p ++ [("json", JDict [])] |}
  else
    fail_json {| msg_text := "Branch `{branch}` does not exist in `{repositorySlug}` repository";
                 msg_args := [("branch", FStr (branch p));
                              ("repositorySlug", FOpt (repository (common p)))] |}.

Definition main (fuel : nat) (p : Params) : M unit :=
  let c := common p in
  project <- get_project_info t false (project_key c) ;;
  if negb (truthy_dict project) then
    fail_json {| msg_text := "Project `{projectKey}` does not exist.";
                 msg_args := [("projectKey", FStr (project_key c))] |}
  else
    repo <- get_repository_info t false (project_key c) (repository c) ;;
    if negb (truthy_dict repo) then
      fail_json {| msg_text := "Repository `{repository}` does not exist.";
                   msg_args := [("repository", FOpt (repository c))] |}
    else
      existing_branches <- get_branches_info t fuel c false None ;;
      reconcile p existing_branches.

End WithTransport.
End DefaultBranch.

(* ================================================================== *)
(** ** Module [bitbucket_repo_permissions] *)
(* ================================================================== *)

Module RepoPermissions.
Import Py Eff BitbucketHelper Control.
Local Open Scope eff_scope.

(** [permission] has no default: it is [None] when not given. *)
Record Params : Type := {
  common : Common;
  permission : option string;
  user : option string;
  group : option string
}.

Definition with_check_mode (b : bool) (p : Params) : Params :=
  {| common := in_check_mode b (common p); permission := permission p;
     user := user p; group := group p |}.

(** [module.params['permission'] == ''] *)
Definition no_permission (p : Params) : bool :=
  match permission p with Some s => String.eqb s EmptyString | None => false end.

(** [v.lower()] and [v.upper()] on a listed value: only a string has them. *)
Definition lower_of (v : json) : res string :=
  match v with JStr s => Ok (lower s) | _ => Err (AttributeError "lower") end.
Definition upper_of (v : json) : res string :=
  match v with JStr s => Ok (upper s) | _ => Err (AttributeError "upper") end.

(** [entry[key]['name'].lower() == name.lower()], [key] being ['user'] or
    ['group']. *)
Definition is_named (key name_ : string) (entry : json) : res bool :=
  rbind (subscript entry key) (fun u =>
  rbind (subscript u "name") (fun n =>
  rbind (lower_of n) (fun s => Ok (String.eqb s (lower name_))))).

(** [... and entry['permission'].upper() == module.params['permission'].upper()] *)
Definition has_grant (p : Params) (key name_ : string) (entry : json) : res bool :=
  rbind (is_named key name_ entry) (fun a =>
  if a then
    rbind (subscript entry "permission") (fun v =>
    rbind (upper_of v) (fun s =>
    rbind (match permission p with
           | Some x => Ok (upper x)
           | None => Err (AttributeError "upper")
           end) (fun s' => Ok (String.eqb s s'))))
  else Ok false).

(** The request [grant_repository_permissions] sends. *)
Definition grant_request (p : Params) (scope name_ : string) : Request :=
  {| meth := "PUT";
     template := (endpoint "repos-permissions" ++ "/{scope}?name={name}&permission={permission}")%string;
     args := [("projectKey", JStr (project_key (common p)));
              ("repositorySlug", opt (repository (common p)));
              ("scope", JStr scope); ("name", JStr name_);
              ("permission", opt (permission p))];
     data := None |}.

(** The request [revoke_repository_permissions] sends. *)
Definition revoke_request (p : Params) (scope name_ : string) : Request :=
  {| meth := "DELETE";
     template := (endpoint "repos-permissions" ++ "/{scope}?name={name}")%string;
     args := [("projectKey", JStr (project_key (common p)));
              ("repositorySlug", opt (repository (common p)));
              ("scope", JStr scope); ("name", JStr name_)];
     data := None |}.

(** The result fields other than [changed]; [user] and [group] are added
    when given. *)
Definition fields_of (p : Params) (json_ : json) (messages : list json) : dict :=
  [("permission", opt (permission p));
   ("project_key", JStr (project_key (common p)));
   ("repository", opt (repository (common p)));
   ("json", json_);
   ("messages", JList messages)]
  ++ match user p with Some u => [("user", JStr u)] | None => [] end
  ++ match group p with Some g => [("group", JStr g)] | None => [] end.

Section WithTransport.
Variable t : Transport.

(** [grant_repository_permissions]: its last branch calls
    [self.module.fail_json] in a plain function, where no [self] is in
    scope. *)
Definition grant_repository_permissions (p : Params) (fail_when_not_exists : bool)
    (scope name_ : string) : M (option dict) :=
  '(info, content) <- do_request t (grant_request p scope name_) ;;
  if (status info =? 204)%Z then ret (Some content)
  else if (status info =? 400)%Z then
    fail_json {| msg_text := "The request was malformed or the specified permission ({permission}) does not exist.";
                 msg_args := [("permission", FOpt (permission p))] |}
  else if (status info =? 401)%Z then
    fail_json {| msg_text := "The currently authenticated user is not a repository administrator for {repositorySlug} repository.";
                 msg_args := [("repositorySlug", FOpt (repository (common p)))] |}
  else if (status info =? 403)%Z then
    fail_json (plain "The action was disallowed as it would reduce the currently authenticated user permission level.")
  else if (status info =? 404)%Z then
    if fail_when_not_exists
    then fail_json (plain "The specified repository or user or group does not exist")
    else ret None
  else raise (NameError "self").

(** [revoke_repository_permissions], with the same last branch. *)
Definition revoke_repository_permissions (p : Params) (fail_when_not_exists : bool)
    (scope name_ : string) : M (option dict) :=
  '(info, content) <- do_request t (revoke_request p scope name_) ;;
  if (status info =? 204)%Z then ret (Some content)
  else if (status info =? 401)%Z then
    fail_json {| msg_text := "The currently authenticated user is not a repository administrator for {repositorySlug} repository.";
                 msg_args := [("repositorySlug", FOpt (repository (common p)))] |}
  else if (status info =? 404)%Z then
    if fail_when_not_exists
    then fail_json (plain "The specified repository or user or group does not exist")
    else ret None
  else if (status info =? 409)%Z then
    fail_json (plain "The action was disallowed as it would reduce the currently authenticated user permission level.")
  else raise (NameError "self").

(** The two [if]s of [main] for one scope (['users'] with key ['user'], or
    ['groups'] with key ['group']), after the listing of who has access;
    [acc] is [(result['changed'], result['json'])]. *)
Definition reconcile (p : Params) (scope key name_ : string)
    (with_access : option (list json)) (acc : bool * json) : M (bool * json) :=
  acc1 <-
    (if no_permission p then
       on_list <- lift (rbind (listed with_access) (rany (is_named key name_))) ;;
       if on_list then
         if negb (check_mode (common p)) then
           content <- revoke_repository_permissions p true scope name_ ;;
           ret (true, of_content content)
         else ret (true, snd acc)
       else ret acc
     else ret acc) ;;
  if negb (no_permission p) then
    granted <- lift (rbind (listed with_access) (rany (has_grant p key name_))) ;;
    if negb granted then
      if negb (check_mode (common p)) then
        content <- grant_repository_permissions p true scope name_ ;;
        ret (true, of_content content)
      else ret (true, snd acc1)
    else ret acc1
  else ret acc1.

Definition for_scope (fuel : nat) (p : Params) (scope key : string)
    (name_ : option string) (acc : bool * json) : M (bool * json) :=
  match name_ with
  | Some n =>
      with_access <- get_repository_permissions_info t fuel false
                       (project_key (common p)) (repository (common p)) scope None ;;
      reconcile p scope key n with_access acc
  | None => ret acc
  end.

Definition main (fuel : nat) (p : Params) : M unit :=
  let c := common p in
  project <- get_project_info t false (project_key c) ;;
  if negb (truthy_dict project) then
    exit_json {| changed := false;
                 fields := fields_of p (JDict []) [project_missing (project_key c)] |}
  else
    repo <- get_repository_info t false (project_key c) (repository c) ;;
    if negb (truthy_dict repo) then
      exit_json {| changed := false;
                   fields := fields_of p (JDict [])
                               [JStr ("Repository `" ++ str_of (repository c)
                                      ++ "` does not exist.")%string] |}
    else
      acc1 <- for_scope fuel p "users" "user" (user p) (false, JDict []) ;;
      acc2 <- for_scope fuel p "groups" "group" (group p) acc1 ;;
      exit_json {| changed := fst acc2; fields := fields_of p (snd acc2) [] |}.

End WithTransport.
End RepoPermissions.

(* ================================================================== *)
(** ** Module [bitbucket_find]: [slurp_file] and [main] *)
(* ================================================================== *)

Module FindFiles.
Import Py Eff BitbucketHelper Control.
Local Open Scope eff_scope.

Record Params : Type := {
  common : Common;
  at_ : option string;
  patterns : list string;
  grep : option string
}.

(** [BITBUCKET_API_ENDPOINTS['repos-raw-path']] *)
Definition repos_raw_path : string :=
  "{url}/rest/api/1.0/projects/{projectKey}/repos/{repositorySlug}/raw/{path}{at}".

(** The request [slurp_file] sends for a path. *)
Definition slurp_request (p : Params) (path : string) : Request :=
  GET repos_raw_path
      [("projectKey", JStr (project_key (common p)));
       ("repositorySlug", opt (repository (common p)));
       ("path", JStr path);
       ("at", filter_text "?at=" (at_ p))].

(** [list(set(files))]: every file once.  Python leaves the order of the
    result unspecified; here it is the order of the last occurrences. *)
Definition unique (files : list string) : list string := nodup string_dec files.

Section WithRegex.
(** Python's [re], as far as [main] uses it: whether [re.compile(pattern)]
    succeeds, and whether the compiled pattern's [search] finds a match
    in a text. *)
Variable compiles : string -> bool.
Variable search : string -> string -> bool.
Variable t : Transport.

(** [slurp_file]: the content of the file is what [request] put under
    ['content']. *)
Definition slurp_file (p : Params) (path : string) : M json :=
  '(info, content) <- do_request t (slurp_request p path) ;;
  if (status info =? 200)%Z then lift (getitem content "content")
  else
    fail_json {| msg_text := "Failed to retrieve content of a file which matches the supplied projectKey `{projectKey}`, repositorySlug `{repositorySlug}` and file path `{path}`: {info}";
                 msg_args := [("projectKey", FStr (project_key (common p)));
                              ("repositorySlug", FOpt (repository (common p)));
                              ("path", FStr path); ("info", FInfo info)] |}.

(** [try: re.compile(pattern) except Exception as e: raise AnsibleError(...)];
    the module does not import [AnsibleError]. *)
Definition re_compile (pattern : string) : M unit :=
  if compiles pattern then ret tt else raise (NameError "AnsibleError").

(** [pattern.search(x)]: only a string can be searched. *)
Definition re_search (pattern : string) (x : json) : res (option string) :=
  match x with
  | JStr s => Ok (if search pattern s then Some s else None)
  | _ => Err TypeError
  end.

(** The body of [for file_path in all_files], for one pattern. *)
Definition visit_file (p : Params) (pattern : string) (files : list string)
    (file_path : json) : M (list string) :=
  hit <- lift (re_search pattern file_path) ;;
  match hit with
  | Some path =>
      match grep p with
      | Some g =>
          file_content <- slurp_file p path ;;
          found <- lift (re_search g file_content) ;;
          match found with
          | Some _ => ret (files ++ [path])
          | None => ret files
          end
      | None => ret (files ++ [path])
      end
  | None => ret files
  end.

(** The body of [for input_pattern in patterns]. *)
Definition visit_pattern (p : Params) (all_files : list json) (files : list string)
    (input_pattern : string) : M (list string) :=
  re_compile input_pattern ;;;
  for_each (visit_file p input_pattern) all_files files.

Definition fields_of (p : Params) (patterns_ : list string) (files : list string) : dict :=
  [("project_key", JStr (project_key (common p)));
   ("repository", opt (repository (common p)));
   ("at", opt (at_ p));
   ("patterns", JList (map JStr patterns_));
   ("messages", JList []);
   ("files", JList (map JStr files));
   ("grep", opt (grep p))].

(** [main] after the listing of the files: the [grep] pattern is
    compiled, then every pattern is tried on every file. *)
Definition report (p : Params) (all_files : list json) : M unit :=
  let patterns_ := list_param ".+" (patterns p) in
  match grep p with Some g => re_compile g | None => ret tt end ;;;
  files <- for_each (visit_pattern p all_files) patterns_ [] ;;
  exit_json {| changed := false; fields := fields_of p patterns_ (unique files) |}.

Definition main (fuel : nat) (p : Params) : M unit :=
  let c := common p in
  Checks.require_project_and_repository t c ;;;
  all_files <- Find.get_list_of_files t fuel c (at_ p) ;;
  report p all_files.

End WithRegex.
End FindFiles.

(* ================================================================== *)
(** ** The [_info] modules *)
(* ================================================================== *)

(** Each of these modules reads and reports; none of them looks at
    [module.check_mode]. *)

Module ProjectInfo.
Import Py Eff BitbucketHelper Control.
Local Open Scope eff_scope.

(** [project_key] is a list here. *)
Record Params : Type := { project_key : list string }.

Definition lookup_request (project_key_ : string) : Request :=
  GET (endpoint "projects-projectKey") [("projectKey", JStr project_key_)].

Section WithTransport.
Variable t : Transport.

(** The body of [for project_key in project_keys]; the state is
    [(result['messages'], result['projects'])]. *)
Definition visit (acc : list json * list json) (project_key_ : string)
  : M (list json * list json) :=
  project_response <- get_project_info t false project_key_ ;;
  match project_response with
  | Some (x :: d) => ret (fst acc, snd acc ++ [JDict (x :: d)])
  | _ => ret (fst acc ++ [project_missing project_key_], snd acc)
  end.

Definition main (fuel : nat) (p : Params) : M unit :=
  let project_keys := list_param "*" (project_key p) in
  if has_star project_keys then
    projects <- get_all_projects_info t fuel false ;;
    exit_json {| changed := false;
                 fields := [("filter", JList (map JStr project_keys));
                            ("messages", JList []);
                            ("projects", of_listing projects)] |}
  else
    '(messages, projects) <- for_each visit project_keys ([], []) ;;
    exit_json {| changed := false;
                 fields := [("filter", JList (map JStr project_keys));
                            ("messages", JList messages);
                            ("projects", JList projects)] |}.

End WithTransport.
End ProjectInfo.

Module RepoInfo.
Import Py Eff BitbucketHelper Control.
Local Open Scope eff_scope.

(** [repository] is a list here. *)
Record Params : Type := { project_key : string; repository : list string }.

(** What the helper reads of [module.params]: the project key. *)
Definition common (p : Params) : Common :=
  {| BitbucketHelper.check_mode := false;
     BitbucketHelper.project_key := project_key p;
     BitbucketHelper.repository := None |}.

Definition lookup_request (p : Params) (repository_ : string) : Request :=
  GET (endpoint "repos-repositorySlug")
      [("projectKey", JStr (project_key p)); ("repositorySlug", JStr repository_)].

Section WithTransport.
Variable t : Transport.

(** The body of [for repository in repositories]; the state is
    [(result['messages'], result['repositories'])]. *)
Definition visit (p : Params) (acc : list json * list json) (repository_ : string)
  : M (list json * list json) :=
  repo_response <- get_repository_info t false (project_key p) (Some repository_) ;;
  match repo_response with
  | Some (x :: d) => ret (fst acc, snd acc ++ [JDict (x :: d)])
  | _ => ret (fst acc ++ [JStr ("Repository `" ++ repository_ ++ "` does not exist.")%string],
              snd acc)
  end.

Definition fields_of (p : Params) (repositories : list string) (messages : list json)
    (found : json) : dict :=
  [("project_key", JStr (project_key p));
   ("filter", JList (map JStr repositories));
   ("messages", JList messages);
   ("repositories", found)].

Definition main (fuel : nat) (p : Params) : M unit :=
  let repositories := list_param "*" (repository p) in
  project <- get_project_info t false (project_key p) ;;
  if negb (truthy_dict project) then
    exit_json {| changed := false;
                 fields := fields_of p repositories [project_missing (project_key p)]
                             (JList []) |}
  else if has_star repositories then
    found <- get_all_repositories_info t fuel (common p) false ;;
    exit_json {| changed := false;
                 fields := fields_of p repositories [] (of_listing found) |}
  else
    '(messages, found) <- for_each (visit p) repositories ([], []) ;;
    exit_json {| changed := false;
                 fields := fields_of p repositories messages (JList found) |}.

End WithTransport.
End RepoInfo.

Module BranchInfo.
Import Py Eff BitbucketHelper Control.
Local Open Scope eff_scope.

(** [branch] is a list here. *)
Record Params : Type := { common : Common; branch : list string }.

Definition fields_of (p : Params) (branches : list string) (messages : list json)
    (found : json) : dict :=
  [("repository", opt (repository (common p)));
   ("project_key", JStr (project_key (common p)));
   ("filter", JList (map JStr branches));
   ("messages", JList messages);
   ("branches", found)].

Section WithTransport.
Variable t : Transport.

(** [result['branches'].extend(bitbucket.get_branches_info(..., filter=branch))] *)
Definition visit (fuel : nat) (p : Params) (acc : list json) (branch_ : string)
  : M (list json) :=
  found <- get_branches_info t fuel (common p) false (Some branch_) ;;
  items <- lift (listed found) ;;
  ret (acc ++ items).

(** Both lookups are made, whatever the first one says. *)
Definition main (fuel : nat) (p : Params) : M unit :=
  let c := common p in
  let branches := list_param "*" (branch p) in
  project <- get_project_info t false (project_key c) ;;
  let messages1 := if negb (truthy_dict project)
                   then [project_missing (project_key c)] else [] in
  repo <- get_repository_info t false (project_key c) (repository c) ;;
  let messages2 := if negb (truthy_dict repo)
                   then messages1 ++ [JStr ("Repository `" ++ str_of (repository c)
                                            ++ "` does not exist.")%string]
                   else messages1 in
  match messages2 with
  | [] =>
      if has_star branches then
        found <- get_branches_info t fuel c false None ;;
        exit_json {| changed := false;
                     fields := fields_of p branches [] (of_listing found) |}
      else
        found <- for_each (visit fuel p) branches [] ;;
        exit_json {| changed := false;
                     fields := fields_of p branches [] (JList found) |}
  | _ => exit_json {| changed := false;
                      fields := fields_of p branches messages2 (JList []) |}
  end.

End WithTransport.
End BranchInfo.

Module WebhookInfo.
Import Py Eff BitbucketHelper Control.
Local Open Scope eff_scope.

Definition main (t : Transport) (fuel : nat) (c : Common) : M unit :=
  Checks.require_project_and_repository t c ;;;
  existing_webhooks <- get_webhooks_info t fuel c false None ;;
  exit_json {| changed := false;
               fields := [("project_key", JStr (project_key c));
                          ("repository", opt (repository c));
                          ("messages", JList []);
                          ("json", of_listing existing_webhooks)] |}.

End WebhookInfo.

Module PullRequestInfo.
Import Py Eff BitbucketHelper Control.
Local Open Scope eff_scope.

(** [d.get(k)]: [None] when the key is missing; only a dict has [get]. *)
Definition get_ (d : json) (k : string) : res json := get d k JNull.

(** The entry reported for one pull request; the values of the dict display
    are evaluated in the order written. *)
Definition describe (d : json) : res json :=
  rbind (get_ d "id") (fun pull_id =>
  rbind (get_ d "version") (fun version =>
  rbind (get_ d "author") (fun a =>
  rbind (subscript a "user") (fun u =>
  rbind (subscript u "name") (fun author =>
  rbind (get_ d "title") (fun title =>
  rbind (get_ d "fromRef") (fun f =>
  rbind (subscript f "displayId") (fun fromRef =>
  rbind (get_ d "toRef") (fun g =>
  rbind (subscript g "displayId") (fun toRef =>
  rbind (get_ d "reviewers") (fun reviewers =>
  Ok (JDict [("pull_id", pull_id); ("version", version); ("author", author);
             ("title", title); ("fromRef", fromRef); ("toRef", toRef);
             ("reviewers", reviewers)])))))))))))).

Definition main (t : Transport) (fuel : nat) (c : Common) : M unit :=
  Checks.require_project_and_repository t c ;;;
  existing_pulls <- get_pull_request_info t fuel c false None ;;
  info_data <- lift (rbind (listed existing_pulls) (rmap describe)) ;;
  exit_json {| changed := false;
               fields := [("project_key", JStr (project_key c));
                          ("repository", opt (repository c));
                          ("messages", JList []);
                          ("json", JList info_data)] |}.

End PullRequestInfo.

Module BranchPermissionsInfo.
Import Py Eff BitbucketHelper Control.
Local Open Scope eff_scope.

(** [repository] is optional here. *)
Definition fields_of (c : Common) (restrictions : list json) (messages : list json)
  : dict :=
  [("project_key", JStr (project_key c));
   ("restrictions", JList restrictions);
   ("messages", JList messages)]
  ++ match repository c with Some r => [("repository", JStr r)] | None => [] end.

Definition main (t : Transport) (fuel : nat) (c : Common) : M unit :=
  project <- get_project_info t false (project_key c) ;;
  if negb (truthy_dict project) then
    exit_json {| changed := false;
                 fields := fields_of c [] [project_missing (project_key c)] |}
  else
    repo_missing <-
      match repository c with
      | Some r =>
          repo <- get_repository_info t false (project_key c) (Some r) ;;
          ret (negb (truthy_dict repo))
      | None => ret false
      end ;;
    if repo_missing then
      exit_json {| changed := false;
                   fields := fields_of c []
                               [JStr ("Repository `" ++ str_of (repository c)
                                      ++ "` does not exist.")%string] |}
    else
      found <- get_branch_permissions_info t fuel false (project_key c) (repository c) ;;
      restrictions <- lift (listed found) ;;
      exit_json {| changed := false; fields := fields_of c restrictions [] |}.

End BranchPermissionsInfo.

Module ProjectPermissionsInfo.
Import Py Eff BitbucketHelper Control.
Local Open Scope eff_scope.

Record Params : Type := { project_key : string; filters : list string }.

(** The result reports the [filters] parameter as given. *)
Definition fields_of (p : Params) (users groups messages : list json) : dict :=
  [("filters", JList (map JStr (filters p)));
   ("project_key", JStr (project_key p));
   ("users", JList users);
   ("groups", JList groups);
   ("messages", JList messages)].

Section WithTransport.
Variable t : Transport.

(** Groups first, then users, for one filter ([None] for all); the state
    is [(result['groups'], result['users'])]. *)
Definition visit (fuel : nat) (p : Params) (acc : list json * list json)
    (filter : option string) : M (list json * list json) :=
  g <- get_project_permissions_info t fuel false (project_key p) "groups" filter ;;
  gs <- lift (listed g) ;;
  u <- get_project_permissions_info t fuel false (project_key p) "users" filter ;;
  us <- lift (listed u) ;;
  ret (fst acc ++ gs, snd acc ++ us).

Definition main (fuel : nat) (p : Params) : M unit :=
  let filters_ := list_param "*" (filters p) in
  project <- get_project_info t false (project_key p) ;;
  if negb (truthy_dict project) then
    exit_json {| changed := false;
                 fields := fields_of p [] [] [project_missing (project_key p)] |}
  else
    '(groups, users) <-
       (if has_star filters_ then visit fuel p ([], []) None
        else for_each (visit fuel p) (map Some filters_) ([], [])) ;;
    exit_json {| changed := false; fields := fields_of p users groups [] |}.

End WithTransport.
End ProjectPermissionsInfo.

Module RepoPermissionsInfo.
Import Py Eff BitbucketHelper Control.
Local Open Scope eff_scope.

Record Params : Type := { common : Common; filters : list string }.

Definition fields_of (p : Params) (users groups messages : list json) : dict :=
  [("filters", JList (map JStr (filters p)));
   ("project_key", JStr (project_key (common p)));
   ("repository", opt (repository (common p)));
   ("users", JList users);
   ("groups", JList groups);
   ("messages", JList messages)].

Section WithTransport.
Variable t : Transport.

Definition visit (fuel : nat) (p : Params) (acc : list json * list json)
    (filter : option string) : M (list json * list json) :=
  let c := common p in
  g <- get_repository_permissions_info t fuel false (project_key c) (repository c)
         "groups" filter ;;
  gs <- lift (listed g) ;;
  u <- get_repository_permissions_info t fuel false (project_key c) (repository c)
         "users" filter ;;
  us <- lift (listed u) ;;
  ret (fst acc ++ gs, snd acc ++ us).

Definition main (fuel : nat) (p : Params) : M unit :=
  let c := common p in
  let filters_ := list_param "*" (filters p) in
  project <- get_project_info t false (project_key c) ;;
  if negb (truthy_dict project) then
    exit_json {| changed := false;
                 fields := fields_of p [] [] [project_missing (project_key c)] |}
  else
    repo <- get_repository_info t false (project_key c) (repository c) ;;
    if negb (truthy_dict repo) then
      exit_json {| changed := false;
                   fields := fields_of p [] []
                               [JStr ("Repository `" ++ str_of (repository c)
                                      ++ "` does not exist.")%string] |}
    else
      '(groups, users) <-
         (if has_star filters_ then visit fuel p ([], []) None
          else for_each (visit fuel p) (map Some filters_) ([], [])) ;;
      exit_json {| changed := false; fields := fields_of p users groups [] |}.

End WithTransport.
End RepoPermissionsInfo.

Module ApplicationLinkInfo.
Import Py Eff BitbucketHelper Control.
Local Open Scope eff_scope.

Record Params : Type := { applink : list string }.

(** [BITBUCKET_API_ENDPOINTS['applinks']] *)
Definition applinks : string := "{url}/rest/applinks/3.0/applinks".

(** The request of [get_application_links_info]; [format] is also given a
    [headers] argument, which the template does not use. *)
Definition links_request : Request :=
  GET applinks [("headers", JDict [("Content-type", JStr "application/json")])].

(** [al['id'] == applink or al['name'] == applink] *)
Definition is_link (applink_ : string) (al : json) : res bool :=
  rbind (subscript al "id") (fun i =>
  if json_eqb i (JStr applink_) then Ok true
  else rbind (subscript al "name") (fun n => Ok (json_eqb n (JStr applink_)))).

(** The body of [for applink in applinks]: the link is reported when
    exactly one listed link has the id or the name. *)
Definition visit (all_applinks : dict) (acc : list json) (applink_ : string)
  : M (list json) :=
  lift (rbind (getitem all_applinks "json") (fun v =>
        rbind (iter v) (fun links =>
        rbind (rfilter (is_link applink_) links) (fun found =>
        Ok (match found with
            | [x] => acc ++ [x]
            | _ => acc
            end))))).

Section WithTransport.
Variable t : Transport.

(** [BitbucketHelper.get_application_links_info] *)
Definition get_application_links_info : M dict :=
  '(info, content) <- do_request t links_request ;;
  if (status info =? 200)%Z then ret content
  else
    fail_json {| msg_text := "Failed to retrieve the application links data`: {info}";
                 msg_args := [("info", FInfo info)] |}.

Definition main (p : Params) : M unit :=
  let applinks_ := list_param "*" (applink p) in
  all_applinks <- get_application_links_info ;;
  found <-
    (if has_star applinks_ then
       v <- lift (getitem all_applinks "json") ;;
       lift (iter v)
     else for_each (visit all_applinks) applinks_ []) ;;
  exit_json {| changed := false; fields := [("applicaton_links", JList found)] |}.

End WithTransport.
End ApplicationLinkInfo.

(* ================================================================== *)
(** ** A reference server *)
(* ================================================================== *)

(** The remote side is not part of the collection.  To state what two
    runs in a row do, this is a server that applies every mutation it
    receives and answers lookups and listings from its current state: one
    repository (present, with its description, or absent) and the
    branches of that repository, each with its default flag.  Its listings
    fit on one page. *)
Module Server.
Import Py Eff BitbucketHelper.

Record State : Type := {
  repo : option dict;
  branches : list (string * bool)
}.

Definition is_ (r : Request) (m key : string) : bool :=
  String.eqb (meth r) m && String.eqb (template r) (endpoint key).

Definition is_prefixed (r : Request) (m key : string) : bool :=
  String.eqb (meth r) m && String.prefix (endpoint key) (template r).

Definition ref_of (name : string) : string := ("refs/heads/" ++ name)%string.

Definition render_branch (b : string * bool) : json :=
  JDict [("id", JStr (ref_of (fst b)));
         ("displayId", JStr (fst b));
         ("type", JStr "BRANCH");
         ("isDefault", JBool (snd b))].

(** The [name] a creation request carries. *)
Definition payload_str (r : Request) (k : string) : option string :=
  match data r with
  | Some (JDict d) => match lookup k d with Some (JStr s) => Some s | _ => None end
  | _ => None
  end.

(** Every [content] carries the executor's [fetch_url_retries]. *)
Definition envelope (d : dict) : dict := dict_set "fetch_url_retries" (JInt 1) d.

Definition new_repo (r : Request) : dict :=
  [("slug", match payload_str r "name" with Some s => JStr s | None => JNull end);
   ("state", JStr "AVAILABLE")].

(** The answer to a request in a given state. *)
Definition respond (s : State) (r : Request) : Info * dict :=
  if is_ r "GET" "repos-repositorySlug" then
    match repo s with
    | Some d => ({| status := 200 |}, envelope d)
    | None => ({| status := 404 |}, envelope [])
    end
  else if is_ r "POST" "repos" then
    match repo s with
    | Some _ => ({| status := 409 |}, envelope [])
    | None => ({| status := 201 |}, envelope (new_repo r))
    end
  else if is_ r "DELETE" "repos-repositorySlug" then
    match repo s with
    | Some _ => ({| status := 202 |},
                 envelope [("message", JStr "Repository scheduled for deletion.")])
    | None => ({| status := 204 |}, envelope [])
    end
  else if is_prefixed r "GET" "branches" then
    ({| status := 200 |},
     envelope [("values", JList (map render_branch (branches s)));
               ("size", JInt (Z.of_nat (List.length (branches s))));
               ("isLastPage", JBool true);
               ("start", JInt 0)])
  else if is_ r "POST" "branches" then
    match payload_str r "name" with
    | Some n => ({| status := 200 |}, envelope (match render_branch (n, false) with
                                                | JDict d => d
                                                | _ => []
                                                end))
    | None => ({| status := 400 |}, envelope [])
    end
  else if is_ r "PUT" "branch-default" then ({| status := 204 |}, envelope [])
  else ({| status := 404 |}, envelope []).

(** The state after a request. *)
Definition apply (s : State) (r : Request) : State :=
  if is_ r "POST" "repos" then
    match repo s with
    | Some _ => s
    | None => {| repo := Some (new_repo r); branches := branches s |}
    end
  else if is_ r "DELETE" "repos-repositorySlug" then
    {| repo := None; branches := branches s |}
  else if is_ r "POST" "branches" then
    match payload_str r "name" with
    | Some n => {| repo := repo s; branches := branches s ++ [(n, false)] |}
    | None => s
    end
  else if is_ r "PUT" "branch-default" then
    match payload_str r "id" with
    | Some i =>
        {| repo := repo s;
           branches := map (fun b => (fst b, String.eqb (ref_of (fst b)) i)) (branches s) |}
    | None => s
    end
  else s.

Definition after (s : State) (history : list Request) : State :=
  fold_left apply history s.

(** The server as a transport: it has applied every request of the run so
    far. *)
Definition serve (s : State) : Transport :=
  fun history r => Ok (respond (after s history) r).

End Server.

(* ================================================================== *)
(** * Properties *)
(* ================================================================== *)

(** ** General facts about dicts and the monad *)

Section DictFacts.
Import Py.

Lemma lookup_dict_set_same {A : Type} (k : string) (v : A) (d : list (string * A)) :
  lookup k (dict_set k v d) = Some v.
Proof.
  induction d as [|[k' v'] d IH]; simpl.
  - now rewrite String.eqb_refl.
  - destruct (String.eqb k k') eqn:E; simpl; rewrite E; auto.
Qed.


Lemma lookup_dict_set_other {A : Type} (k k' : string) (v : A) (d : list (string * A)) :
  k <> k' -> lookup k (dict_set k' v d) = lookup k d.
Proof.
  intros Hk. apply String.eqb_neq in Hk.
  induction d as [|[k0 v0] d IH]; cbn [dict_set lookup].
  - now rewrite Hk.
  - destruct (String.eqb k' k0) eqn:E; cbn [lookup].
    + apply String.eqb_eq in E. subst k0. now rewrite Hk.
    + destruct (String.eqb k k0); [reflexivity | exact IH].
Qed.

End DictFacts.

(** ** The retrying request executor *)

Module ExecutorFacts.
Import Py Eff Executor.

(** What [n] failed attempts leave in the trace: each is followed by a
    sleep. *)
Fixpoint failed_attempts (f : Fetch) (s : Z) (n : nat) : list Event :=
  match n with
  | O => []
  | S n' => EvFetch f :: EvSleep s :: failed_attempts f s n'
  end.

(** What the trace would be if the executor slept only between attempts. *)
Fixpoint sleeps_between (f : Fetch) (s : Z) (n : nat) : list Event :=
  match n with
  | O => []
  | S O => [EvFetch f]
  | S n' => EvFetch f :: EvSleep s :: sleeps_between f s n'
  end.

Definition fetches (tr : list Event) : nat := List.length (filter is_fetch tr).
Definition sleeps (tr : list Event) : nat := List.length (filter is_sleep tr).

Lemma failed_attempts_snoc f s n :
  failed_attempts f s (S n) = failed_attempts f s n ++ [EvFetch f; EvSleep s].
Proof. induction n; simpl in *; [reflexivity | now rewrite <- IHn]. Qed.

Lemma fetches_failed_attempts f s n : fetches (failed_attempts f s n) = n.
Proof. unfold fetches; induction n; simpl; auto. Qed.

Lemma sleeps_failed_attempts f s n : sleeps (failed_attempts f s n) = n.
Proof. unfold sleeps; induction n; simpl; auto. Qed.

Section Loop.
Variable t : Transport.
Variable p : Params.
Hypothesis always_down : forall tr f, status (snd (t tr f)) = (-1)%Z.
Hypothesis sleep_ok : (0 <= sleep p)%Z.

(** With [n] iterations left and fuel for them, the loop makes [n] failed
    attempts and leaves with the counter one past the bound. *)
Lemma retry_loop_all_fail f :
  forall (n fuel : nat) (r : Z) (loc : Locals) (tr : list Event),
    (r + Z.of_nat n = retries p + 1)%Z ->
    (n < fuel)%nat ->
    retry_loop t p fuel f r loc tr =
      (Ret ((retries p + 1)%Z,
            match n with
            | O => loc
            | S n' => let x := t (tr ++ failed_attempts f (sleep p) n') f in
                      Bound (fst x) (snd x)
            end),
       tr ++ failed_attempts f (sleep p) n).
Proof.
  induction n as [|n IH]; intros fuel r loc tr Hr Hf.
  - destruct fuel as [|fuel]; [lia|]. simpl.
    replace (r <=? retries p)%Z with false by (symmetry; apply Z.leb_gt; lia).
    rewrite app_nil_r. repeat f_equal. lia.
  - destruct fuel as [|fuel]; [lia|]. cbn [retry_loop].
    replace (r <=? retries p)%Z with true by (symmetry; apply Z.leb_le; lia).
    pose proof (always_down tr f) as Hd.
    destruct (t tr f) as [response info] eqn:Et. simpl in Hd.
    rewrite Hd. simpl negb. cbv iota.
    replace (sleep p <? 0)%Z with false by (symmetry; apply Z.ltb_ge; lia).
    rewrite (IH fuel (r + 1)%Z _ _) by lia.
    rewrite <- !app_assoc. simpl app.
    f_equal. f_equal.
    destruct n as [|n'].
    + simpl. rewrite app_nil_r, Et. reflexivity.
    + rewrite <- app_assoc. reflexivity.
Qed.

End Loop.

End ExecutorFacts.

Section ExecutorClaims.
Import Py Eff Executor ExecutorFacts.

(** The executor never runs out of fuel: it returns or raises. *)
Lemma retry_loop_fuel t p f :
  forall (fuel : nat) (r : Z) (loc : Locals) (tr : list Event),
    (Z.max 0 (retries p + 1 - r) < Z.of_nat fuel)%Z ->
    fst (retry_loop t p fuel f r loc tr) <> OutOfFuel.
Proof.
  induction fuel as [|fuel IH]; intros r loc tr H; [lia|].
  cbn [retry_loop].
  destruct (r <=? retries p)%Z eqn:E; [|simpl; discriminate].
  destruct (t tr f) as [response info].
  destruct (negb (status info =? -1)%Z); [simpl; discriminate|].
  destruct (sleep p <? 0)%Z; [simpl; discriminate|].
  apply IH. apply Z.leb_le in E. lia.
Qed.

Lemma request_total t p api_url method data_ headers :
  fst (request t p api_url method data_ headers) <> OutOfFuel.
Proof.
  unfold request.
  pose proof (retry_loop_fuel t p (fetch_of p api_url method data_ headers)
                (S (Z.to_nat (retries p))) 1%Z Unbound []) as H.
  destruct (retry_loop t p (S (Z.to_nat (retries p))) _ 1%Z Unbound [])
    as [[[r [|resp info]]|e|m|x|] tr]; simpl; try discriminate.
  exfalso. apply H; [lia | reflexivity].
Qed.

(** C3, as amended.  When every attempt ends in the connection-level
    failure (status -1), [retries] is at least 1 and [sleep] is not
    negative, [request] makes exactly [retries] attempts, sleeps [sleep]
    seconds after every one of them, the last included, and then returns
    to its caller the [info] of the last attempt (status -1) with
    [fetch_url_retries = retries + 1]; it does not raise. *)
Theorem retry_exhaustion t p api_url method data_ headers :
  (forall tr f, status (snd (t tr f)) = (-1)%Z) ->
  (1 <= retries p)%Z ->
  (0 <= sleep p)%Z ->
  let f := fetch_of p api_url method data_ headers in
  let n := Z.to_nat (retries p) in
  exists info content,
    request t p api_url method data_ headers
      = (Ret (info, content), failed_attempts f (sleep p) n)
    /\ info = snd (t (failed_attempts f (sleep p) (n - 1)) f)
    /\ status info = (-1)%Z
    /\ lookup "fetch_url_retries" content = Some (JInt (retries p + 1))
    /\ fetches (failed_attempts f (sleep p) n) = n
    /\ sleeps (failed_attempts f (sleep p) n) = n.
Proof.
  intros Hdown Hr Hs f n.
  unfold request. fold f.
  rewrite (retry_loop_all_fail t p Hdown Hs f n) by lia.
  destruct n as [|n'] eqn:En; [lia|].
  cbv zeta. simpl app.
  do 2 eexists. split; [reflexivity|].
  replace (S n' - 1)%nat with n' by lia.
  repeat split.
  - apply Hdown.
  - apply lookup_dict_set_same.
  - apply fetches_failed_attempts.
  - apply sleeps_failed_attempts.
Qed.

Definition down : Transport := fun _ _ => (None, {| status := -1 |}).
Definition three_retries : Params :=
  {| token := None; retries := 3; sleep := 5; use_proxy := true |}.

Lemma retry_exhaustion_witness :
  exists info content,
    request down three_retries "https://bitbucket.example.com/rest/api/1.0/projects" "GET" None None
      = (Ret (info, content),
         failed_attempts
           (fetch_of three_retries "https://bitbucket.example.com/rest/api/1.0/projects" "GET" None None)
           5 3)
    /\ status info = (-1)%Z.
Proof.
  destruct (retry_exhaustion down three_retries
              "https://bitbucket.example.com/rest/api/1.0/projects" "GET" None None)
    as (info & content & H & _ & Hs & _).
  - intros; reflexivity.
  - simpl; lia.
  - simpl; lia.
  - exists info, content. split; [exact H | exact Hs].
Defined.

(** C3, as stated, fails: with [retries = 3] and a transport that is down,
    the third (last) attempt is followed by a sleep too, so the trace is
    not the one with sleeps between attempts only. *)
Lemma retry_sleeps_after_last_attempt :
  let f := fetch_of three_retries "https://bitbucket.example.com/rest/api/1.0/projects" "GET" None None in
  snd (request down three_retries "https://bitbucket.example.com/rest/api/1.0/projects" "GET" None None)
    = [EvFetch f; EvSleep 5; EvFetch f; EvSleep 5; EvFetch f; EvSleep 5]
  /\ snd (request down three_retries "https://bitbucket.example.com/rest/api/1.0/projects" "GET" None None)
    <> sleeps_between f 5 3.
Proof. split; [reflexivity | discriminate]. Qed.

Lemma request_skips_loop t p api_url method data_ headers :
  (retries p <= 0)%Z ->
  request t p api_url method data_ headers = (Raise (UnboundLocalError "response"), []).
Proof.
  intros H. unfold request. cbn [retry_loop].
  replace (1 <=? retries p)%Z with false by (symmetry; apply Z.leb_gt; lia).
  reflexivity.
Qed.

(** C9.  With [retries <= 0] the loop body never runs: [request] calls
    [fetch_url] not once (the trace is empty) and raises
    [UnboundLocalError] for [response], whatever the method, URL, payload
    and headers. *)
Theorem request_without_retries t p api_url method data_ headers :
  (retries p <= 0)%Z ->
  request t p api_url method data_ headers = (Raise (UnboundLocalError "response"), []).
Proof. apply request_skips_loop. Qed.

(** Seen from the callers: with [retries <= 0] every call of
    [bitbucket.request] raises, so a module ends at its first lookup. *)
Lemma through_executor_without_retries fetch p format history r :
  (retries p <= 0)%Z ->
  through_executor fetch p format history r = Err (UnboundLocalError "response").
Proof.
  intros H. unfold through_executor.
  now rewrite (request_skips_loop fetch p (format r) (meth r) (data r) None H).
Qed.

Lemma request_without_retries_witness :
  request down {| token := None; retries := 0; sleep := 5; use_proxy := true |}
          "https://bitbucket.example.com/rest/api/1.0/projects" "POST"
          (Some (JDict [("key", JStr "FOO")])) None
    = (Raise (UnboundLocalError "response"), []).
Proof. apply request_without_retries. simpl. lia. Defined.

End ExecutorClaims.

(** ** [get_matcher] *)

Section MatcherClaims.
Import Py Eff BranchPermissions.

(** C10.  For every name, [get_matcher] with type ['branching_model']
    returns the matcher of type [MODEL_BRANCH] whose [id] is the name
    itself: the guard [matcher_name == 'development' or 'production'] is
    truthy for every string, so the [MODEL_CATEGORY] branch (with the
    upper-cased id) is never taken, not even for the category names. *)
Theorem branching_model_is_always_model_branch (matcher_name : string) :
  truthy (py_or (JBool (String.eqb matcher_name "development")) (JStr "production")) = true
  /\ get_matcher "branching_model" matcher_name
     = matcher_dict (capitalize matcher_name) matcher_name
                    "MODEL_BRANCH" "Branching model branch"
  /\ subscript (get_matcher "branching_model" matcher_name) "id" = Ok (JStr matcher_name)
  /\ rbind (subscript (get_matcher "branching_model" matcher_name) "type")
           (fun ty => subscript ty "id") = Ok (JStr "MODEL_BRANCH")
  /\ get_matcher "branching_model" "feature"
     <> matcher_dict "Feature" "FEATURE" "MODEL_CATEGORY" "Branching model category".
Proof.
  assert (G : truthy (py_or (JBool (String.eqb matcher_name "development"))
                            (JStr "production")) = true)
    by (destruct (String.eqb matcher_name "development"); reflexivity).
  assert (E : get_matcher "branching_model" matcher_name
              = matcher_dict (capitalize matcher_name) matcher_name
                             "MODEL_BRANCH" "Branching model branch")
    by (unfold get_matcher; simpl String.eqb; cbv iota; rewrite G; reflexivity).
  split; [exact G|]. split; [exact E|]. rewrite E.
  repeat split; try reflexivity. discriminate.
Qed.

End MatcherClaims.

(** ** The pagination loop *)

Module PaginationFacts.
Import Py Eff BitbucketHelper.

(** One iteration of [paginate] on a call that raises. *)
Lemma paginate_raise t fuel key mk acc c tr e :
  t tr (mk c) = Err e ->
  paginate t (S fuel) key mk acc c tr = (Raise e, tr ++ [mk c]).
Proof.
  intros Ht. cbn [paginate]. unfold bind at 1. unfold do_request. now rewrite Ht.
Qed.

(** One iteration of [paginate] on an answer, spelled out. *)
Lemma paginate_S t fuel key mk acc c tr info content :
  t tr (mk c) = Ok (info, content) ->
  paginate t (S fuel) key mk acc c tr =
    let tr1 := tr ++ [mk c] in
    match lookup key content with
    | None => (Raise (KeyError key), tr1)
    | Some v =>
        match iter v with
        | Err e => (Raise e, tr1)
        | Ok items =>
            match lookup "isLastPage" content with
            | Some lp =>
                if truthy lp then (Ret (info, acc ++ items), tr1)
                else paginate t fuel key mk (acc ++ items)
                       (match lookup "nextPageStart" content with
                        | Some c' => c'
                        | None => c
                        end) tr1
            | None => (Ret (info, acc ++ items), tr1)
            end
        end
    end.
Proof.
  intros Ht. cbn [paginate]. unfold bind at 1. unfold do_request. rewrite Ht.
  unfold bind at 1. unfold lift, getitem.
  destruct (lookup key content) as [v|]; [|reflexivity].
  unfold ret at 1. unfold bind at 1.
  destruct (iter v) as [items|e]; [|reflexivity].
  unfold ret at 1.
  destruct (lookup "isLastPage" content) as [lp|]; [|reflexivity].
  destruct (truthy lp); reflexivity.
Qed.

(** The trace only grows, by requests built from cursors, and the
    accumulator only grows at its end. *)
Lemma paginate_appends t key mk :
  forall fuel acc c tr,
    exists cursors,
      snd (paginate t fuel key mk acc c tr) = tr ++ map mk cursors
      /\ (forall info items,
             fst (paginate t fuel key mk acc c tr) = Ret (info, items) ->
             exists added, items = acc ++ added).
Proof.
  induction fuel as [|fuel IH]; intros acc c tr.
  - exists []. simpl. rewrite app_nil_r. split; [reflexivity | discriminate].
  - destruct (t tr (mk c)) as [[info content]|e] eqn:Et.
    2:{ rewrite (paginate_raise _ _ _ _ _ _ _ _ Et).
        exists [c]. split; [reflexivity | discriminate]. }
    rewrite (paginate_S _ _ _ _ _ _ _ _ _ Et). cbv zeta.
    destruct (lookup key content) as [v|];
      [|exists [c]; split; [reflexivity | discriminate]].
    destruct (iter v) as [items|e];
      [|exists [c]; split; [reflexivity | discriminate]].
    assert (Last : exists cursors,
               snd (Ret (info, acc ++ items), tr ++ [mk c])
               = tr ++ map mk cursors
               /\ (forall info0 items0,
                      fst (@Ret (Info * list json) (info, acc ++ items),
                           tr ++ [mk c]) = Ret (info0, items0) ->
                      exists added, items0 = acc ++ added)).
    { exists [c]. split; [reflexivity|]. simpl. intros info0 items0 H.
      inversion H; subst. now exists items. }
    destruct (lookup "isLastPage" content) as [lp|]; [|exact Last].
    destruct (truthy lp); [exact Last|].
    destruct (IH (acc ++ items)
                 (match lookup "nextPageStart" content with
                  | Some c' => c' | None => c end) (tr ++ [mk c]))
      as (cursors & Htr & Hacc).
    exists (c :: cursors). split.
    + rewrite Htr, <- app_assoc. reflexivity.
    + intros info0 items0 H. destruct (Hacc info0 items0 H) as (added & ->).
      exists (items ++ added). now rewrite app_assoc.
Qed.

(** A transport whose every continuing page names a later cursor. *)
Definition advancing (t : Transport) (mk : json -> Request) : Prop :=
  forall history (c : Z) info content lp,
    t history (mk (JInt c)) = Ok (info, content) ->
    lookup "isLastPage" content = Some lp ->
    truthy lp = false ->
    exists n, lookup "nextPageStart" content = Some (JInt n) /\ (c < n)%Z.

Lemma paginate_cursors_increase t key mk (adv : advancing t mk) :
  forall fuel acc (c : Z) tr,
    exists cursors,
      snd (paginate t fuel key mk acc (JInt c) tr)
        = tr ++ map (fun z => mk (JInt z)) cursors
      /\ Forall (fun z => (c <= z)%Z) cursors
      /\ NoDup cursors.
Proof.
  induction fuel as [|fuel IH]; intros acc c tr.
  - exists []. simpl. rewrite app_nil_r. repeat split; constructor.
  - assert (One : exists cursors,
               tr ++ [mk (JInt c)] = tr ++ map (fun z => mk (JInt z)) cursors
               /\ Forall (fun z => (c <= z)%Z) cursors /\ NoDup cursors).
    { exists [c]. repeat split.
      - constructor; [lia | constructor].
      - constructor; [intros [] | constructor]. }
    destruct (t tr (mk (JInt c))) as [[info content]|e] eqn:Et.
    2:{ rewrite (paginate_raise _ _ _ _ _ _ _ _ Et). exact One. }
    rewrite (paginate_S _ _ _ _ _ _ _ _ _ Et). cbv zeta.
    destruct (lookup key content) as [v|]; [|exact One].
    destruct (iter v) as [items|e]; [|exact One].
    destruct (lookup "isLastPage" content) as [lp|] eqn:Elp; [|exact One].
    destruct (truthy lp) eqn:Etr; [exact One|].
    destruct (adv tr c info content lp Et Elp Etr) as (n & Hn & Hlt). rewrite Hn.
    destruct (IH (acc ++ items) n (tr ++ [mk (JInt c)])) as (cursors & Htr & Hge & Hnd).
    exists (c :: cursors). repeat split.
    + rewrite Htr, <- app_assoc. reflexivity.
    + constructor; [lia|]. eapply Forall_impl; [|exact Hge]. simpl. intros; lia.
    + constructor; [|exact Hnd]. intros Hin.
      rewrite Forall_forall in Hge. specialize (Hge c Hin). lia.
Qed.

(** A helper's trace and failures are those of its loop: what follows the
    loop only inspects the last status. *)
Lemma run_lister_paginate t h fuel a tr :
  snd (run_lister t h fuel a tr)
    = snd (paginate t fuel (items_key h) (lister_request h a) [] (JInt 0) tr)
  /\ (forall e, fst (paginate t fuel (items_key h) (lister_request h a) [] (JInt 0) tr)
                  = Raise e ->
                fst (run_lister t h fuel a tr) = Raise e)
  /\ (fst (paginate t fuel (items_key h) (lister_request h a) [] (JInt 0) tr)
        = OutOfFuel ->
      fst (run_lister t h fuel a tr) = OutOfFuel)
  /\ (forall l, fst (run_lister t h fuel a tr) = Ret (Some l) ->
                exists info, fst (paginate t fuel (items_key h) (lister_request h a)
                                           [] (JInt 0) tr) = Ret (info, l)).
Proof.
  destruct h; cbn [run_lister items_key lister_request];
    unfold get_all_projects_info, get_all_repositories_info, get_branches_info,
      get_project_permissions_info, get_repository_permissions_info,
      get_branch_permissions_info, get_webhooks_info, get_pull_request_info,
      get_project_reviewers, get_repo_reviewers, repo_listing_tail; cbv zeta;
    unfold bind;
    match goal with
    | |- context [paginate ?t ?f ?k ?m ?acc ?c ?tr] =>
        destruct (paginate t f k m acc c tr) as [[[info items]|e|m0|r|] tr']
    end; cbn [fst snd];
    repeat match goal with
           | |- context [if ?b then _ else _] => destruct b
           end;
    cbn [fst snd ret fail_json];
    repeat split; try reflexivity; try discriminate;
    try (intros l H; inversion H; subst; eexists; reflexivity);
    try (intros; discriminate).
Qed.

End PaginationFacts.

Section PaginationClaims.
Import Py Eff BitbucketHelper PaginationFacts.

Lemma lister_request_cursor h a c :
  rebuilds_url h = true -> req_cursor (lister_request h a c) = Some c.
Proof. destruct h; intros H; try discriminate H; reflexivity. Qed.

Lemma NoDup_cursors (mk : json -> Request) (cursors : list Z) :
  (forall c, req_cursor (mk c) = Some c) ->
  NoDup cursors ->
  NoDup (map req_cursor (map (fun z => mk (JInt z)) cursors)).
Proof.
  intros Hmk Hnd. rewrite map_map.
  induction Hnd as [|z l Hin Hnd IH]; simpl; constructor; auto.
  rewrite in_map_iff. intros (z' & Hz & Hin'). rewrite !Hmk in Hz.
  inversion Hz; subst. contradiction.
Qed.

(** C4, as amended.  In every listing helper, [get_branch_permissions_info]
    included, and against any server, the accumulator only grows at its
    end: from any iteration on, what the loop returns is the accumulator
    it had followed by more items, and what the helper returns is what
    its loop returns from the empty accumulator.  A helper that formats
    its URL from the cursor on every iteration (all but
    [get_branch_permissions_info]) sends requests whose cursors are
    pairwise distinct, provided every page that does not end the listing
    names a cursor greater than the one that requested it. *)
Theorem listing_appends_and_cursors_are_fresh (t : Transport) (h : lister) (a : ListArgs) :
  (forall fuel acc c tr info items,
      fst (paginate t fuel (items_key h) (lister_request h a) acc c tr)
        = Ret (info, items) ->
      exists added, items = acc ++ added)
  /\ (forall fuel tr l,
         fst (run_lister t h fuel a tr) = Ret (Some l) ->
         exists info,
           fst (paginate t fuel (items_key h) (lister_request h a) [] (JInt 0) tr)
             = Ret (info, l))
  /\ (rebuilds_url h = true ->
      advancing t (lister_request h a) ->
      forall fuel tr,
      exists cursors,
        snd (run_lister t h fuel a tr)
          = tr ++ map (fun z => lister_request h a (JInt z)) cursors
        /\ NoDup (map req_cursor (map (fun z => lister_request h a (JInt z)) cursors))).
Proof.
  split; [|split].
  - intros fuel acc c tr info items H.
    destruct (paginate_appends t (items_key h) (lister_request h a) fuel acc c tr)
      as (_ & _ & Hacc).
    exact (Hacc info items H).
  - intros fuel tr. apply run_lister_paginate.
  - intros Hreb Hadv fuel tr.
    destruct (paginate_cursors_increase t (items_key h) (lister_request h a) Hadv
                fuel [] 0%Z tr) as (cursors & Htr & _ & Hnd).
    exists cursors. split.
    + rewrite (proj1 (run_lister_paginate t h fuel a tr)). exact Htr.
    + apply NoDup_cursors; [|exact Hnd].
      intros c. now apply lister_request_cursor.
Qed.

(** A listing of two pages: the first names cursor 2, the second is last. *)
Definition fetched (d : dict) : dict := dict_set "fetch_url_retries" (JInt 1) d.

Definition two_pages : Transport :=
  fun _ r =>
    match req_cursor r with
    | Some (JInt 0) =>
        Ok ({| status := 200 |},
            fetched [("values", JList [JStr "A"; JStr "B"]);
                     ("isLastPage", JBool false); ("nextPageStart", JInt 2)])
    | _ =>
        Ok ({| status := 200 |},
            fetched [("values", JList [JStr "C"]); ("isLastPage", JBool true)])
    end.

Definition foo_bar : ListArgs :=
  {| la_common := {| check_mode := false; project_key := "FOO"; repository := Some "bar" |};
     la_fail_when_not_exists := true;
     la_scope := "users";
     la_filter := None |}.

Lemma two_pages_advancing h : rebuilds_url h = true -> advancing two_pages (lister_request h foo_bar).
Proof.
  intros Hreb history c info content lp. unfold two_pages.
  rewrite (lister_request_cursor h foo_bar (JInt c) Hreb).
  destruct c; intros Ht; inversion Ht; subst; simpl;
    intros H Hf; inversion H; subst; try discriminate Hf.
  exists 2%Z. split; [reflexivity | lia].
Qed.

Example two_pages_listed :
  run_lister two_pages Branches 5 foo_bar []
  = (Ret (Some [JStr "A"; JStr "B"; JStr "C"]),
     [lister_request Branches foo_bar (JInt 0); lister_request Branches foo_bar (JInt 2)]).
Proof. reflexivity. Qed.

(** A first page that is not the last and names no cursor, then a last
    page. *)
Definition cursorless : Transport :=
  fun history _ =>
    match history with
    | [] => Ok ({| status := 200 |},
                fetched [("values", JList [JStr "A"]); ("isLastPage", JBool false)])
    | _ => Ok ({| status := 200 |},
               fetched [("values", JList [JStr "B"]); ("isLastPage", JBool true)])
    end.

Lemma listing_appends_and_cursors_are_fresh_witness :
  (exists cursors,
      snd (run_lister two_pages Branches 5 foo_bar [])
        = [] ++ map (fun z => lister_request Branches foo_bar (JInt z)) cursors
      /\ NoDup (map req_cursor
                  (map (fun z => lister_request Branches foo_bar (JInt z)) cursors)))
  /\ fst (paginate cursorless 5 (items_key BranchPermissions)
            (lister_request BranchPermissions foo_bar) [JStr "Z"] (JInt 0) [])
     = Ret ({| status := 200 |}, [JStr "Z"; JStr "A"; JStr "B"])
  /\ (exists added, [JStr "Z"; JStr "A"; JStr "B"] = [JStr "Z"] ++ added).
Proof.
  split; [|split].
  - exact (proj2 (proj2 (listing_appends_and_cursors_are_fresh two_pages Branches foo_bar))
             eq_refl (two_pages_advancing Branches eq_refl) 5 []).
  - reflexivity.
  - exact (proj1 (listing_appends_and_cursors_are_fresh cursorless BranchPermissions foo_bar)
             5 [JStr "Z"] (JInt 0) [] {| status := 200 |}
             [JStr "Z"; JStr "A"; JStr "B"] eq_refl).
Defined.

(** C4, as stated, fails: when a page that is not the last names no
    cursor, [get_all_projects_info] sends its next request with the cursor
    it already used. *)
Lemma cursor_revisited :
  run_lister cursorless AllProjects 5 foo_bar []
    = (Ret (Some [JStr "A"; JStr "B"]),
       [lister_request AllProjects foo_bar (JInt 0);
        lister_request AllProjects foo_bar (JInt 0)])
  /\ ~ NoDup (map req_cursor (snd (run_lister cursorless AllProjects 5 foo_bar []))).
Proof.
  split; [reflexivity|].
  intros H. inversion H as [|x l Hin _]; subst. apply Hin. left. reflexivity.
Qed.

(** [get_branch_permissions_info] formats its URL once, before the loop:
    against the two-page listing above it asks for [start=0] again and
    again, and never reaches the second page. *)
Example branch_permissions_url_is_frozen :
  run_lister two_pages BranchPermissions 3 foo_bar []
  = (OutOfFuel,
     [lister_request BranchPermissions foo_bar (JInt 0);
      lister_request BranchPermissions foo_bar (JInt 0);
      lister_request BranchPermissions foo_bar (JInt 0)])
  /\ req_cursor (lister_request BranchPermissions foo_bar (JInt 2)) = Some (JInt 0).
Proof. split; reflexivity. Qed.

(** C8, as amended.  A helper accumulates [content[key]] first thing in
    every iteration, where [key] is ['values'] for eight helpers and
    ['json'] for the two reviewers helpers.  When the content of a page
    (of any status) lacks that key the loop raises [KeyError] right after
    that request, and the helper lets the exception through: none of its
    status handlers runs. *)
Theorem missing_items_key_raises_KeyError (t : Transport) h a :
  (forall fuel acc c tr info content,
      t tr (lister_request h a c) = Ok (info, content) ->
      lookup (items_key h) content = None ->
      paginate t (S fuel) (items_key h) (lister_request h a) acc c tr
        = (Raise (KeyError (items_key h)), tr ++ [lister_request h a c]))
  /\ (forall fuel tr e,
         fst (paginate t fuel (items_key h) (lister_request h a) [] (JInt 0) tr) = Raise e ->
         run_lister t h fuel a tr
           = (Raise e, snd (paginate t fuel (items_key h) (lister_request h a) [] (JInt 0) tr)))
  /\ (forall fuel tr info content,
         t tr (lister_request h a (JInt 0)) = Ok (info, content) ->
         lookup (items_key h) content = None ->
         run_lister t h (S fuel) a tr
           = (Raise (KeyError (items_key h)), tr ++ [lister_request h a (JInt 0)])).
Proof.
  assert (P1 : forall fuel acc c tr info content,
             t tr (lister_request h a c) = Ok (info, content) ->
             lookup (items_key h) content = None ->
             paginate t (S fuel) (items_key h) (lister_request h a) acc c tr
             = (Raise (KeyError (items_key h)), tr ++ [lister_request h a c])).
  { intros fuel acc c tr info content Ht H.
    rewrite (paginate_S _ _ _ _ _ _ _ _ _ Ht). cbv zeta. now rewrite H. }
  assert (P2 : forall fuel tr e,
             fst (paginate t fuel (items_key h) (lister_request h a) [] (JInt 0) tr) = Raise e ->
             run_lister t h fuel a tr
             = (Raise e, snd (paginate t fuel (items_key h) (lister_request h a) [] (JInt 0) tr))).
  { intros fuel tr e H.
    destruct (run_lister_paginate t h fuel a tr) as (Htr & Hraise & _).
    rewrite <- Htr, <- (Hraise e H). now destruct (run_lister t h fuel a tr). }
  split; [exact P1|]. split; [exact P2|].
  intros fuel tr info content Ht H.
  rewrite (P2 (S fuel) tr (KeyError (items_key h)));
    rewrite (P1 fuel [] (JInt 0) tr info content Ht H); reflexivity.
Qed.

(** An error answer as [request] hands it on: the status and a content
    with nothing of the body in it. *)
Definition failed (s : Z) : Transport :=
  fun _ _ => Ok ({| status := s |}, fetched []).

Lemma missing_items_key_raises_KeyError_witness :
  run_lister (failed 404) Branches 3 foo_bar []
    = (Raise (KeyError "values"), [] ++ [lister_request Branches foo_bar (JInt 0)])
  /\ run_lister (failed 404) RepoReviewers 3 foo_bar []
    = (Raise (KeyError "json"), [] ++ [lister_request RepoReviewers foo_bar (JInt 0)]).
Proof.
  split.
  - apply (proj2 (proj2 (missing_items_key_raises_KeyError (failed 404) Branches foo_bar))
             2%nat [] {| status := 404 |} (fetched [])); reflexivity.
  - apply (proj2 (proj2 (missing_items_key_raises_KeyError (failed 404) RepoReviewers foo_bar))
             2%nat [] {| status := 404 |} (fetched [])); reflexivity.
Defined.

(** An answer with status 201 whose body is a JSON list, which [request]
    stores under ['json']. *)
Definition conditions : Transport :=
  fun _ _ => Ok ({| status := 201 |},
                 fetched [("json", JList [JDict [("id", JInt 7)]])]).

(** C8, as stated, fails for the reviewers helpers: they accumulate
    [content['json']], so a non-200 answer without ['values'] raises no
    [KeyError]; here the helper returns the items. *)
Lemma reviewers_helper_needs_no_values :
  conditions [] (lister_request ProjectReviewers foo_bar (JInt 0))
    = Ok ({| status := 201 |}, fetched [("json", JList [JDict [("id", JInt 7)]])])
  /\ lookup "values" (fetched [("json", JList [JDict [("id", JInt 7)]])]) = None
  /\ run_lister conditions ProjectReviewers 3 foo_bar []
     = (Ret (Some [JDict [("id", JInt 7)]]),
        [lister_request ProjectReviewers foo_bar (JInt 0)]).
Proof. split; [|split]; reflexivity. Qed.

End PaginationClaims.

(** ** Termination of the listing loops *)

Section TerminationClaims.
Import Py Eff BitbucketHelper PaginationFacts.

(** One iteration of the loop of [get_list_of_files] on a 200 answer. *)
Lemma find_files_loop_S (t : Transport) fuel cm at_ acc c tr info content v items :
  t tr (Find.files_request cm at_ c) = Ok (info, content) ->
  status info = 200%Z ->
  lookup "values" content = Some v ->
  iter v = Ok items ->
  Find.files_loop t (S fuel) cm at_ acc c tr =
    match lookup "isLastPage" content with
    | Some lp =>
        if truthy lp then (Ret (acc ++ items), tr ++ [Find.files_request cm at_ c])
        else Find.files_loop t fuel cm at_ (acc ++ items)
               (match lookup "nextPageStart" content with
                | Some c' => c'
                | None => c
                end) (tr ++ [Find.files_request cm at_ c])
    | None => (Ret (acc ++ items), tr ++ [Find.files_request cm at_ c])
    end.
Proof.
  intros Ht Hs Hv Hi. cbn [Find.files_loop]. unfold bind at 1. unfold do_request.
  rewrite Ht, Hs. simpl Z.eqb. cbv iota.
  unfold bind, lift, getitem, ret. rewrite Hv, Hi. simpl negb. cbv iota.
  destruct (lookup "isLastPage" content) as [lp|]; [|reflexivity].
  destruct (truthy lp); reflexivity.
Qed.

(** The same for the lookup plugin, on a 200 answer that is a dict. *)
Lemma fileglob_files_loop_S (t : Fileglob.Transport) fuel o acc c tr info content v items :
  t tr (Fileglob.files_request o c) = Ok (info, JDict content) ->
  status info = 200%Z ->
  lookup "values" content = Some v ->
  iter v = Ok items ->
  Fileglob.files_loop t (S fuel) o acc c tr =
    match lookup "isLastPage" content with
    | Some lp =>
        if truthy lp then (Ret (acc ++ items), tr ++ [Fileglob.files_request o c])
        else Fileglob.files_loop t fuel o (acc ++ items)
               (match lookup "nextPageStart" content with
                | Some c' => c'
                | None => c
                end) (tr ++ [Fileglob.files_request o c])
    | None => (Ret (acc ++ items), tr ++ [Fileglob.files_request o c])
    end.
Proof.
  intros Ht Hs Hv Hi. cbn [Fileglob.files_loop]. unfold bind at 1. unfold Fileglob.do_request.
  rewrite Ht, Hs. simpl Z.eqb. cbv iota.
  unfold bind, lift, subscript, getitem, ret, Fileglob.contains, has_key.
  rewrite Hv, Hi. simpl negb. cbv iota.
  destruct (lookup "isLastPage" content) as [lp|]; [|reflexivity].
  destruct (lookup "nextPageStart" content) as [c'|]; destruct (truthy lp); reflexivity.
Qed.

(** C5, as amended.  In every listing loop (the loop of the ten helpers,
    the loop of [get_list_of_files], the loop of the fileglob lookup) a
    page whose content has no ['isLastPage'] ends the listing: the loop
    returns right after that request.  A page that carries a false
    ['isLastPage'] and no ['nextPageStart'] does not end it: the loop goes
    on, and its next request carries the same cursor again. *)
Theorem page_without_isLastPage_is_last (info : Info) (content : dict) (v : json)
    (items : list json) :
  iter v = Ok items ->
  (lookup "isLastPage" content = None ->
     (forall (t : Transport) fuel key mk acc c tr,
         t tr (mk c) = Ok (info, content) -> lookup key content = Some v ->
         paginate t (S fuel) key mk acc c tr = (Ret (info, acc ++ items), tr ++ [mk c]))
     /\ (forall (t : Transport) fuel cm at_ acc c tr,
            t tr (Find.files_request cm at_ c) = Ok (info, content) ->
            status info = 200%Z -> lookup "values" content = Some v ->
            Find.files_loop t (S fuel) cm at_ acc c tr
              = (Ret (acc ++ items), tr ++ [Find.files_request cm at_ c]))
     /\ (forall (t : Fileglob.Transport) fuel o acc c tr,
            t tr (Fileglob.files_request o c) = Ok (info, JDict content) ->
            status info = 200%Z -> lookup "values" content = Some v ->
            Fileglob.files_loop t (S fuel) o acc c tr
              = (Ret (acc ++ items), tr ++ [Fileglob.files_request o c])))
  /\ (forall lp,
        lookup "isLastPage" content = Some lp -> truthy lp = false ->
        lookup "nextPageStart" content = None ->
        (forall (t : Transport) fuel key mk acc c tr,
            t tr (mk c) = Ok (info, content) -> lookup key content = Some v ->
            paginate t (S fuel) key mk acc c tr
              = paginate t fuel key mk (acc ++ items) c (tr ++ [mk c]))
        /\ (forall (t : Transport) fuel cm at_ acc c tr,
               t tr (Find.files_request cm at_ c) = Ok (info, content) ->
               status info = 200%Z -> lookup "values" content = Some v ->
               Find.files_loop t (S fuel) cm at_ acc c tr
                 = Find.files_loop t fuel cm at_ (acc ++ items) c
                     (tr ++ [Find.files_request cm at_ c]))
        /\ (forall (t : Fileglob.Transport) fuel o acc c tr,
               t tr (Fileglob.files_request o c) = Ok (info, JDict content) ->
               status info = 200%Z -> lookup "values" content = Some v ->
               Fileglob.files_loop t (S fuel) o acc c tr
                 = Fileglob.files_loop t fuel o (acc ++ items) c
                     (tr ++ [Fileglob.files_request o c]))).
Proof.
  intros Hi. split.
  - intros Hlast. split; [|split].
    + intros t fuel key mk acc c tr Ht Hv.
      rewrite (paginate_S _ _ _ _ _ _ _ _ _ Ht). cbv zeta.
      now rewrite Hv, Hi, Hlast.
    + intros t fuel cm at_ acc c tr Ht Hs Hv.
      rewrite (find_files_loop_S t fuel cm at_ acc c tr info content v items); auto.
      now rewrite Hlast.
    + intros t fuel o acc c tr Ht Hs Hv.
      rewrite (fileglob_files_loop_S t fuel o acc c tr info content v items); auto.
      now rewrite Hlast.
  - intros lp Hlp Hfalse Hnext. split; [|split].
    + intros t fuel key mk acc c tr Ht Hv.
      rewrite (paginate_S _ _ _ _ _ _ _ _ _ Ht). cbv zeta.
      now rewrite Hv, Hi, Hlp, Hfalse, Hnext.
    + intros t fuel cm at_ acc c tr Ht Hs Hv.
      rewrite (find_files_loop_S t fuel cm at_ acc c tr info content v items); auto.
      now rewrite Hlp, Hfalse, Hnext.
    + intros t fuel o acc c tr Ht Hs Hv.
      rewrite (fileglob_files_loop_S t fuel o acc c tr info content v items); auto.
      now rewrite Hlp, Hfalse, Hnext.
Qed.

(** An older server: a page with its items and nothing else. *)
Definition bare_page : Transport :=
  fun _ _ => Ok ({| status := 200 |}, fetched [("values", JList [JStr "A"; JStr "B"])]).

Lemma page_without_isLastPage_is_last_witness :
  paginate bare_page 1 "values" (lister_request Branches foo_bar) [] (JInt 0) []
  = (Ret ({| status := 200 |}, [] ++ [JStr "A"; JStr "B"]),
     [] ++ [lister_request Branches foo_bar (JInt 0)]).
Proof.
  apply (proj1 (proj1 (page_without_isLastPage_is_last
                         {| status := 200 |}
                         (fetched [("values", JList [JStr "A"; JStr "B"])])
                         (JList [JStr "A"; JStr "B"]) [JStr "A"; JStr "B"] eq_refl)
                  eq_refl)); reflexivity.
Defined.

(** A server that never says a page is the last one and names no cursor. *)
Definition never_last : Transport :=
  fun _ _ => Ok ({| status := 200 |},
                 fetched [("values", JList [JStr "A"]); ("isLastPage", JBool false)]).

Lemma never_last_loops mk :
  forall fuel acc c tr, fst (paginate never_last fuel "values" mk acc c tr) = OutOfFuel.
Proof.
  induction fuel as [|fuel IH]; intros acc c tr; [reflexivity|].
  rewrite (paginate_S never_last fuel "values" mk acc c tr _ _ eq_refl).
  apply IH.
Qed.

(** C5, as stated, fails: a page with [isLastPage = false] and no
    ['nextPageStart'] is not taken as the last one.  Against a server that
    always answers so, [get_all_projects_info] is still looping whatever
    the fuel: it never returns. *)
Lemma cursorless_page_is_not_last :
  ~ exists fuel, fst (run_lister never_last AllProjects fuel foo_bar []) <> OutOfFuel.
Proof.
  intros (fuel & H). apply H.
  apply (run_lister_paginate never_last AllProjects fuel foo_bar []).
  apply never_last_loops.
Qed.

End TerminationClaims.

(** ** Failures of a listing *)

Section ListingFailureClaims.
Import Py Eff BitbucketHelper PaginationFacts.

(** One iteration of the lookup's loop on an answer that is not a 200. *)
Lemma fileglob_files_loop_failure (t : Fileglob.Transport) fuel o acc c tr info content :
  t tr (Fileglob.files_request o c) = Ok (info, content) ->
  status info <> 200%Z ->
  Fileglob.files_loop t (S fuel) o acc c tr =
    (Raise (AnsibleError
              (if (status info =? 400)%Z then Fileglob.not_a_directory
               else if (status info =? 404)%Z then Fileglob.repository_missing
                    else Fileglob.listing_failed info)),
     tr ++ [Fileglob.files_request o c]).
Proof.
  intros Ht Hs. cbn [Fileglob.files_loop]. unfold bind at 1. unfold Fileglob.do_request.
  rewrite Ht. apply Z.eqb_neq in Hs. rewrite Hs. unfold bind, ret, raise.
  destruct (status info =? 400)%Z; [reflexivity|].
  destruct (status info =? 404)%Z; reflexivity.
Qed.

(** The generic failure message of [get_branches_info]. *)
Definition branches_failed (c : Common) (info : Info) : message :=
  {| msg_text := "Failed to retrieve branches data which matches the supplied projectKey `{projectKey}` and repositorySlug `{repositorySlug}`: {info}";
     msg_args := [("projectKey", FStr (project_key c));
                  ("repositorySlug", FOpt (repository c)); ("info", FInfo info)] |}.

(** C6, as amended.  The listing of the fileglob lookup tells three
    failures apart on any page: status 400 raises the not-a-directory
    error, status 404 the repository-missing error, every other non-200
    status the generic listing error (with three different texts), and
    [run] passes each on inside its own [AnsibleError].  The helpers of
    [BitbucketHelper] have tables of their own: [get_branches_info], once
    its loop has ended, tells 401 and 404 apart (404 fails only when
    [fail_when_not_exists] is set, and yields [None] otherwise) and
    reports every other non-200 status, 400 included, as the generic
    failure. *)
Theorem listing_failure_kinds :
  (forall (t : Fileglob.Transport) fuel o acc c tr info content,
      t tr (Fileglob.files_request o c) = Ok (info, content) ->
      (status info = 400%Z ->
       Fileglob.files_loop t (S fuel) o acc c tr
         = (Raise (AnsibleError Fileglob.not_a_directory),
            tr ++ [Fileglob.files_request o c]))
      /\ (status info = 404%Z ->
          Fileglob.files_loop t (S fuel) o acc c tr
            = (Raise (AnsibleError Fileglob.repository_missing),
               tr ++ [Fileglob.files_request o c]))
      /\ (status info <> 200%Z -> status info <> 400%Z -> status info <> 404%Z ->
          Fileglob.files_loop t (S fuel) o acc c tr
            = (Raise (AnsibleError (Fileglob.listing_failed info)),
               tr ++ [Fileglob.files_request o c])))
  /\ (forall (t : Fileglob.Transport) fuel o tr e,
         fst (Fileglob.files_loop t fuel o [] (JInt 0) tr) = Raise e ->
         Fileglob.list_files t fuel o tr
           = (Raise (AnsibleErrorFrom
                       "Failed to retrieve a list of files Bitbucket Server. Error was: %s" e),
              snd (Fileglob.files_loop t fuel o [] (JInt 0) tr)))
  /\ (forall info,
         msg_text Fileglob.not_a_directory <> msg_text Fileglob.repository_missing
         /\ msg_text Fileglob.not_a_directory <> msg_text (Fileglob.listing_failed info)
         /\ msg_text Fileglob.repository_missing <> msg_text (Fileglob.listing_failed info))
  /\ (forall (t : Transport) fuel c f filter tr info items tr',
         paginate t fuel "values" (lister_request Branches
            {| la_common := c; la_fail_when_not_exists := f;
               la_scope := EmptyString; la_filter := filter |}) [] (JInt 0) tr
           = (Ret (info, items), tr') ->
         get_branches_info t fuel c f filter tr
           = (if (status info =? 200)%Z then Ret (Some items)
              else if (status info =? 401)%Z then
                FailJson [{| msg_text := "The currently authenticated user has insufficient permissions to read `{repositorySlug}` repository.";
                             msg_args := [("repositorySlug", FOpt (repository c))] |}]
              else if (status info =? 404)%Z then
                if f
                then FailJson [{| msg_text := "`{repositorySlug}` repository does not exist.";
                                  msg_args := [("repositorySlug", FOpt (repository c))] |}]
                else Ret None
              else FailJson [branches_failed c info],
              tr')).
Proof.
  split; [|split; [|split]].
  - intros t fuel o acc c tr info content Ht. split; [|split].
    + intros H. rewrite (fileglob_files_loop_failure t fuel o acc c tr info content Ht).
      * now rewrite H.
      * rewrite H. discriminate.
    + intros H. rewrite (fileglob_files_loop_failure t fuel o acc c tr info content Ht).
      * now rewrite H.
      * rewrite H. discriminate.
    + intros H2 H4 H44.
      rewrite (fileglob_files_loop_failure t fuel o acc c tr info content Ht H2).
      apply Z.eqb_neq in H4, H44. now rewrite H4, H44.
  - intros t fuel o tr e H. unfold Fileglob.list_files.
    destruct (Fileglob.files_loop t fuel o [] (JInt 0) tr) as [out tr'].
    simpl in H. subst out. reflexivity.
  - intros info. split; [|split]; discriminate.
  - intros t fuel c f filter tr info items tr' H.
    unfold get_branches_info, bind. cbn [lister_request la_common la_filter] in H.
    rewrite H.
    destruct (status info =? 200)%Z; [reflexivity|].
    destruct (status info =? 401)%Z; [reflexivity|].
    destruct (status info =? 404)%Z; [destruct f|]; reflexivity.
Qed.

(** Answers with a given status and an empty page of items. *)
Definition answered (s : Z) : Transport :=
  fun _ _ => Ok ({| status := s |}, fetched [("values", JList [])]).

Definition foo_bar_common : Common :=
  {| check_mode := false; project_key := "FOO"; repository := Some "bar" |}.

(** C6, as stated, fails for [get_branches_info]: the helper has no
    handler for 400.  When the answer carries a page of items, a 400 and
    a 500 end in the same generic failure; when it carries none (as the
    content of an error answer does), both end in the same [KeyError]. *)
Lemma branches_listing_has_no_400_kind :
  get_branches_info (answered 400) 3 foo_bar_common true None []
    = (FailJson [branches_failed foo_bar_common {| status := 400 |}],
       [lister_request Branches foo_bar (JInt 0)])
  /\ get_branches_info (answered 500) 3 foo_bar_common true None []
    = (FailJson [branches_failed foo_bar_common {| status := 500 |}],
       [lister_request Branches foo_bar (JInt 0)])
  /\ msg_text (branches_failed foo_bar_common {| status := 400 |})
     = msg_text (branches_failed foo_bar_common {| status := 500 |})
  /\ get_branches_info (failed 400) 3 foo_bar_common true None []
     = (Raise (KeyError "values"), [lister_request Branches foo_bar (JInt 0)])
  /\ get_branches_info (failed 500) 3 foo_bar_common true None []
     = (Raise (KeyError "values"), [lister_request Branches foo_bar (JInt 0)]).
Proof. repeat split. Qed.

(** The lookup against a repository that does not exist, and against a
    path that is not a directory. *)
Definition lookup_failed (s : Z) : Fileglob.Transport :=
  fun _ _ => Ok ({| status := s |}, JDict []).

Definition foo_bar_options : Fileglob.Options :=
  {| Fileglob.project_key := "FOO"; Fileglob.repository := Some "bar";
     Fileglob.at_ := None |}.

Lemma listing_failure_kinds_witness :
  Fileglob.files_loop (lookup_failed 400) 3 foo_bar_options [] (JInt 0) []
    = (Raise (AnsibleError Fileglob.not_a_directory),
       [] ++ [Fileglob.files_request foo_bar_options (JInt 0)])
  /\ Fileglob.files_loop (lookup_failed 404) 3 foo_bar_options [] (JInt 0) []
    = (Raise (AnsibleError Fileglob.repository_missing),
       [] ++ [Fileglob.files_request foo_bar_options (JInt 0)])
  /\ Fileglob.files_loop (lookup_failed 500) 3 foo_bar_options [] (JInt 0) []
    = (Raise (AnsibleError (Fileglob.listing_failed {| status := 500 |})),
       [] ++ [Fileglob.files_request foo_bar_options (JInt 0)]).
Proof.
  split; [|split].
  - apply (proj1 (proj1 listing_failure_kinds (lookup_failed 400) 2%nat
                    foo_bar_options [] (JInt 0) [] {| status := 400 |} (JDict [])
                    eq_refl)). reflexivity.
  - apply (proj1 (proj2 (proj1 listing_failure_kinds (lookup_failed 404) 2%nat
                           foo_bar_options [] (JInt 0) [] {| status := 404 |} (JDict [])
                           eq_refl))). reflexivity.
  - apply (proj2 (proj2 (proj1 listing_failure_kinds (lookup_failed 500) 2%nat
                           foo_bar_options [] (JInt 0) [] {| status := 500 |} (JDict [])
                           eq_refl))); simpl; discriminate.
Defined.

(** [get_list_of_files] of the find module names the same three errors,
    but raising any of them fails on the name [AnsibleError], which the
    module does not import: the three failures come out alike. *)
Example find_listing_failures_collapse :
  Find.get_list_of_files (failed 400) 3 foo_bar_common None []
    = (Raise (NameError "AnsibleError"), [Find.files_request foo_bar_common None (JInt 0)])
  /\ Find.get_list_of_files (failed 404) 3 foo_bar_common None []
    = (Raise (NameError "AnsibleError"), [Find.files_request foo_bar_common None (JInt 0)])
  /\ Find.get_list_of_files (failed 500) 3 foo_bar_common None []
    = (Raise (NameError "AnsibleError"), [Find.files_request foo_bar_common None (JInt 0)]).
Proof. repeat split. Qed.

End ListingFailureClaims.

(** ** Runs in check mode *)

Module RunFacts.
Import Py Eff BitbucketHelper.

(** A computation that only adds [GET] requests to the trace. *)
Definition readonly {A : Type} (m : M A) : Prop :=
  forall tr, exists reqs, snd (m tr) = tr ++ reqs /\ forallb is_get reqs = true.

Lemma readonly_pure {A : Type} (m : M A) : (forall tr, snd (m tr) = tr) -> readonly m.
Proof. intros H tr. exists []. rewrite app_nil_r. split; [apply H | reflexivity]. Qed.

Lemma readonly_ret {A : Type} (a : A) : readonly (ret a).
Proof. now apply readonly_pure. Qed.
Lemma readonly_raise {A : Type} (e : exn) : readonly (@raise A e).
Proof. now apply readonly_pure. Qed.
Lemma readonly_fail_json {A : Type} (m : message) : readonly (@fail_json A m).
Proof. now apply readonly_pure. Qed.
Lemma readonly_fail_json_list {A : Type} (m : list message) : readonly (@fail_json_list A m).
Proof. now apply readonly_pure. Qed.
Lemma readonly_exit_json {A : Type} (r : Result) : readonly (@exit_json A r).
Proof. now apply readonly_pure. Qed.
Lemma readonly_out_of_fuel {A : Type} : readonly (@out_of_fuel A).
Proof. now apply readonly_pure. Qed.
Lemma readonly_lift {A : Type} (r : res A) : readonly (lift r).
Proof. destruct r; now apply readonly_pure. Qed.

Lemma readonly_bind {A B : Type} (m : M A) (k : A -> M B) :
  readonly m -> (forall a, readonly (k a)) -> readonly (bind m k).
Proof.
  intros Hm Hk tr. destruct (Hm tr) as (reqs & Htr & Hget).
  unfold bind. destruct (m tr) as [[a|e|f|r|] tr1]; simpl in Htr; subst tr1;
    try (exists reqs; split; [reflexivity | exact Hget]).
  destruct (Hk a (tr ++ reqs)) as (reqs' & Htr' & Hget').
  exists (reqs ++ reqs'). split.
  - rewrite Htr'. now rewrite app_assoc.
  - rewrite forallb_app, Hget, Hget'. reflexivity.
Qed.

Lemma readonly_do_request t r : is_get r = true -> readonly (do_request t r).
Proof.
  intros H tr. exists [r]. split; [|simpl; now rewrite H].
  unfold do_request. now destruct (t tr r).
Qed.

Ltac readonly_step :=
  first
    [ apply readonly_ret | apply readonly_raise | apply readonly_fail_json
    | apply readonly_fail_json_list | apply readonly_exit_json
    | apply readonly_out_of_fuel | apply readonly_lift
    | apply readonly_do_request; reflexivity
    | apply readonly_bind; [|intros ?]
    | match goal with
      | |- readonly (match ?x with _ => _ end) => destruct x
      | |- readonly (if ?b then _ else _) => destruct b
      end ].

Ltac readonly_auto := repeat readonly_step.

Lemma readonly_paginate t key mk :
  (forall c, is_get (mk c) = true) ->
  forall fuel acc c, readonly (paginate t fuel key mk acc c).
Proof.
  intros Hmk. induction fuel as [|fuel IH]; intros acc c; cbn [paginate].
  - readonly_auto.
  - apply readonly_bind; [apply readonly_do_request, Hmk|]. intros [info content].
    readonly_auto. apply IH.
Qed.

Lemma readonly_get_project_info t f pk : readonly (get_project_info t f pk).
Proof. unfold get_project_info. readonly_auto. Qed.

Lemma readonly_get_repository_info t f pk r : readonly (get_repository_info t f pk r).
Proof. unfold get_repository_info. readonly_auto. Qed.

Lemma lister_request_is_get h a c : is_get (lister_request h a c) = true.
Proof. destruct h; try reflexivity. cbn. now destruct (repository (la_common a)). Qed.

Lemma readonly_run_lister t h fuel a : readonly (run_lister t h fuel a).
Proof.
  intros tr.
  destruct (readonly_paginate t (items_key h) (lister_request h a)
              (lister_request_is_get h a) fuel [] (JInt 0) tr) as (reqs & Htr & Hget).
  exists reqs. split; [|exact Hget].
  now rewrite (proj1 (PaginationFacts.run_lister_paginate t h fuel a tr)).
Qed.

Lemma readonly_get_branches_info t fuel c f filter :
  readonly (get_branches_info t fuel c f filter).
Proof.
  exact (readonly_run_lister t Branches fuel
           {| la_common := c; la_fail_when_not_exists := f;
              la_scope := EmptyString; la_filter := filter |}).
Qed.

Lemma readonly_get_webhooks_info t fuel c f filter :
  readonly (get_webhooks_info t fuel c f filter).
Proof.
  exact (readonly_run_lister t Webhooks fuel
           {| la_common := c; la_fail_when_not_exists := f;
              la_scope := EmptyString; la_filter := filter |}).
Qed.

Lemma readonly_get_pull_request_info t fuel c f filter :
  readonly (get_pull_request_info t fuel c f filter).
Proof.
  exact (readonly_run_lister t PullRequests fuel
           {| la_common := c; la_fail_when_not_exists := f;
              la_scope := EmptyString; la_filter := filter |}).
Qed.

Lemma readonly_get_branch_permissions_info t fuel f pk r :
  readonly (get_branch_permissions_info t fuel f pk r).
Proof.
  exact (readonly_run_lister t BranchPermissions fuel
           {| la_common := {| check_mode := false; project_key := pk; repository := r |};
              la_fail_when_not_exists := f;
              la_scope := EmptyString; la_filter := None |}).
Qed.

Lemma readonly_require t c : readonly (Checks.require_project_and_repository t c).
Proof.
  unfold Checks.require_project_and_repository.
  apply readonly_bind; [apply readonly_get_project_info|]. intros project.
  destruct (negb (Checks.truthy_dict project)); [readonly_auto|].
  apply readonly_bind; [apply readonly_get_repository_info|]. intros repo.
  readonly_auto.
Qed.


End RunFacts.

Module DryRunFacts.
Import Py Eff BitbucketHelper RunFacts.

(** A computation that never calls [exit_json]. *)
Definition no_exit {A : Type} (m : M A) : Prop :=
  forall tr r, fst (m tr) <> ExitJson r.

Lemma no_exit_ret {A : Type} (a : A) : no_exit (ret a).
Proof. intros tr r; discriminate. Qed.
Lemma no_exit_raise {A : Type} (e : exn) : no_exit (@raise A e).
Proof. intros tr r; discriminate. Qed.
Lemma no_exit_fail_json {A : Type} (m : message) : no_exit (@fail_json A m).
Proof. intros tr r; discriminate. Qed.
Lemma no_exit_lift {A : Type} (x : res A) : no_exit (lift x).
Proof. destruct x; intros tr r; discriminate. Qed.
Lemma no_exit_do_request t q : no_exit (do_request t q).
Proof. intros tr r. unfold do_request. destruct (t tr q); discriminate. Qed.

Lemma no_exit_bind {A B : Type} (m : M A) (k : A -> M B) :
  no_exit m -> (forall a, no_exit (k a)) -> no_exit (bind m k).
Proof.
  intros Hm Hk tr r. unfold bind. specialize (Hm tr).
  destruct (m tr) as [[a|e|f|r0|] tr1]; try discriminate.
  - apply Hk.
  - now elim (Hm r0).
Qed.

Ltac no_exit_step :=
  first
    [ apply no_exit_ret | apply no_exit_raise | apply no_exit_fail_json
    | apply no_exit_lift | apply no_exit_do_request
    | apply no_exit_bind; [|intros ?]
    | match goal with
      | |- no_exit (match ?x with _ => _ end) => destruct x
      | |- no_exit (if ?b then _ else _) => destruct b
      end ].

Ltac no_exit_auto := repeat no_exit_step.






(** *** [bitbucket_repo] *)

















(** *** [bitbucket_webhook] *)




(** *** [bitbucket_branch] *)










(** *** [bitbucket_pull_request] *)








(** *** [bitbucket_branch_permissions] *)











End DryRunFacts.

(** ** Check mode *)

Section DryRunClaims.
Import Py Eff BitbucketHelper RunFacts DryRunFacts.



(** On a server without the repository: the real run creates it, the
    check-mode run only looks it up; both report [changed = true]. *)
Definition no_repository : Server.State := {| Server.repo := None; Server.branches := [] |}.

Definition repo_bar (s : string) : Repo.Params :=
  {| Repo.common := {| check_mode := false; project_key := "FOO"; repository := Some "bar" |};
     Repo.state := s |}.

Example repository_created_or_not :
  (exists f, Repo.main (Server.serve no_repository) (Repo.with_check_mode false (repo_bar "present")) []
     = (ExitJson {| changed := true; fields := f |},
        [GET (endpoint "repos-repositorySlug")
             [("projectKey", JStr "FOO"); ("repositorySlug", JStr "bar")];
         {| meth := "POST"; template := endpoint "repos";
            args := [("projectKey", JStr "FOO")];
            data := Some (JDict [("name", JStr "bar")]) |}]))
  /\ Repo.main (Server.serve no_repository) (Repo.with_check_mode true (repo_bar "present")) []
     = (ExitJson {| changed := true; fields := [] |},
        [GET (endpoint "repos-repositorySlug")
             [("projectKey", JStr "FOO"); ("repositorySlug", JStr "bar")]]).
Proof. split; [eexists|]; reflexivity. Qed.





End DryRunClaims.

(** ** Deletion of what matches *)

Module DeleteFacts.
Import Py Eff BitbucketHelper.

(** A server that carries out every deletion it is asked for. *)
Definition deletes_succeed (t : Transport) : Prop :=
  forall history r, meth r = "DELETE" ->
                    exists content, t history r = Ok ({| status := 204 |}, content).

Lemma rfilter_cons_inv {A : Type} (f : A -> res bool) x l ys :
  rfilter f (x :: l) = Ok ys ->
  exists b zs, f x = Ok b /\ rfilter f l = Ok zs /\ ys = if b then x :: zs else zs.
Proof.
  cbn [rfilter]. unfold rbind.
  destruct (f x) as [b|e]; [|discriminate].
  destruct (rfilter f l) as [zs|e]; [|discriminate].
  intros H. inversion H. now exists b, zs.
Qed.

Lemma rfilter_hits {A : Type} (f : A -> res bool) :
  forall l ys, rfilter f l = Ok ys -> forall y, In y ys -> f y = Ok true.
Proof.
  induction l as [|x l IH]; intros ys H y Hy.
  - inversion H; subst. destruct Hy.
  - apply rfilter_cons_inv in H. destruct H as (b & zs & Hx & Hl & ->).
    destruct b; [destruct Hy as [<-|Hy]|]; eauto.
Qed.

Lemma delete_pull_request_done t p i v tr :
  deletes_succeed t ->
  exists content,
    PullRequest.delete_pull_request t p i v tr
      = (Ret (Some content), tr ++ [PullRequest.delete_request p i v]).
Proof.
  intros Hd. unfold PullRequest.delete_pull_request, bind, do_request. cbv zeta.
  destruct (Hd tr (PullRequest.delete_request p i v) eq_refl) as (content & Ht).
  rewrite Ht. now exists content.
Qed.

(** The deletion loop of the pull-request module sends one delete per
    matching pull request, in the order of the listing. *)
Lemma delete_loop_deletes_all t p :
  deletes_succeed t ->
  check_mode (PullRequest.common p) = false ->
  forall pulls acc tr hits,
    rfilter (PullRequest.is_pull p) pulls = Ok hits ->
    exists j,
      PullRequest.delete_loop t p acc pulls tr
        = (Ret (match hits with [] => fst acc | _ => true end, j),
           tr ++ map (fun d => PullRequest.delete_request p
                                 (PullRequest.field d "id")
                                 (PullRequest.field d "version")) hits).
Proof.
  intros Hd Hc. induction pulls as [|d rest IH]; intros acc tr hits H.
  - inversion H; subst. exists (snd acc). simpl. rewrite app_nil_r. now destruct acc.
  - apply rfilter_cons_inv in H. destruct H as (b & zs & Hx & Hl & ->).
    cbn [PullRequest.delete_loop]. unfold bind at 1. rewrite Hx. cbn [lift ret].
    destruct b.
    + rewrite Hc. cbn [negb]. unfold bind at 1.
      destruct (delete_pull_request_done t p (PullRequest.field d "id")
                  (PullRequest.field d "version") tr Hd) as (content & Hdel).
      rewrite Hdel.
      destruct (IH (true, PullRequest.of_content (Some content))
                   (tr ++ [PullRequest.delete_request p (PullRequest.field d "id")
                             (PullRequest.field d "version")]) zs Hl) as (j & Hj).
      exists j. rewrite Hj. cbn [fst map]. rewrite <- app_assoc.
      destruct zs; reflexivity.
    + destruct (IH acc tr zs Hl) as (j & Hj). exists j. exact Hj.
Qed.

Lemma matches_only_dicts p r perm :
  BranchPermissions.matches p r perm = Ok true -> exists d, perm = JDict d.
Proof.
  destruct perm; try discriminate. intros _. now eexists.
Qed.

Lemma delete_branch_permission_done t p i tr :
  deletes_succeed t ->
  exists content,
    BranchPermissions.delete_branch_permission t p i tr
      = (Ret content, tr ++ [BranchPermissions.delete_request p i]).
Proof.
  intros Hd. unfold BranchPermissions.delete_branch_permission, bind, do_request.
  destruct (Hd tr (BranchPermissions.delete_request p i) eq_refl) as (content & Ht).
  rewrite Ht. now exists content.
Qed.

End DeleteFacts.

Section DeleteClaims.
Import Py Eff BitbucketHelper DeleteFacts.

(** The id [delete_branch_permission] is called with:
    [found[0].get('id', 'none')]. *)
Definition id_of (perm : json) : json :=
  match get perm "id" (JStr "none") with Ok v => v | Err _ => JNull end.

(** C2, as amended.  With [state = absent], for real (not in check mode)
    and against a server that carries out deletions: the pull-request
    module sends one delete for every listed pull request that matches
    (all of them, in order) and reports [changed = true] when there is at
    least one; the branch-permission module, for a restriction with at
    least one match, sends one delete, for the first match only, and sets
    [changed] to true. *)
Theorem absent_deletes_matches (t : Transport) :
  deletes_succeed t ->
  (forall p existing hits tr,
      PullRequest.state p = "absent" ->
      check_mode (PullRequest.common p) = false ->
      rfilter (PullRequest.is_pull p) existing = Ok hits ->
      hits <> [] ->
      exists f,
        PullRequest.reconcile t p (Some existing) tr
          = (ExitJson {| changed := true; fields := f |},
             tr ++ map (fun d => PullRequest.delete_request p
                                   (PullRequest.field d "id")
                                   (PullRequest.field d "version")) hits))
  /\ (forall p existing r first others acc tr,
         BranchPermissions.state p = "absent" ->
         check_mode (BranchPermissions.common p) = false ->
         rfilter (BranchPermissions.matches p r) existing = Ok (first :: others) ->
         exists results,
           BranchPermissions.step t p (Some existing) acc r tr
             = (Ret (true, results),
                tr ++ [BranchPermissions.delete_request p (id_of first)])).
Proof.
  intros Hd. split.
  - intros p existing hits tr Hs Hc Hf Hne.
    unfold PullRequest.reconcile. rewrite Hs. cbn [String.eqb Ascii.eqb Bool.eqb].
    unfold bind at 1. cbn [ret].
    assert (Hex : PullRequest.truthy_list (Some existing) = true).
    { destruct existing; [|reflexivity]. inversion Hf; subst. now elim Hne. }
    rewrite Hex. cbn [andb].
    destruct (delete_loop_deletes_all t p Hd Hc existing
                (false, JDict []) tr hits Hf) as (j & Hj).
    unfold bind. rewrite Hj. destruct hits; [now elim Hne|].
    eexists. reflexivity.
  - intros p existing r first others acc tr Hs Hc Hf.
    unfold BranchPermissions.step. destruct acc as [c results].
    unfold bind at 1. cbn [BranchPermissions.listed rbind]. rewrite Hf. cbn [lift ret].
    rewrite Hs, Hc. cbn [String.eqb Ascii.eqb Bool.eqb negb].
    destruct (matches_only_dicts p r first) as (d & ->).
    { eapply rfilter_hits; [exact Hf | now left]. }
    unfold bind at 1. cbn [get lift ret]. unfold bind.
    destruct (delete_branch_permission_done t p (id_of (JDict d)) tr Hd)
      as (content & Hdel).
    unfold id_of in Hdel. cbn [get] in Hdel. rewrite Hdel.
    eexists. reflexivity.
Qed.

End DeleteClaims.

Section DeleteExamples.
Import Py Eff BitbucketHelper DeleteFacts.

(** A server with project FOO and repository bar, the given branch
    restrictions on the project and the given pull requests on the
    repository; it carries out every deletion. *)
Definition bitbucket (perms pulls : list json) : Transport :=
  fun _ r =>
    if String.eqb (meth r) "DELETE" then Ok ({| status := 204 |}, fetched [])
    else if String.eqb (template r) (endpoint "projects-projectKey")
    then Ok ({| status := 200 |}, fetched [("key", JStr "FOO")])
    else if String.eqb (template r) (endpoint "repos-repositorySlug")
    then Ok ({| status := 200 |}, fetched [("slug", JStr "bar")])
    else if String.prefix (endpoint "branch-permissions-projects") (template r)
    then Ok ({| status := 200 |},
             fetched [("values", JList perms); ("isLastPage", JBool true)])
    else if String.prefix (endpoint "pulls") (template r)
    then Ok ({| status := 200 |},
             fetched [("values", JList pulls); ("isLastPage", JBool true)])
    else Ok ({| status := 404 |}, fetched []).

Lemma bitbucket_deletes perms pulls : deletes_succeed (bitbucket perms pulls).
Proof. intros history r H. unfold bitbucket. rewrite H. now eexists. Qed.

(** Two restrictions that forbid the deletion of [master], alike but for
    their ids. *)
Definition no_deletes (id_ : Z) : json :=
  JDict [("id", JInt id_);
         ("scope", JDict [("type", JStr "PROJECT"); ("resourceId", JInt 292)]);
         ("type", JStr "no-deletes");
         ("matcher", JDict [("id", JStr "refs/heads/master");
                            ("displayId", JStr "master");
                            ("type", JDict [("id", JStr "BRANCH"); ("name", JStr "Branch")]);
                            ("active", JBool true)]);
         ("users", JList []);
         ("groups", JList []);
         ("accessKeys", JList [])].

Definition deletion : BranchPermissions.Restriction :=
  {| BranchPermissions.prevent := "deletion"; BranchPermissions.exemptions := None |}.

Definition unprotect_master : BranchPermissions.Params :=
  {| BranchPermissions.common :=
       {| check_mode := false; project_key := "FOO"; repository := None |};
     BranchPermissions.state := "absent";
     BranchPermissions.branch_name := Some "master";
     BranchPermissions.branch_pattern := None;
     BranchPermissions.branching_model := None;
     BranchPermissions.restrictions := [deletion] |}.

(** Two pull requests from [develop] to [master]. *)
Definition pull (id_ : Z) : json :=
  JDict [("id", JInt id_); ("version", JInt 0);
         ("fromRef", JDict [("id", JStr "refs/heads/develop"); ("displayId", JStr "develop")]);
         ("toRef", JDict [("id", JStr "refs/heads/master"); ("displayId", JStr "master")])].

Definition no_pull : PullRequest.Params :=
  {| PullRequest.common :=
       {| check_mode := false; project_key := "FOO"; repository := Some "bar" |};
     PullRequest.state := "absent";
     PullRequest.title := EmptyString;
     PullRequest.from_branch := "develop";
     PullRequest.to_branch := "master";
     PullRequest.reviewers := [] |}.

Lemma absent_deletes_matches_witness :
  (exists f,
      PullRequest.reconcile (bitbucket [] [pull 11; pull 12]) no_pull
        (Some [pull 11; pull 12]) []
      = (ExitJson {| changed := true; fields := f |},
         [] ++ map (fun d => PullRequest.delete_request no_pull
                               (PullRequest.field d "id") (PullRequest.field d "version"))
                   [pull 11; pull 12]))
  /\ (exists results,
         BranchPermissions.step (bitbucket [no_deletes 1; no_deletes 2] [])
           unprotect_master (Some [no_deletes 1; no_deletes 2]) (false, []) deletion []
         = (Ret (true, results),
            [] ++ [BranchPermissions.delete_request unprotect_master (id_of (no_deletes 1))])).
Proof.
  split.
  - apply (proj1 (absent_deletes_matches (bitbucket [] [pull 11; pull 12])
                    (bitbucket_deletes _ _)));
      try reflexivity. discriminate.
  - apply (proj2 (absent_deletes_matches (bitbucket [no_deletes 1; no_deletes 2] [])
                    (bitbucket_deletes _ _)) unprotect_master
                 [no_deletes 1; no_deletes 2] deletion (no_deletes 1) [no_deletes 2]);
      reflexivity.
Defined.

(** C2, as stated, fails: with two restrictions that match, the
    branch-permission module deletes the first one only. *)
Lemma only_first_match_deleted :
  rfilter (BranchPermissions.matches unprotect_master deletion) [no_deletes 1; no_deletes 2]
    = Ok [no_deletes 1; no_deletes 2]
  /\ (exists f,
         fst (BranchPermissions.main (bitbucket [no_deletes 1; no_deletes 2] []) 3
                unprotect_master [])
         = ExitJson {| changed := true; fields := f |})
  /\ filter (fun r => negb (is_get r))
            (snd (BranchPermissions.main (bitbucket [no_deletes 1; no_deletes 2] []) 3
                    unprotect_master []))
     = [BranchPermissions.delete_request unprotect_master (JInt 1)].
Proof. split; [|split; [eexists|]]; reflexivity. Qed.

(** The webhook module has no deletion at all: with [state = absent] and
    the webhook present it makes no request but lookups and reports
    [changed = false]. *)
Definition webhooks (hooks : list json) : Transport :=
  fun _ r =>
    if String.eqb (template r) (endpoint "projects-projectKey")
    then Ok ({| status := 200 |}, fetched [("key", JStr "FOO")])
    else if String.eqb (template r) (endpoint "repos-repositorySlug")
    then Ok ({| status := 200 |}, fetched [("slug", JStr "bar")])
    else Ok ({| status := 200 |},
             fetched [("values", JList hooks); ("isLastPage", JBool true)]).

Example webhook_is_never_deleted :
  exists f,
    Webhook.main (webhooks [JDict [("id", JInt 5); ("name", JStr "wh_repo1")]]) 3
      {| Webhook.common := {| check_mode := false; project_key := "FOO";
                              repository := Some "bar" |};
         Webhook.state := "absent";
         Webhook.webhook_name := "wh_repo1";
         Webhook.webhook_url := "https://jenkins.example.com/bitbucket-hook/";
         Webhook.event := "repo:refs_changed" |} []
    = (ExitJson {| changed := false; fields := f |},
       [GET (endpoint "projects-projectKey") [("projectKey", JStr "FOO")];
        GET (endpoint "repos-repositorySlug")
            [("projectKey", JStr "FOO"); ("repositorySlug", JStr "bar")];
        lister_request Webhooks foo_bar (JInt 0)]).
Proof. eexists. reflexivity. Qed.

End DeleteExamples.

(** ** Two runs in a row *)

Module ServerFacts.
Import Py Eff BitbucketHelper Server PaginationFacts.


Definition named (b : string) (x : string * bool) : bool := String.eqb (fst x) b.


Lemma rany_is_branch b l :
  rany (Branch.is_branch b) (map render_branch l) = Ok (existsb (named b) l).
Proof.
  induction l as [|x l IH]; [reflexivity|].
  cbn [map rany existsb]. unfold Branch.is_branch at 1. cbn. unfold named at 1.
  destruct (fst x =? b)%string; [reflexivity | exact IH].
Qed.






(** The branches listing against the server. *)
Definition branches_request (c : Common) : Request :=
  lister_request Branches
    {| la_common := c; la_fail_when_not_exists := false;
       la_scope := EmptyString; la_filter := None |} (JInt 0).


















End ServerFacts.

Section IdempotenceClaims.
Import Py Eff BitbucketHelper Server ServerFacts.


Definition has_repository : State :=
  {| repo := Some [("slug", JStr "bar"); ("state", JStr "AVAILABLE")];
     branches := [("master", true)] |}.

Definition branch_feature : Branch.Params :=
  {| Branch.common := {| check_mode := false; project_key := "FOO"; repository := Some "bar" |};
     Branch.state := "present";
     Branch.branch := "feature/baz";
     Branch.from_branch := "master";
     Branch.is_default := true |}.


Example branch_created_then_untouched :
  Branch.main (serve has_repository) 1 branch_feature []
    = (ExitJson {| changed := true;
                   fields := Branch.seed branch_feature
                             ++ [("json", JDict [("id", JStr "refs/heads/feature/baz");
                                                 ("displayId", JStr "feature/baz");
                                                 ("type", JStr "BRANCH");
                                                 ("isDefault", JBool false);
                                                 ("fetch_url_retries", JInt 1)])] |},
       [branches_request (Branch.common branch_feature);
        Branch.create_request branch_feature;
        default_branch_request (Branch.common branch_feature) "feature/baz"])
  /\ branches (after has_repository
                 (snd (Branch.main (serve has_repository) 1 branch_feature [])))
     = [("master", false); ("feature/baz", true)].
Proof. split; reflexivity. Qed.


End IdempotenceClaims.

(* ================================================================== *)
(** * Further properties *)
(* ================================================================== *)

(** ** What a run sends and what it reports *)

Module TraceFacts.
Import Py Eff BitbucketHelper Control RunFacts DryRunFacts.

(** A computation that only adds requests accepted by [P] to the trace. *)
Definition sends_only (P : Request -> bool) {A : Type} (m : M A) : Prop :=
  forall tr, exists reqs, snd (m tr) = tr ++ reqs /\ forallb P reqs = true.

Lemma sends_only_pure P {A : Type} (m : M A) :
  (forall tr, snd (m tr) = tr) -> sends_only P m.
Proof. intros H tr. exists []. rewrite app_nil_r. split; [apply H | reflexivity]. Qed.

Lemma sends_only_ret P {A : Type} (a : A) : sends_only P (ret a).
Proof. now apply sends_only_pure. Qed.
Lemma sends_only_raise P {A : Type} (e : exn) : sends_only P (@raise A e).
Proof. now apply sends_only_pure. Qed.
Lemma sends_only_fail_json P {A : Type} (m : message) : sends_only P (@fail_json A m).
Proof. now apply sends_only_pure. Qed.
Lemma sends_only_fail_json_list P {A : Type} (m : list message) :
  sends_only P (@fail_json_list A m).
Proof. now apply sends_only_pure. Qed.
Lemma sends_only_exit_json P {A : Type} (r : Result) : sends_only P (@exit_json A r).
Proof. now apply sends_only_pure. Qed.
Lemma sends_only_out_of_fuel P {A : Type} : sends_only P (@out_of_fuel A).
Proof. now apply sends_only_pure. Qed.
Lemma sends_only_lift P {A : Type} (r : res A) : sends_only P (lift r).
Proof. destruct r; now apply sends_only_pure. Qed.

Lemma sends_only_bind P {A B : Type} (m : M A) (k : A -> M B) :
  sends_only P m -> (forall a, sends_only P (k a)) -> sends_only P (bind m k).
Proof.
  intros Hm Hk tr. destruct (Hm tr) as (reqs & Htr & Hp).
  unfold bind. destruct (m tr) as [[a|e|f|r|] tr1]; simpl in Htr; subst tr1;
    try (exists reqs; split; [reflexivity | exact Hp]).
  destruct (Hk a (tr ++ reqs)) as (reqs' & Htr' & Hp').
  exists (reqs ++ reqs'). split.
  - rewrite Htr'. now rewrite app_assoc.
  - rewrite forallb_app, Hp, Hp'. reflexivity.
Qed.

Lemma sends_only_do_request P t r : P r = true -> sends_only P (do_request t r).
Proof.
  intros H tr. exists [r]. split; [|simpl; now rewrite H].
  unfold do_request. now destruct (t tr r).
Qed.

(** Reading is allowed whenever [P] accepts every [GET]. *)
Lemma sends_only_readonly P {A : Type} (m : M A) :
  (forall r, is_get r = true -> P r = true) -> readonly m -> sends_only P m.
Proof.
  intros HP Hm tr. destruct (Hm tr) as (reqs & Htr & Hget).
  exists reqs. split; [exact Htr|].
  rewrite forallb_forall in *. auto.
Qed.

Lemma sends_only_for_each P {A S : Type} (body : S -> A -> M S) :
  (forall s x, sends_only P (body s x)) ->
  forall l s, sends_only P (for_each body l s).
Proof.
  intros Hb. induction l as [|x l IH]; intros s; cbn [for_each].
  - apply sends_only_ret.
  - apply sends_only_bind; [apply Hb | intros s'; apply IH].
Qed.

Lemma readonly_for_each {A S : Type} (body : S -> A -> M S) :
  (forall s x, readonly (body s x)) ->
  forall l s, readonly (for_each body l s).
Proof.
  intros Hb. induction l as [|x l IH]; intros s; cbn [for_each].
  - apply readonly_ret.
  - apply readonly_bind; [apply Hb | intros s'; apply IH].
Qed.

(** A computation whose every [exit_json] reports a result in [Q]. *)
Definition exits_with (Q : Result -> Prop) {A : Type} (m : M A) : Prop :=
  forall tr r, fst (m tr) = ExitJson r -> Q r.

Lemma exits_with_no_exit Q {A : Type} (m : M A) : no_exit m -> exits_with Q m.
Proof. intros H tr r E. now elim (H tr r). Qed.

Lemma exits_with_exit_json (Q : Result -> Prop) {A : Type} (r : Result) :
  Q r -> exits_with Q (@exit_json A r).
Proof. intros H tr r' E. inversion E; subst. exact H. Qed.

Lemma exits_with_bind Q {A B : Type} (m : M A) (k : A -> M B) :
  exits_with Q m -> (forall a, exits_with Q (k a)) -> exits_with Q (bind m k).
Proof.
  intros Hm Hk tr r. unfold bind. specialize (Hm tr).
  destruct (m tr) as [[a|e|f|r0|] tr1]; try discriminate.
  - apply Hk.
  - intros E. inversion E; subst. now apply Hm.
Qed.

Lemma no_exit_fail_json_list {A : Type} (m : list message) : no_exit (@fail_json_list A m).
Proof. intros tr r; discriminate. Qed.

Lemma no_exit_out_of_fuel {A : Type} : no_exit (@out_of_fuel A).
Proof. intros tr r; discriminate. Qed.

Lemma no_exit_paginate t key mk :
  forall fuel acc c, no_exit (paginate t fuel key mk acc c).
Proof.
  induction fuel as [|fuel IH]; intros acc c; cbn [paginate].
  - apply no_exit_out_of_fuel.
  - no_exit_auto; apply IH.
Qed.

Lemma no_exit_get_project_info t f pk : no_exit (get_project_info t f pk).
Proof. unfold get_project_info. no_exit_auto. Qed.

Lemma no_exit_get_repository_info t f pk r : no_exit (get_repository_info t f pk r).
Proof. unfold get_repository_info. no_exit_auto. Qed.

Lemma no_exit_run_lister t h fuel a : no_exit (run_lister t h fuel a).
Proof.
  destruct h; cbn [run_lister];
    unfold get_all_projects_info, get_all_repositories_info, get_branches_info,
      get_project_permissions_info, get_repository_permissions_info,
      get_branch_permissions_info, get_webhooks_info, get_pull_request_info,
      get_project_reviewers, get_repo_reviewers, repo_listing_tail; cbv zeta;
    (apply no_exit_bind; [apply no_exit_paginate | intros [info items]; no_exit_auto]).
Qed.

Lemma no_exit_require t c : no_exit (Checks.require_project_and_repository t c).
Proof.
  unfold Checks.require_project_and_repository.
  apply no_exit_bind; [apply no_exit_get_project_info|]. intros project.
  destruct (negb (Checks.truthy_dict project)); [apply no_exit_fail_json_list|].
  apply no_exit_bind; [apply no_exit_get_repository_info|]. intros repo.
  destruct (negb (Checks.truthy_dict repo));
    [apply no_exit_fail_json_list | apply no_exit_ret].
Qed.

Lemma no_exit_for_each {A S : Type} (body : S -> A -> M S) :
  (forall s x, no_exit (body s x)) ->
  forall l s, no_exit (for_each body l s).
Proof.
  intros Hb. induction l as [|x l IH]; intros s; cbn [for_each].
  - apply no_exit_ret.
  - apply no_exit_bind; [apply Hb | intros s'; apply IH].
Qed.

(** The listings by name, as instances of [run_lister]. *)
Definition args_of (c : Common) (scope : string) (filter : option string) : ListArgs :=
  {| la_common := c; la_fail_when_not_exists := false;
     la_scope := scope; la_filter := filter |}.

Definition key_only (pk : string) (r : option string) : Common :=
  {| check_mode := false; project_key := pk; repository := r |}.

End TraceFacts.

(** ** The [_info] modules only read *)

Module InfoFacts.
Import Py Eff BitbucketHelper Control RunFacts DryRunFacts TraceFacts.

Lemma readonly_get_all_projects_info t fuel f : readonly (get_all_projects_info t fuel f).
Proof.
  exact (readonly_run_lister t AllProjects fuel
           {| la_common := key_only EmptyString None; la_fail_when_not_exists := f;
              la_scope := EmptyString; la_filter := None |}).
Qed.

Lemma readonly_get_all_repositories_info t fuel c f :
  readonly (get_all_repositories_info t fuel c f).
Proof.
  exact (readonly_run_lister t AllRepositories fuel
           {| la_common := c; la_fail_when_not_exists := f;
              la_scope := EmptyString; la_filter := None |}).
Qed.

Lemma readonly_get_project_permissions_info t fuel f pk scope filter :
  readonly (get_project_permissions_info t fuel f pk scope filter).
Proof.
  exact (readonly_run_lister t ProjectPermissions fuel
           {| la_common := key_only pk None; la_fail_when_not_exists := f;
              la_scope := scope; la_filter := filter |}).
Qed.

Lemma readonly_get_repository_permissions_info t fuel f pk r scope filter :
  readonly (get_repository_permissions_info t fuel f pk r scope filter).
Proof.
  exact (readonly_run_lister t RepositoryPermissions fuel
           {| la_common := key_only pk r; la_fail_when_not_exists := f;
              la_scope := scope; la_filter := filter |}).
Qed.

Lemma no_exit_get_all_projects_info t fuel f : no_exit (get_all_projects_info t fuel f).
Proof.
  exact (no_exit_run_lister t AllProjects fuel
           {| la_common := key_only EmptyString None; la_fail_when_not_exists := f;
              la_scope := EmptyString; la_filter := None |}).
Qed.

Lemma no_exit_get_all_repositories_info t fuel c f :
  no_exit (get_all_repositories_info t fuel c f).
Proof.
  exact (no_exit_run_lister t AllRepositories fuel
           {| la_common := c; la_fail_when_not_exists := f;
              la_scope := EmptyString; la_filter := None |}).
Qed.

Lemma no_exit_get_branches_info t fuel c f filter :
  no_exit (get_branches_info t fuel c f filter).
Proof.
  exact (no_exit_run_lister t Branches fuel
           {| la_common := c; la_fail_when_not_exists := f;
              la_scope := EmptyString; la_filter := filter |}).
Qed.

Lemma no_exit_get_webhooks_info t fuel c f filter :
  no_exit (get_webhooks_info t fuel c f filter).
Proof.
  exact (no_exit_run_lister t Webhooks fuel
           {| la_common := c; la_fail_when_not_exists := f;
              la_scope := EmptyString; la_filter := filter |}).
Qed.

Lemma no_exit_get_pull_request_info t fuel c f filter :
  no_exit (get_pull_request_info t fuel c f filter).
Proof.
  exact (no_exit_run_lister t PullRequests fuel
           {| la_common := c; la_fail_when_not_exists := f;
              la_scope := EmptyString; la_filter := filter |}).
Qed.

Lemma no_exit_get_branch_permissions_info t fuel f pk r :
  no_exit (get_branch_permissions_info t fuel f pk r).
Proof.
  exact (no_exit_run_lister t BranchPermissions fuel
           {| la_common := key_only pk r; la_fail_when_not_exists := f;
              la_scope := EmptyString; la_filter := None |}).
Qed.

Lemma no_exit_get_project_permissions_info t fuel f pk scope filter :
  no_exit (get_project_permissions_info t fuel f pk scope filter).
Proof.
  exact (no_exit_run_lister t ProjectPermissions fuel
           {| la_common := key_only pk None; la_fail_when_not_exists := f;
              la_scope := scope; la_filter := filter |}).
Qed.

Lemma no_exit_get_repository_permissions_info t fuel f pk r scope filter :
  no_exit (get_repository_permissions_info t fuel f pk r scope filter).
Proof.
  exact (no_exit_run_lister t RepositoryPermissions fuel
           {| la_common := key_only pk r; la_fail_when_not_exists := f;
              la_scope := scope; la_filter := filter |}).
Qed.

(** The reading steps of a module, for [readonly] and for [no_exit]. *)
Ltac reads :=
  first
    [ apply readonly_get_project_info | apply readonly_get_repository_info
    | apply readonly_get_all_projects_info | apply readonly_get_all_repositories_info
    | apply readonly_get_branches_info | apply readonly_get_webhooks_info
    | apply readonly_get_pull_request_info | apply readonly_get_branch_permissions_info
    | apply readonly_get_project_permissions_info
    | apply readonly_get_repository_permissions_info
    | apply readonly_require ].

Ltac stays :=
  first
    [ apply no_exit_get_project_info | apply no_exit_get_repository_info
    | apply no_exit_get_all_projects_info | apply no_exit_get_all_repositories_info
    | apply no_exit_get_branches_info | apply no_exit_get_webhooks_info
    | apply no_exit_get_pull_request_info | apply no_exit_get_branch_permissions_info
    | apply no_exit_get_project_permissions_info
    | apply no_exit_get_repository_permissions_info
    | apply no_exit_require | apply no_exit_lift | apply no_exit_ret ].

Ltac reading_step :=
  first
    [ reads
    | apply readonly_ret | apply readonly_lift | apply readonly_exit_json
    | apply readonly_bind; [|intros ?]
    | match goal with
      | |- readonly (match ?x with _ => _ end) => destruct x
      | |- readonly (if ?b then _ else _) => destruct b
      | |- readonly (let _ := _ in _) => cbv zeta
      end ].

(** What an [_info] module is to do: read, and never report a change. *)
Definition unchanged (r : Result) : Prop := changed r = false.

Definition only_reports (m : M unit) : Prop :=
  readonly m /\ exits_with unchanged m.

Ltac reporting_step :=
  first
    [ apply exits_with_exit_json; reflexivity
    | apply exits_with_no_exit; stays
    | apply exits_with_bind; [apply exits_with_no_exit; stays | intros ?]
    | match goal with
      | |- exits_with _ (match ?x with _ => _ end) => destruct x
      | |- exits_with _ (if ?b then _ else _) => destruct b
      | |- exits_with _ (let _ := _ in _) => cbv zeta
      end ].

Lemma readonly_project_info_visit t acc k : readonly (ProjectInfo.visit t acc k).
Proof. unfold ProjectInfo.visit. repeat reading_step. Qed.

Lemma no_exit_project_info_visit t acc k : no_exit (ProjectInfo.visit t acc k).
Proof.
  unfold ProjectInfo.visit. apply no_exit_bind; [stays|]. intros r. no_exit_auto.
Qed.

Lemma project_info_only_reports t fuel p : only_reports (ProjectInfo.main t fuel p).
Proof.
  split; unfold ProjectInfo.main; cbv zeta.
  - destruct (has_star _); [repeat reading_step|].
    apply readonly_bind; [|intros [m ps]; apply readonly_exit_json].
    apply readonly_for_each. intros; apply readonly_project_info_visit.
  - destruct (has_star _); [repeat reporting_step|].
    apply exits_with_bind; [|intros [m ps]; apply exits_with_exit_json; reflexivity].
    apply exits_with_no_exit, no_exit_for_each. intros; apply no_exit_project_info_visit.
Qed.

Lemma readonly_repo_info_visit t p acc k : readonly (RepoInfo.visit t p acc k).
Proof. unfold RepoInfo.visit. repeat reading_step. Qed.

Lemma no_exit_repo_info_visit t p acc k : no_exit (RepoInfo.visit t p acc k).
Proof.
  unfold RepoInfo.visit. apply no_exit_bind; [stays|]. intros r. no_exit_auto.
Qed.

Lemma repo_info_only_reports t fuel p : only_reports (RepoInfo.main t fuel p).
Proof.
  split; unfold RepoInfo.main; cbv zeta.
  - apply readonly_bind; [reads|]. intros project.
    destruct (negb _); [apply readonly_exit_json|].
    destruct (has_star _); [repeat reading_step|].
    apply readonly_bind; [|intros [m ps]; apply readonly_exit_json].
    apply readonly_for_each. intros; apply readonly_repo_info_visit.
  - apply exits_with_bind; [apply exits_with_no_exit; stays|]. intros project.
    destruct (negb _); [apply exits_with_exit_json; reflexivity|].
    destruct (has_star _); [repeat reporting_step|].
    apply exits_with_bind; [|intros [m ps]; apply exits_with_exit_json; reflexivity].
    apply exits_with_no_exit, no_exit_for_each. intros; apply no_exit_repo_info_visit.
Qed.

Lemma readonly_branch_info_visit t fuel p acc k : readonly (BranchInfo.visit t fuel p acc k).
Proof. unfold BranchInfo.visit. repeat reading_step. Qed.

Lemma no_exit_branch_info_visit t fuel p acc k : no_exit (BranchInfo.visit t fuel p acc k).
Proof.
  unfold BranchInfo.visit. apply no_exit_bind; [stays|]. intros r. no_exit_auto.
Qed.

Lemma branch_info_only_reports t fuel p : only_reports (BranchInfo.main t fuel p).
Proof.
  split; unfold BranchInfo.main; cbv zeta.
  - apply readonly_bind; [reads|]. intros project.
    apply readonly_bind; [reads|]. intros repo.
    destruct (if negb (truthy_dict repo) then _ else _); [|apply readonly_exit_json].
    destruct (has_star _); [repeat reading_step|].
    apply readonly_bind; [|intros ?; apply readonly_exit_json].
    apply readonly_for_each. intros; apply readonly_branch_info_visit.
  - apply exits_with_bind; [apply exits_with_no_exit; stays|]. intros project.
    apply exits_with_bind; [apply exits_with_no_exit; stays|]. intros repo.
    destruct (if negb (truthy_dict repo) then _ else _);
      [|apply exits_with_exit_json; reflexivity].
    destruct (has_star _); [repeat reporting_step|].
    apply exits_with_bind; [|intros ?; apply exits_with_exit_json; reflexivity].
    apply exits_with_no_exit, no_exit_for_each. intros; apply no_exit_branch_info_visit.
Qed.

Lemma webhook_info_only_reports t fuel c : only_reports (WebhookInfo.main t fuel c).
Proof.
  split; unfold WebhookInfo.main; [repeat reading_step | repeat reporting_step].
Qed.

Lemma pull_request_info_only_reports t fuel c :
  only_reports (PullRequestInfo.main t fuel c).
Proof.
  split; unfold PullRequestInfo.main; [repeat reading_step | repeat reporting_step].
Qed.

Lemma branch_permissions_info_only_reports t fuel c :
  only_reports (BranchPermissionsInfo.main t fuel c).
Proof.
  split; unfold BranchPermissionsInfo.main.
  - apply readonly_bind; [reads|]. intros project.
    destruct (negb _); [apply readonly_exit_json|].
    apply readonly_bind; [destruct (repository c); repeat reading_step|].
    intros missing. repeat reading_step.
  - apply exits_with_bind; [apply exits_with_no_exit; stays|]. intros project.
    destruct (negb _); [apply exits_with_exit_json; reflexivity|].
    apply exits_with_bind.
    { apply exits_with_no_exit. destruct (repository c); [|apply no_exit_ret].
      apply no_exit_bind; [stays | intros ?; apply no_exit_ret]. }
    intros missing. repeat reporting_step.
Qed.

Lemma readonly_project_permissions_visit t fuel p acc f :
  readonly (ProjectPermissionsInfo.visit t fuel p acc f).
Proof. unfold ProjectPermissionsInfo.visit. repeat reading_step. Qed.

Lemma no_exit_project_permissions_visit t fuel p acc f :
  no_exit (ProjectPermissionsInfo.visit t fuel p acc f).
Proof.
  unfold ProjectPermissionsInfo.visit.
  repeat (apply no_exit_bind; [stays | intros ?]). apply no_exit_ret.
Qed.

Lemma project_permissions_info_only_reports t fuel p :
  only_reports (ProjectPermissionsInfo.main t fuel p).
Proof.
  split; unfold ProjectPermissionsInfo.main; cbv zeta.
  - apply readonly_bind; [reads|]. intros project.
    destruct (negb _); [apply readonly_exit_json|].
    apply readonly_bind; [|intros [g u]; apply readonly_exit_json].
    destruct (has_star _); [apply readonly_project_permissions_visit|].
    apply readonly_for_each. intros; apply readonly_project_permissions_visit.
  - apply exits_with_bind; [apply exits_with_no_exit; stays|]. intros project.
    destruct (negb _); [apply exits_with_exit_json; reflexivity|].
    apply exits_with_bind; [|intros [g u]; apply exits_with_exit_json; reflexivity].
    apply exits_with_no_exit.
    destruct (has_star _); [apply no_exit_project_permissions_visit|].
    apply no_exit_for_each. intros; apply no_exit_project_permissions_visit.
Qed.

Lemma readonly_repo_permissions_visit t fuel p acc f :
  readonly (RepoPermissionsInfo.visit t fuel p acc f).
Proof. unfold RepoPermissionsInfo.visit. repeat reading_step. Qed.

Lemma no_exit_repo_permissions_visit t fuel p acc f :
  no_exit (RepoPermissionsInfo.visit t fuel p acc f).
Proof.
  unfold RepoPermissionsInfo.visit. cbv zeta.
  repeat (apply no_exit_bind; [stays | intros ?]). apply no_exit_ret.
Qed.

Lemma repo_permissions_info_only_reports t fuel p :
  only_reports (RepoPermissionsInfo.main t fuel p).
Proof.
  split; unfold RepoPermissionsInfo.main; cbv zeta.
  - apply readonly_bind; [reads|]. intros project.
    destruct (negb _); [apply readonly_exit_json|].
    apply readonly_bind; [reads|]. intros repo.
    destruct (negb _); [apply readonly_exit_json|].
    apply readonly_bind; [|intros [g u]; apply readonly_exit_json].
    destruct (has_star _); [apply readonly_repo_permissions_visit|].
    apply readonly_for_each. intros; apply readonly_repo_permissions_visit.
  - apply exits_with_bind; [apply exits_with_no_exit; stays|]. intros project.
    destruct (negb _); [apply exits_with_exit_json; reflexivity|].
    apply exits_with_bind; [apply exits_with_no_exit; stays|]. intros repo.
    destruct (negb _); [apply exits_with_exit_json; reflexivity|].
    apply exits_with_bind; [|intros [g u]; apply exits_with_exit_json; reflexivity].
    apply exits_with_no_exit.
    destruct (has_star _); [apply no_exit_repo_permissions_visit|].
    apply no_exit_for_each. intros; apply no_exit_repo_permissions_visit.
Qed.

Lemma application_link_info_only_reports t p :
  only_reports (ApplicationLinkInfo.main t p).
Proof.
  split; unfold ApplicationLinkInfo.main, ApplicationLinkInfo.get_application_links_info;
    cbv zeta.
  - apply readonly_bind.
    { apply readonly_bind; [apply readonly_do_request; reflexivity|].
      intros [info content]. destruct (_ =? _)%Z;
        [apply readonly_ret | apply readonly_fail_json]. }
    intros all_applinks.
    apply readonly_bind; [|intros ?; apply readonly_exit_json].
    destruct (has_star _); [repeat reading_step|].
    apply readonly_for_each. intros. apply readonly_lift.
  - apply exits_with_bind.
    { apply exits_with_no_exit. no_exit_auto. }
    intros all_applinks.
    apply exits_with_bind; [|intros ?; apply exits_with_exit_json; reflexivity].
    apply exits_with_no_exit.
    destruct (has_star _); [no_exit_auto|].
    apply no_exit_for_each. intros. apply no_exit_lift.
Qed.

End InfoFacts.

Section InfoClaims.
Import Py Eff BitbucketHelper Control RunFacts TraceFacts InfoFacts.

(** X1.  The nine [_info] modules (projects, repositories, branches,
    webhooks, pull requests, branch permissions, project permissions,
    repository permissions and application links), against any server and
    for any parameters: every request they make is a [GET], and whenever
    they end with [exit_json] they report [changed = false]. *)
Theorem info_modules_only_report (t : Transport) (fuel : nat) :
  (forall p, only_reports (ProjectInfo.main t fuel p))
  /\ (forall p, only_reports (RepoInfo.main t fuel p))
  /\ (forall p, only_reports (BranchInfo.main t fuel p))
  /\ (forall c, only_reports (WebhookInfo.main t fuel c))
  /\ (forall c, only_reports (PullRequestInfo.main t fuel c))
  /\ (forall c, only_reports (BranchPermissionsInfo.main t fuel c))
  /\ (forall p, only_reports (ProjectPermissionsInfo.main t fuel p))
  /\ (forall p, only_reports (RepoPermissionsInfo.main t fuel p))
  /\ (forall p, only_reports (ApplicationLinkInfo.main t p)).
Proof.
  repeat split;
    first [ apply project_info_only_reports | apply repo_info_only_reports
          | apply branch_info_only_reports | apply webhook_info_only_reports
          | apply pull_request_info_only_reports
          | apply branch_permissions_info_only_reports
          | apply project_permissions_info_only_reports
          | apply repo_permissions_info_only_reports
          | apply application_link_info_only_reports ].
Qed.

End InfoClaims.

(** ** What a run never sends *)

Module SafetyFacts.
Import Py Eff BitbucketHelper Control RunFacts DryRunFacts TraceFacts InfoFacts.

Definition not_delete (r : Request) : bool := negb (String.eqb (meth r) "DELETE").

Definition get_or_delete (r : Request) : bool :=
  is_get r || String.eqb (meth r) "DELETE".

Lemma get_is_not_delete r : is_get r = true -> not_delete r = true.
Proof.
  unfold is_get, not_delete. intros H. apply String.eqb_eq in H. now rewrite H.
Qed.

Lemma get_is_get_or_delete r : is_get r = true -> get_or_delete r = true.
Proof. unfold get_or_delete. now intros ->. Qed.

Ltac sending_step :=
  first
    [ apply sends_only_ret | apply sends_only_raise | apply sends_only_fail_json
    | apply sends_only_fail_json_list | apply sends_only_exit_json
    | apply sends_only_out_of_fuel | apply sends_only_lift
    | apply sends_only_do_request; reflexivity
    | apply sends_only_readonly;
        [first [exact get_is_not_delete | exact get_is_get_or_delete] | reads]
    | apply sends_only_bind; [|intros ?]
    | match goal with
      | |- sends_only _ (match ?x with _ => _ end) => destruct x
      | |- sends_only _ (if ?b then _ else _) => destruct b
      | |- sends_only _ (let _ := _ in _) => cbv zeta
      end ].

Ltac sending := repeat sending_step.

(** *** [bitbucket_repo] and [bitbucket_project] *)

Lemma repo_present_never_deletes t p :
  Repo.state p = "present" -> sends_only not_delete (Repo.main t p).
Proof.
  intros Hs. unfold Repo.main, Repo.finish, Repo.create_repository. rewrite Hs.
  cbn [String.eqb Ascii.eqb Bool.eqb andb]. cbv zeta.
  apply sends_only_bind; [sending|]. intros existing.
  rewrite !andb_true_r, andb_false_r. sending.
Qed.

Lemma repo_absent_never_creates t p :
  Repo.state p = "absent" -> sends_only get_or_delete (Repo.main t p).
Proof.
  intros Hs. unfold Repo.main, Repo.finish, Repo.delete_repository. rewrite Hs.
  cbn [String.eqb Ascii.eqb Bool.eqb andb]. cbv zeta.
  apply sends_only_bind; [sending|]. intros existing.
  rewrite !andb_true_r, andb_false_r. sending.
Qed.

Lemma project_present_never_deletes t p :
  Project.state p = "present" -> sends_only not_delete (Project.main t p).
Proof.
  intros Hs. unfold Project.main, Project.finish, Project.create_project,
    Project.check_arguments, Project.required_together. rewrite Hs.
  cbn [String.eqb Ascii.eqb Bool.eqb andb].
  apply sends_only_bind; [sending|]. intros _.
  apply sends_only_bind; [sending|]. intros _.
  apply sends_only_bind; [sending|]. intros existing.
  rewrite !andb_true_r, andb_false_r. sending.
Qed.

Lemma project_absent_never_creates t p :
  Project.state p = "absent" -> sends_only get_or_delete (Project.main t p).
Proof.
  intros Hs. unfold Project.main, Project.finish, Project.delete_project,
    Project.check_arguments, Project.required_together. rewrite Hs.
  cbn [String.eqb Ascii.eqb Bool.eqb andb].
  apply sends_only_bind; [sending|]. intros _.
  apply sends_only_bind; [sending|]. intros _.
  apply sends_only_bind; [sending|]. intros existing.
  rewrite !andb_true_r, andb_false_r. sending.
Qed.

(** *** [bitbucket_branch_permissions] *)

Lemma create_branch_permission_posts P t p ty m e :
  (forall r, meth r = "POST" -> P r = true) ->
  sends_only P (BranchPermissions.create_branch_permission t p ty m e).
Proof.
  intros HP. unfold BranchPermissions.create_branch_permission,
    BranchPermissions.restrictions_url.
  destruct (repository (BranchPermissions.common p));
    (apply sends_only_bind; [apply sends_only_do_request, HP; reflexivity|]);
    intros [info content]; sending.
Qed.

Lemma delete_branch_permission_deletes P t p i :
  (forall r, meth r = "DELETE" -> P r = true) ->
  sends_only P (BranchPermissions.delete_branch_permission t p i).
Proof.
  intros HP. unfold BranchPermissions.delete_branch_permission.
  apply sends_only_bind; [apply sends_only_do_request, HP; reflexivity|].
  intros [info content]; sending.
Qed.

Lemma branch_permissions_loop_sends P t p existing :
  (forall acc r, sends_only P (BranchPermissions.step t p existing acc r)) ->
  forall rs acc, sends_only P (BranchPermissions.loop t p existing acc rs).
Proof.
  intros Hstep. induction rs as [|r rs IH]; intros acc; cbn [BranchPermissions.loop].
  - apply sends_only_ret.
  - apply sends_only_bind; [apply Hstep | intros acc'; apply IH].
Qed.

Lemma branch_permissions_main_sends P t fuel p :
  (forall r, is_get r = true -> P r = true) ->
  (forall existing acc r, sends_only P (BranchPermissions.step t p existing acc r)) ->
  sends_only P (BranchPermissions.main t fuel p).
Proof.
  intros HP Hstep. unfold BranchPermissions.main, BranchPermissions.finish. cbv zeta.
  apply sends_only_bind; [apply sends_only_readonly; [exact HP | reads]|]. intros project.
  destruct (negb _); [apply sends_only_exit_json|].
  apply sends_only_bind.
  { destruct (repository (BranchPermissions.common p)); [|apply sends_only_ret].
    apply sends_only_bind; [apply sends_only_readonly; [exact HP | reads]|].
    intros repo. apply sends_only_ret. }
  intros missing. destruct missing; [apply sends_only_exit_json|].
  apply sends_only_bind; [apply sends_only_readonly; [exact HP | reads]|]. intros existing.
  apply sends_only_bind; [apply branch_permissions_loop_sends, Hstep|].
  intros [c results]. apply sends_only_exit_json.
Qed.

Lemma branch_permissions_present_never_deletes t fuel p :
  BranchPermissions.state p = "present" ->
  sends_only not_delete (BranchPermissions.main t fuel p).
Proof.
  intros Hs. apply branch_permissions_main_sends; [exact get_is_not_delete|].
  intros existing [c results] r. unfold BranchPermissions.step. rewrite Hs.
  cbn [String.eqb Ascii.eqb Bool.eqb].
  apply sends_only_bind; [apply sends_only_lift|]. intros found.
  destruct found; [|apply sends_only_ret].
  destruct (negb _); [|apply sends_only_ret].
  apply sends_only_bind; [apply sends_only_lift|]. intros m.
  apply sends_only_bind; [|intros ?; apply sends_only_ret].
  apply create_branch_permission_posts. intros q Hq. unfold not_delete. now rewrite Hq.
Qed.

Lemma branch_permissions_absent_never_creates t fuel p :
  BranchPermissions.state p = "absent" ->
  sends_only get_or_delete (BranchPermissions.main t fuel p).
Proof.
  intros Hs. apply branch_permissions_main_sends; [exact get_is_get_or_delete|].
  intros existing [c results] r. unfold BranchPermissions.step. rewrite Hs.
  cbn [String.eqb Ascii.eqb Bool.eqb].
  apply sends_only_bind; [apply sends_only_lift|]. intros found.
  destruct found; [apply sends_only_ret|].
  destruct (negb _); [|apply sends_only_ret].
  apply sends_only_bind; [apply sends_only_lift|]. intros i.
  apply sends_only_bind; [|intros ?; apply sends_only_ret].
  apply delete_branch_permission_deletes. intros q Hq.
  unfold get_or_delete. rewrite Hq. apply orb_true_r.
Qed.

(** *** [bitbucket_pull_request] *)

Lemma pull_request_main_sends P t fuel p :
  (forall r, is_get r = true -> P r = true) ->
  (forall existing, sends_only P (PullRequest.reconcile t p existing)) ->
  sends_only P (PullRequest.main t fuel p).
Proof.
  intros HP Hr. unfold PullRequest.main. cbv zeta.
  apply sends_only_bind; [apply sends_only_readonly; [exact HP | reads]|]. intros _.
  apply sends_only_bind; [apply sends_only_readonly; [exact HP | reads]|]. intros existing.
  apply Hr.
Qed.

Lemma pull_request_present_never_deletes t fuel p :
  PullRequest.state p = "present" ->
  sends_only not_delete (PullRequest.main t fuel p).
Proof.
  intros Hs. apply pull_request_main_sends; [exact get_is_not_delete|].
  intros existing. unfold PullRequest.reconcile, PullRequest.create_pull_request.
  rewrite Hs. cbn [String.eqb Ascii.eqb Bool.eqb]. rewrite andb_false_r. sending.
Qed.

Lemma delete_loop_sends t p :
  forall pulls acc, sends_only get_or_delete (PullRequest.delete_loop t p acc pulls).
Proof.
  induction pulls as [|d rest IH]; intros acc; cbn [PullRequest.delete_loop].
  - apply sends_only_ret.
  - apply sends_only_bind; [apply sends_only_lift|]. intros hit.
    destruct hit; [|apply IH]. destruct (negb _); [|apply IH].
    apply sends_only_bind; [|intros ?; apply IH].
    unfold PullRequest.delete_pull_request. sending.
Qed.

Lemma sends_only_ext P {A : Type} (m m' : M A) :
  (forall tr, m tr = m' tr) -> sends_only P m' -> sends_only P m.
Proof. intros E H tr. rewrite E. apply H. Qed.

Lemma pull_request_absent_never_creates t fuel p :
  PullRequest.state p = "absent" ->
  sends_only get_or_delete (PullRequest.main t fuel p).
Proof.
  intros Hs. apply pull_request_main_sends; [exact get_is_get_or_delete|].
  intros existing. unfold PullRequest.reconcile.
  rewrite Hs. cbn [String.eqb Ascii.eqb Bool.eqb]. rewrite andb_true_r.
  eapply sends_only_ext; [intros tr; unfold bind at 1; cbn [ret]; reflexivity|].
  destruct (PullRequest.truthy_list existing); [|apply sends_only_exit_json].
  apply sends_only_bind; [apply delete_loop_sends|].
  intros [c j]. apply sends_only_exit_json.
Qed.

(** *** Modules without a deletion *)

Lemma branch_never_deletes t fuel p : sends_only not_delete (Branch.main t fuel p).
Proof.
  unfold Branch.main, Branch.ensure_created, Branch.ensure_default,
    Branch.create_branch, set_default_branch.
  apply sends_only_bind; [sending|]. intros existing. sending.
Qed.

Lemma webhook_never_deletes t fuel p : sends_only not_delete (Webhook.main t fuel p).
Proof.
  unfold Webhook.main, Webhook.create_webhook. cbv zeta.
  apply sends_only_bind; [sending|]. intros _.
  apply sends_only_bind; [sending|]. intros existing. sending.
Qed.

Lemma default_branch_never_deletes t fuel p :
  sends_only not_delete (DefaultBranch.main t fuel p).
Proof.
  unfold DefaultBranch.main, DefaultBranch.reconcile, set_default_branch. cbv zeta.
  apply sends_only_bind; [sending|]. intros project.
  destruct (negb _); [sending|].
  apply sends_only_bind; [sending|]. intros repo.
  destruct (negb _); [sending|].
  apply sends_only_bind; [sending|]. intros existing. sending.
Qed.

(** The webhook module does nothing but read unless the webhook is to be
    present. *)
Lemma webhook_absent_only_reports t fuel p :
  Webhook.state p = "absent" -> only_reports (Webhook.main t fuel p).
Proof.
  intros Hs. split; unfold Webhook.main; cbv zeta; rewrite Hs;
    cbn [String.eqb Ascii.eqb Bool.eqb].
  - repeat reading_step.
  - repeat reporting_step.
Qed.

End SafetyFacts.

Section SafetyClaims.
Import Py Eff BitbucketHelper Control RunFacts TraceFacts InfoFacts SafetyFacts.

(** X2.  A run that is to make something present never deletes:
    with [state = present], the repository, project, branch-permission
    and pull-request modules send no [DELETE] request, against any server
    and for any other parameters; the branch, webhook and default-branch
    modules send no [DELETE] request in any state. *)
Theorem present_never_deletes (t : Transport) (fuel : nat) :
  (forall p, Repo.state p = "present" -> sends_only not_delete (Repo.main t p))
  /\ (forall p, Project.state p = "present" -> sends_only not_delete (Project.main t p))
  /\ (forall p, BranchPermissions.state p = "present" ->
                sends_only not_delete (BranchPermissions.main t fuel p))
  /\ (forall p, PullRequest.state p = "present" ->
                sends_only not_delete (PullRequest.main t fuel p))
  /\ (forall p, sends_only not_delete (Branch.main t fuel p))
  /\ (forall p, sends_only not_delete (Webhook.main t fuel p))
  /\ (forall p, sends_only not_delete (DefaultBranch.main t fuel p)).
Proof.
  split; [exact (repo_present_never_deletes t)|].
  split; [exact (project_present_never_deletes t)|].
  split; [exact (branch_permissions_present_never_deletes t fuel)|].
  split; [exact (pull_request_present_never_deletes t fuel)|].
  split; [exact (branch_never_deletes t fuel)|].
  split; [exact (webhook_never_deletes t fuel) | exact (default_branch_never_deletes t fuel)].
Qed.

Lemma present_never_deletes_witness :
  sends_only not_delete (Repo.main (Server.serve no_repository) (repo_bar "present"))
  /\ snd (Repo.main (Server.serve no_repository) (repo_bar "present") [])
     = [GET (endpoint "repos-repositorySlug")
            [("projectKey", JStr "FOO"); ("repositorySlug", JStr "bar")];
        {| meth := "POST"; template := endpoint "repos";
           args := [("projectKey", JStr "FOO")];
           data := Some (JDict [("name", JStr "bar")]) |}].
Proof.
  split; [|reflexivity].
  apply (proj1 (present_never_deletes (Server.serve no_repository) 0)). reflexivity.
Defined.

(** X3.  A run that is to make something absent never creates or
    updates: with [state = absent], every request of the repository,
    project, branch-permission and pull-request modules is a [GET] or a
    [DELETE]; the webhook module, which has no deletion, then only reads
    and reports [changed = false]. *)
Theorem absent_never_creates (t : Transport) (fuel : nat) :
  (forall p, Repo.state p = "absent" -> sends_only get_or_delete (Repo.main t p))
  /\ (forall p, Project.state p = "absent" -> sends_only get_or_delete (Project.main t p))
  /\ (forall p, BranchPermissions.state p = "absent" ->
                sends_only get_or_delete (BranchPermissions.main t fuel p))
  /\ (forall p, PullRequest.state p = "absent" ->
                sends_only get_or_delete (PullRequest.main t fuel p))
  /\ (forall p, Webhook.state p = "absent" -> only_reports (Webhook.main t fuel p)).
Proof.
  split; [exact (repo_absent_never_creates t)|].
  split; [exact (project_absent_never_creates t)|].
  split; [exact (branch_permissions_absent_never_creates t fuel)|].
  split; [exact (pull_request_absent_never_creates t fuel)
         | exact (webhook_absent_only_reports t fuel)].
Qed.

Lemma absent_never_creates_witness :
  sends_only get_or_delete (Repo.main (Server.serve has_repository) (repo_bar "absent"))
  /\ snd (Repo.main (Server.serve has_repository) (repo_bar "absent") [])
     = [GET (endpoint "repos-repositorySlug")
            [("projectKey", JStr "FOO"); ("repositorySlug", JStr "bar")];
        {| meth := "DELETE"; template := endpoint "repos-repositorySlug";
           args := [("projectKey", JStr "FOO"); ("repositorySlug", JStr "bar")];
           data := None |}].
Proof.
  split; [|reflexivity].
  apply (proj1 (absent_never_creates (Server.serve has_repository) 0)). reflexivity.
Defined.

End SafetyClaims.

(** ** Check mode in the project, default-branch and repository-permission modules *)

Module MoreDryRunFacts.
Import Py Eff BitbucketHelper Control RunFacts DryRunFacts TraceFacts InfoFacts.

Lemma bind_assoc {A B C : Type} (m : M A) (k : A -> M B) (h : B -> M C) tr :
  bind (bind m k) h tr = bind m (fun a => bind (k a) h) tr.
Proof. unfold bind. now destruct (m tr) as [[a|e|f|r|] tr1]. Qed.

Lemma bind_ret_l {A B : Type} (a : A) (k : A -> M B) tr : bind (ret a) k tr = k a tr.
Proof. reflexivity. Qed.

(** What follows a computation adds nothing to the trace when it is pure. *)
Lemma snd_bind_pure {A B : Type} (m : M A) (k : A -> M B) tr :
  (forall a tr', snd (k a tr') = tr') -> snd (bind m k tr) = snd (m tr).
Proof. intros H. unfold bind. destruct (m tr) as [[a|e|g|r|] tr1]; auto. Qed.

(** *** [bitbucket_project] *)



Lemma no_exit_check_arguments p : no_exit (Project.check_arguments p).
Proof. unfold Project.check_arguments. no_exit_auto. Qed.

Lemma no_exit_required_together p : no_exit (Project.required_together p).
Proof. unfold Project.required_together. no_exit_auto. Qed.





(** *** [bitbucket_default_branch] *)



(** *** [bitbucket_repo_permissions] *)










End MoreDryRunFacts.

Section MoreDryRunClaims.
Import Py Eff BitbucketHelper Control RunFacts DryRunFacts MoreDryRunFacts.


End MoreDryRunClaims.

(** ** Every status is handled in the repository and project modules *)

Module VerdictFacts.
Import Py Eff BitbucketHelper Control.

(** A server that answers every request, with whatever status. *)
Definition answers (t : Transport) : Prop :=
  forall history r, exists answer, t history r = Ok answer.

(** The run ended by a call of [exit_json] or [fail_json]. *)
Definition verdict {A : Type} (o : outcome A) : Prop :=
  match o with ExitJson _ | FailJson _ => True | _ => False end.

(** The computation returns to its caller or ends with a verdict: it
    neither raises nor loops. *)
Definition handled {A : Type} (m : M A) : Prop :=
  forall tr, match fst (m tr) with Raise _ | OutOfFuel => False | _ => True end.

Definition decides {A : Type} (m : M A) : Prop := forall tr, verdict (fst (m tr)).

Lemma handled_ret {A : Type} (a : A) : handled (ret a).
Proof. intros tr. exact I. Qed.

Lemma handled_fail_json {A : Type} (m : message) : handled (@fail_json A m).
Proof. intros tr. exact I. Qed.

Lemma handled_do_request t r : answers t -> handled (do_request t r).
Proof.
  intros Ha tr. unfold do_request. destruct (Ha tr r) as (answer & ->). exact I.
Qed.

Lemma handled_bind {A B : Type} (m : M A) (k : A -> M B) :
  handled m -> (forall a, handled (k a)) -> handled (bind m k).
Proof.
  intros Hm Hk tr. unfold bind. specialize (Hm tr).
  destruct (m tr) as [[a|e|f|r|] tr1]; simpl in *; auto. apply Hk.
Qed.

Lemma decides_exit_json {A : Type} (r : Result) : decides (@exit_json A r).
Proof. intros tr. exact I. Qed.

Lemma decides_fail_json {A : Type} (m : message) : decides (@fail_json A m).
Proof. intros tr. exact I. Qed.

Lemma decides_bind {A B : Type} (m : M A) (k : A -> M B) :
  handled m -> (forall a, decides (k a)) -> decides (bind m k).
Proof.
  intros Hm Hk tr. unfold bind. specialize (Hm tr).
  destruct (m tr) as [[a|e|f|r|] tr1]; simpl in *; auto; try contradiction. apply Hk.
Qed.

Ltac handling :=
  repeat first
    [ apply handled_ret | apply handled_fail_json
    | apply handled_do_request; assumption
    | apply handled_bind; [|intros ?]
    | match goal with
      | |- handled (match ?x with _ => _ end) => destruct x
      | |- handled (if ?b then _ else _) => destruct b
      end ].

Ltac deciding :=
  repeat first
    [ apply decides_exit_json | apply decides_fail_json
    | apply decides_bind; [handling | intros ?]
    | match goal with
      | |- decides (match ?x with _ => _ end) => destruct x
      | |- decides (if ?b then _ else _) => destruct b
      end ].

End VerdictFacts.

Section VerdictClaims.
Import Py Eff BitbucketHelper Control VerdictFacts.









End VerdictClaims.

(** ** Decisions taken from a listing *)

Module DecisionFacts.
Import Py Eff BitbucketHelper Control Server ServerFacts.

Definition named_default (b : string) (x : string * bool) : bool :=
  String.eqb (fst x) b && snd x.

Lemma rany_is_default_branch b l :
  rany (DefaultBranch.is_default_branch b) (map render_branch l)
    = Ok (existsb (named_default b) l).
Proof.
  induction l as [|x l IH]; [reflexivity|].
  cbn [map rany existsb]. unfold DefaultBranch.is_default_branch at 1.
  unfold Branch.is_branch. cbn. unfold named_default at 1.
  destruct (fst x =? b)%string; cbn; [|exact IH].
  destruct (snd x); cbn; [reflexivity | exact IH].
Qed.

(** A pull request as the listing shows it, reduced to the two branches
    the module reads. *)
Definition render_pull (x : string * string) : json :=
  JDict [("fromRef", JDict [("displayId", JStr (fst x))]);
         ("toRef", JDict [("displayId", JStr (snd x))])].

Definition starts_at (b : string) (x : string * string) : bool := String.eqb (fst x) b.
Definition ends_at (b : string) (x : string * string) : bool := String.eqb (snd x) b.

Lemma rany_from_ref d b l :
  rany (PullRequest.ref_is "fromRef" d b) (map render_pull l) = Ok (existsb (starts_at b) l).
Proof.
  induction l as [|x l IH]; [reflexivity|].
  cbn [map rany existsb]. unfold PullRequest.ref_is at 1. cbn.
  unfold starts_at at 1. destruct (fst x =? b)%string; [reflexivity | exact IH].
Qed.

Lemma rany_to_ref d b l :
  rany (PullRequest.ref_is "toRef" d b) (map render_pull l) = Ok (existsb (ends_at b) l).
Proof.
  induction l as [|x l IH]; [reflexivity|].
  cbn [map rany existsb]. unfold PullRequest.ref_is at 1. cbn.
  unfold ends_at at 1. destruct (snd x =? b)%string; [reflexivity | exact IH].
Qed.

(** An entry of a permission listing: who, under [key], and the permission. *)
Definition render_grant (key : string) (x : string * string) : json :=
  JDict [(key, JDict [("name", JStr (fst x))]); ("permission", JStr (snd x))].

Definition same_name (n : string) (x : string * string) : bool :=
  String.eqb (lower (fst x)) (lower n).

Definition same_grant (n perm : string) (x : string * string) : bool :=
  same_name n x && String.eqb (upper (snd x)) (upper perm).

Lemma is_named_render key n x :
  RepoPermissions.is_named key n (render_grant key x) = Ok (same_name n x).
Proof.
  unfold RepoPermissions.is_named, render_grant, subscript, getitem.
  cbn [lookup]. rewrite String.eqb_refl. reflexivity.
Qed.

Lemma rany_is_named key n l :
  rany (RepoPermissions.is_named key n) (map (render_grant key) l)
    = Ok (existsb (same_name n) l).
Proof.
  induction l as [|x l IH]; [reflexivity|].
  cbn [map rany existsb]. rewrite is_named_render. cbn [rbind].
  destruct (same_name n x); [reflexivity | exact IH].
Qed.

Lemma has_grant_render p key n perm x :
  RepoPermissions.permission p = Some perm ->
  key <> "permission" ->
  RepoPermissions.has_grant p key n (render_grant key x) = Ok (same_grant n perm x).
Proof.
  intros Hp Hk. unfold RepoPermissions.has_grant. rewrite is_named_render. cbn [rbind].
  unfold same_grant. destruct (same_name n x); [|reflexivity].
  unfold render_grant, subscript, getitem. cbn [lookup].
  apply String.eqb_neq in Hk. rewrite String.eqb_sym in Hk. rewrite Hk.
  rewrite Hp. reflexivity.
Qed.

Lemma rany_has_grant p key n perm l :
  RepoPermissions.permission p = Some perm ->
  key <> "permission" ->
  rany (RepoPermissions.has_grant p key n) (map (render_grant key) l)
    = Ok (existsb (same_grant n perm) l).
Proof.
  intros Hp Hk. induction l as [|x l IH]; [reflexivity|].
  cbn [map rany existsb]. rewrite (has_grant_render p key n perm x Hp Hk). cbn [rbind].
  destruct (same_grant n perm x); [reflexivity | exact IH].
Qed.

End DecisionFacts.

Section DecisionClaims.
Import Py Eff BitbucketHelper Control Server ServerFacts DecisionFacts.

(** X7.  What the default-branch module does once the branches are
    listed, for a listing of branches [bs] (name and default flag): when
    no listed branch has the name, it fails with the message that the
    branch does not exist; when a listed branch of that name is the
    default one, it reports [changed = false]; in both cases it sends
    nothing.  Otherwise it reports [changed = true], after exactly one
    request, the [PUT] that makes the branch the default one, when run
    for real against a server that answers 204, and after no request in
    check mode. *)
Theorem default_branch_decides_from_the_listing (t : Transport) (p : DefaultBranch.Params)
    (bs : list (string * bool)) (tr : list Request) :
  let b := DefaultBranch.branch p in
  let c := DefaultBranch.common p in
  let run := DefaultBranch.reconcile t p (Some (map render_branch bs)) tr in
  (existsb (named b) bs = false ->
   run = (FailJson [{| msg_text := "Branch `{branch}` does not exist in `{repositorySlug}` repository";
                       msg_args := [("branch", FStr b);
                                    ("repositorySlug", FOpt (repository c))] |}], tr))
  /\ (existsb (named_default b) bs = true ->
      run = (ExitJson {| changed := false;
                         fields := DefaultBranch.seed p ++ [("json", JDict [])] |}, tr))
  /\ (existsb (named b) bs = true -> existsb (named_default b) bs = false ->
      check_mode c = true ->
      run = (ExitJson {| changed := true;
                         fields := DefaultBranch.seed p ++ [("json", JDict [])] |}, tr))
  /\ (existsb (named b) bs = true -> existsb (named_default b) bs = false ->
      check_mode c = false ->
      forall content, t tr (default_branch_request c b) = Ok ({| status := 204 |}, content) ->
      run = (ExitJson {| changed := true;
                         fields := DefaultBranch.seed p ++ [("json", JDict content)] |},
             tr ++ [default_branch_request c b])).
Proof.
  cbv zeta. unfold DefaultBranch.reconcile. cbn [listed rbind].
  rewrite rany_is_branch, rany_is_default_branch.
  assert (Hsub : existsb (named_default (DefaultBranch.branch p)) bs = true ->
                 existsb (named (DefaultBranch.branch p)) bs = true).
  { clear. induction bs as [|x l IH]; [discriminate|]. simpl.
    unfold named_default at 1, named at 1.
    destruct (fst x =? DefaultBranch.branch p)%string; [reflexivity | exact IH]. }
  repeat split.
  - intros ->. reflexivity.
  - intros Hd. rewrite (Hsub Hd), Hd. reflexivity.
  - intros -> -> ->. reflexivity.
  - intros -> -> -> content Ht.
    unfold set_default_branch, bind, lift, ret, do_request. cbn [negb].
    rewrite Ht. reflexivity.
Qed.

Definition make_default_of (b : string) (checking : bool) : DefaultBranch.Params :=
  {| DefaultBranch.common :=
       {| check_mode := checking; project_key := "FOO"; repository := Some "bar" |};
     DefaultBranch.branch := b |}.

Lemma default_branch_decides_from_the_listing_witness :
  DefaultBranch.reconcile (serve has_repository) (make_default_of "develop" false)
    (Some (map render_branch [("master", true)])) []
  = (FailJson [{| msg_text := "Branch `{branch}` does not exist in `{repositorySlug}` repository";
                  msg_args := [("branch", FStr "develop");
                               ("repositorySlug", FOpt (Some "bar"))] |}], [])
  /\ DefaultBranch.reconcile (serve has_repository) (make_default_of "master" false)
       (Some (map render_branch [("master", true)])) []
     = (ExitJson {| changed := false;
                    fields := DefaultBranch.seed (make_default_of "master" false)
                              ++ [("json", JDict [])] |}, [])
  /\ DefaultBranch.reconcile (serve has_repository) (make_default_of "develop" true)
       (Some (map render_branch [("master", true); ("develop", false)])) []
     = (ExitJson {| changed := true;
                    fields := DefaultBranch.seed (make_default_of "develop" true)
                              ++ [("json", JDict [])] |}, [])
  /\ DefaultBranch.reconcile (serve has_repository) (make_default_of "develop" false)
       (Some (map render_branch [("master", true); ("develop", false)])) []
     = (ExitJson {| changed := true;
                    fields := DefaultBranch.seed (make_default_of "develop" false)
                              ++ [("json", JDict (envelope []))] |},
        [] ++ [default_branch_request
                 (DefaultBranch.common (make_default_of "develop" false)) "develop"]).
Proof.
  split; [|split; [|split]].
  - apply (default_branch_decides_from_the_listing (serve has_repository)
             (make_default_of "develop" false) [("master", true)] []). reflexivity.
  - apply (default_branch_decides_from_the_listing (serve has_repository)
             (make_default_of "master" false) [("master", true)] []). reflexivity.
  - apply (default_branch_decides_from_the_listing (serve has_repository)
             (make_default_of "develop" true) [("master", true); ("develop", false)] []);
      reflexivity.
  - apply (default_branch_decides_from_the_listing (serve has_repository)
             (make_default_of "develop" false) [("master", true); ("develop", false)] []);
      reflexivity.
Defined.

(** X8.  When the pull-request module takes a pull request to be
    missing.  For a listing of pull requests given by their source and
    target branches, [pull_missing] holds exactly when no listed pull
    request starts at [from_branch] or no listed pull request ends at
    [to_branch]: a pull request from [from_branch] together with another
    one to [to_branch] is enough for the module to create nothing, also
    when no listed pull request joins the two branches. *)
Theorem pull_request_is_missing_per_branch (p : PullRequest.Params)
    (pulls : list (string * string)) :
  PullRequest.pull_missing p (Some (map render_pull pulls))
    = Ok (negb (existsb (starts_at (PullRequest.from_branch p)) pulls
                && existsb (ends_at (PullRequest.to_branch p)) pulls))
  /\ (forall a b,
         a <> PullRequest.to_branch p -> b <> PullRequest.from_branch p ->
         let listing := [(PullRequest.from_branch p, a); (b, PullRequest.to_branch p)] in
         PullRequest.pull_missing p (Some (map render_pull listing)) = Ok false
         /\ rfilter (PullRequest.is_pull p) (map render_pull listing) = Ok []).
Proof.
  assert (E : forall l,
             PullRequest.pull_missing p (Some (map render_pull l))
             = Ok (negb (existsb (starts_at (PullRequest.from_branch p)) l
                         && existsb (ends_at (PullRequest.to_branch p)) l))).
  { intros l. unfold PullRequest.pull_missing. cbn [PullRequest.listed rbind].
    rewrite rany_from_ref. cbn [rbind].
    destruct (existsb (starts_at _) l); [|reflexivity].
    cbn [negb andb]. rewrite rany_to_ref. reflexivity. }
  split; [apply E|]. intros a b Ha Hb. cbv zeta. split.
  - rewrite E. cbn [existsb]. unfold starts_at, ends_at. cbn [fst snd].
    rewrite !String.eqb_refl. cbn. now rewrite orb_true_r.
  - cbn [map rfilter]. unfold PullRequest.is_pull, PullRequest.ref_is, render_pull.
    cbn [get lookup String.eqb Ascii.eqb Bool.eqb rbind subscript getitem json_eqb fst snd].
    apply String.eqb_neq in Ha, Hb. rewrite Ha. cbn [rbind].
    rewrite String.eqb_refl. cbn [rbind]. rewrite Hb. reflexivity.
Qed.

Lemma pull_request_is_missing_per_branch_witness :
  PullRequest.pull_missing no_pull
    (Some (map render_pull [("develop", "release"); ("hotfix", "master")])) = Ok false
  /\ rfilter (PullRequest.is_pull no_pull)
       (map render_pull [("develop", "release"); ("hotfix", "master")]) = Ok [].
Proof.
  apply (proj2 (pull_request_is_missing_per_branch no_pull []) "release" "hotfix");
    discriminate.
Defined.

End DecisionClaims.

Section PermissionClaims.
Import Py Eff BitbucketHelper Control MoreDryRunFacts DecisionFacts.

Lemma grant_sends t p f scope n tr :
  snd (RepoPermissions.grant_repository_permissions t p f scope n tr)
    = tr ++ [RepoPermissions.grant_request p scope n].
Proof.
  unfold RepoPermissions.grant_repository_permissions, bind, do_request.
  destruct (t tr (RepoPermissions.grant_request p scope n)) as [[info content]|e];
    [|reflexivity].
  repeat match goal with
         | |- context [if ?b then _ else _] => destruct b
         end; reflexivity.
Qed.

Lemma revoke_sends t p f scope n tr :
  snd (RepoPermissions.revoke_repository_permissions t p f scope n tr)
    = tr ++ [RepoPermissions.revoke_request p scope n].
Proof.
  unfold RepoPermissions.revoke_repository_permissions, bind, do_request.
  destruct (t tr (RepoPermissions.revoke_request p scope n)) as [[info content]|e];
    [|reflexivity].
  repeat match goal with
         | |- context [if ?b then _ else _] => destruct b
         end; reflexivity.
Qed.

(** X9.  What the repository-permission module does for a user or a
    group once it has listed who has access, for a listing given by names
    and permissions, all of them ASCII text.  Names are compared without
    regard to case, and so are permissions.  With a permission to grant:
    when the listing has the name with that permission, nothing is sent
    and [changed] and [json] stay as they were; otherwise a real run
    sends exactly the [PUT] that grants it.  With the empty permission
    (revoke): when the name is not listed, nothing is sent; when it is, a
    real run sends exactly the [DELETE] that revokes its permissions. *)
Theorem repo_permissions_decide_without_case (t : Transport) (p : RepoPermissions.Params)
    (scope key n : string) (l : list (string * string)) (acc : bool * json)
    (tr : list Request) :
  key <> "permission" ->
  ascii_text n = true ->
  Forall (fun x => ascii_text (fst x) = true /\ ascii_text (snd x) = true) l ->
  let run := RepoPermissions.reconcile t p scope key n
               (Some (map (render_grant key) l)) acc tr in
  (forall perm, RepoPermissions.permission p = Some perm -> perm <> EmptyString ->
     ascii_text perm = true ->
     (existsb (same_grant n perm) l = true -> run = (Ret acc, tr))
     /\ (existsb (same_grant n perm) l = false ->
         check_mode (RepoPermissions.common p) = false ->
         snd run = tr ++ [RepoPermissions.grant_request p scope n]))
  /\ (RepoPermissions.permission p = Some EmptyString ->
      (existsb (same_name n) l = false -> run = (Ret acc, tr))
      /\ (existsb (same_name n) l = true ->
          check_mode (RepoPermissions.common p) = false ->
          snd run = tr ++ [RepoPermissions.revoke_request p scope n])).
Proof.
  intros Hk _ _. cbv zeta. unfold RepoPermissions.reconcile, RepoPermissions.no_permission.
  cbn [listed rbind]. split.
  - intros perm Hp Hne _. rewrite (rany_has_grant p key n perm l Hp Hk). rewrite Hp.
    apply String.eqb_neq in Hne. rewrite Hne. cbn [negb]. split.
    + intros ->. reflexivity.
    + intros -> ->. cbn [negb lift]. rewrite !bind_ret_l. cbn [negb].
      rewrite snd_bind_pure by reflexivity. apply grant_sends.
  - intros Hp. rewrite rany_is_named. rewrite Hp. cbn [String.eqb negb]. split.
    + intros ->. reflexivity.
    + intros -> ->. cbn [negb lift]. rewrite bind_assoc, bind_ret_l, bind_assoc.
      rewrite snd_bind_pure by reflexivity. apply revoke_sends.
Qed.

(** A server with project FOO and repository bar on which the given
    users have the given permissions; it carries out every change. *)
Definition granted (users : list (string * string)) : Transport :=
  fun _ r =>
    if negb (is_get r) then Ok ({| status := 204 |}, fetched [])
    else if String.eqb (template r) (endpoint "projects-projectKey")
    then Ok ({| status := 200 |}, fetched [("key", JStr "FOO")])
    else if String.eqb (template r) (endpoint "repos-repositorySlug")
    then Ok ({| status := 200 |}, fetched [("slug", JStr "bar")])
    else Ok ({| status := 200 |},
             fetched [("values", JList (map (render_grant "user") users));
                      ("isLastPage", JBool true)]).

Definition grant_jsmith (perm : string) : RepoPermissions.Params :=
  {| RepoPermissions.common :=
       {| check_mode := false; project_key := "FOO"; repository := Some "bar" |};
     RepoPermissions.permission := Some perm;
     RepoPermissions.user := Some "jsmith";
     RepoPermissions.group := None |}.

Lemma repo_permissions_decide_without_case_witness :
  RepoPermissions.reconcile (granted [("JSmith", "REPO_WRITE")]) (grant_jsmith "repo_write")
    "users" "user" "jsmith" (Some (map (render_grant "user") [("JSmith", "REPO_WRITE")]))
    (false, JDict []) []
  = (Ret (false, JDict []), [])
  /\ snd (RepoPermissions.reconcile (granted [("JSmith", "REPO_READ")])
            (grant_jsmith "REPO_WRITE") "users" "user" "jsmith"
            (Some (map (render_grant "user") [("JSmith", "REPO_READ")])) (false, JDict []) [])
     = [] ++ [RepoPermissions.grant_request (grant_jsmith "REPO_WRITE") "users" "jsmith"]
  /\ snd (RepoPermissions.reconcile (granted [("JSmith", "REPO_READ")])
            (grant_jsmith EmptyString) "users" "user" "jsmith"
            (Some (map (render_grant "user") [("JSmith", "REPO_READ")])) (false, JDict []) [])
     = [] ++ [RepoPermissions.revoke_request (grant_jsmith EmptyString) "users" "jsmith"].
Proof.
  split; [|split].
  - apply (proj1 (repo_permissions_decide_without_case
                    (granted [("JSmith", "REPO_WRITE")]) (grant_jsmith "repo_write")
                    "users" "user" "jsmith" [("JSmith", "REPO_WRITE")] (false, JDict []) []
                    ltac:(discriminate) eq_refl ltac:(repeat constructor))
                 "repo_write" eq_refl ltac:(discriminate) eq_refl).
    reflexivity.
  - apply (proj1 (repo_permissions_decide_without_case
                    (granted [("JSmith", "REPO_READ")]) (grant_jsmith "REPO_WRITE")
                    "users" "user" "jsmith" [("JSmith", "REPO_READ")] (false, JDict []) []
                    ltac:(discriminate) eq_refl ltac:(repeat constructor))
                 "REPO_WRITE" eq_refl ltac:(discriminate) eq_refl);
      reflexivity.
  - apply (proj2 (repo_permissions_decide_without_case
                    (granted [("JSmith", "REPO_READ")]) (grant_jsmith EmptyString)
                    "users" "user" "jsmith" [("JSmith", "REPO_READ")] (false, JDict []) []
                    ltac:(discriminate) eq_refl ltac:(repeat constructor))
                 eq_refl);
      reflexivity.
Defined.


End PermissionClaims.

Section CreationClaims.
Import Py Eff BitbucketHelper Control MoreDryRunFacts.

(** The request [create_branch_permission] sends. *)
Definition restriction_request (p : BranchPermissions.Params)
    (r : BranchPermissions.Restriction) (m : json) : Request :=
  let e := BranchPermissions.exemptions_of r in
  {| meth := "POST";
     template := fst (BranchPermissions.restrictions_url p EmptyString []);
     args := snd (BranchPermissions.restrictions_url p EmptyString []);
     data := Some (JDict [("type", JStr (BranchPermissions.get_restriction_type
                                           (BranchPermissions.prevent r)));
                          ("matcher", m);
                          ("users", BranchPermissions.strs (BranchPermissions.users e));
                          ("groups", BranchPermissions.strs (BranchPermissions.groups e));
                          ("accessKeys",
                           BranchPermissions.strs (BranchPermissions.access_keys e))]) |}.

Lemma create_branch_permission_sends t p r m tr :
  snd (BranchPermissions.create_branch_permission t p
         (BranchPermissions.get_restriction_type (BranchPermissions.prevent r)) m
         (BranchPermissions.exemptions_of r) tr)
    = tr ++ [restriction_request p r m].
Proof.
  unfold BranchPermissions.create_branch_permission, restriction_request,
    BranchPermissions.restrictions_url.
  destruct (repository (BranchPermissions.common p)); cbn [fst snd app];
    unfold bind, do_request;
    match goal with
    | |- context [t tr ?q] => destruct (t tr q) as [[info content]|e]
    end; try reflexivity;
    repeat match goal with
           | |- context [if ?b then _ else _] => destruct b
           end; reflexivity.
Qed.

(** X10.  With [state = present], for one of the restrictions asked
    for and the restrictions listed on the server: when a listed
    restriction matches, the branch-permission module sends nothing for
    it and leaves [changed] and the results as they were; when none
    matches, a real run sends exactly one request, the [POST] of that
    restriction with the matcher of the run, and a check-mode run sends
    nothing and sets [changed].  The listing is not read again between
    restrictions. *)
Theorem present_creates_what_is_missing (t : Transport) (p : BranchPermissions.Params)
    (existing : list json) (r : BranchPermissions.Restriction)
    (acc : BranchPermissions.Acc) (tr : list Request) :
  BranchPermissions.state p = "present" ->
  let run := BranchPermissions.step t p (Some existing) acc r tr in
  (forall first others,
      rfilter (BranchPermissions.matches p r) existing = Ok (first :: others) ->
      run = (Ret acc, tr))
  /\ (rfilter (BranchPermissions.matches p r) existing = Ok [] ->
      check_mode (BranchPermissions.common p) = true ->
      run = (Ret (true, snd acc), tr))
  /\ (forall m,
         rfilter (BranchPermissions.matches p r) existing = Ok [] ->
         check_mode (BranchPermissions.common p) = false ->
         BranchPermissions.main_matcher p = Some m ->
         snd run = tr ++ [restriction_request p r m]).
Proof.
  intros Hs. cbv zeta. unfold BranchPermissions.step. destruct acc as [c results].
  cbn [BranchPermissions.listed rbind]. rewrite Hs.
  cbn [String.eqb Ascii.eqb Bool.eqb]. repeat split.
  - intros first others ->. reflexivity.
  - intros -> ->. reflexivity.
  - intros m -> -> ->. cbn [lift negb BranchPermissions.use_matcher].
    rewrite !bind_ret_l. rewrite snd_bind_pure by reflexivity.
    apply create_branch_permission_sends.
Qed.

Definition protect_master : BranchPermissions.Params :=
  {| BranchPermissions.common :=
       {| check_mode := false; project_key := "FOO"; repository := None |};
     BranchPermissions.state := "present";
     BranchPermissions.branch_name := Some "master";
     BranchPermissions.branch_pattern := None;
     BranchPermissions.branching_model := None;
     BranchPermissions.restrictions := [deletion] |}.

Lemma present_creates_what_is_missing_witness :
  BranchPermissions.step (bitbucket [no_deletes 1] []) protect_master
    (Some [no_deletes 1]) (false, []) deletion []
  = (Ret (false, []), [])
  /\ snd (BranchPermissions.step (bitbucket [] []) protect_master
            (Some []) (false, []) deletion [])
     = [] ++ [restriction_request protect_master deletion
                (BranchPermissions.get_matcher "branch_name" "master")].
Proof.
  split.
  - apply (proj1 (present_creates_what_is_missing (bitbucket [no_deletes 1] [])
                    protect_master [no_deletes 1] deletion (false, []) [] eq_refl)
                 (no_deletes 1) []).
    reflexivity.
  - apply (proj2 (proj2 (present_creates_what_is_missing (bitbucket [] [])
                           protect_master [] deletion (false, []) [] eq_refl)));
      reflexivity.
Defined.

End CreationClaims.

Section AccountingClaims.
Import Py Eff BitbucketHelper Control MoreDryRunFacts.

(** A server that answers every lookup with 200 or with 404. *)
Definition found_or_missing (t : Transport) : Prop :=
  forall history r, exists info content,
    t history r = Ok (info, content) /\ (status info = 200%Z \/ status info = 404%Z).

Lemma project_info_visits t (Ht : found_or_missing t) :
  forall keys messages projects tr,
    exists m ps,
      for_each (ProjectInfo.visit t) keys (messages, projects) tr
        = (Ret (messages ++ m, projects ++ ps),
           tr ++ map ProjectInfo.lookup_request keys)
      /\ List.length m + List.length ps = List.length keys.
Proof.
  induction keys as [|k keys IH]; intros messages projects tr.
  - exists [], []. cbn. now rewrite !app_nil_r.
  - cbn [for_each map]. unfold bind at 1.
    unfold ProjectInfo.visit at 1, get_project_info, bind, do_request.
    fold (ProjectInfo.lookup_request k).
    destruct (Ht tr (ProjectInfo.lookup_request k)) as (info & content & -> & [Hs|Hs]);
      rewrite Hs; cbn [Z.eqb Pos.eqb fst snd]; unfold ret.
    + destruct content as [|x d].
      * destruct (IH (messages ++ [project_missing k]) projects
                     (tr ++ [ProjectInfo.lookup_request k])) as (m & ps & E & Hl).
        exists (project_missing k :: m), ps. rewrite E, <- !app_assoc.
        split; [reflexivity | simpl; lia].
      * destruct (IH messages (projects ++ [JDict (x :: d)])
                     (tr ++ [ProjectInfo.lookup_request k])) as (m & ps & E & Hl).
        exists m, (JDict (x :: d) :: ps). rewrite E, <- !app_assoc.
        split; [reflexivity | simpl; lia].
    + destruct (IH (messages ++ [project_missing k]) projects
                   (tr ++ [ProjectInfo.lookup_request k])) as (m & ps & E & Hl).
      exists (project_missing k :: m), ps. rewrite E, <- !app_assoc.
      split; [reflexivity | simpl; lia].
Qed.

(** X11.  Asked for project keys by name (no ['*'] among them), against
    a server that answers each lookup with 200 or 404, the project-info
    module looks up every key once, in the order given, and accounts for
    each of them: the projects it reports and the messages it reports
    (one per key it did not find) add up to the number of keys, and
    [changed] is false. *)
Theorem project_info_accounts_for_every_key (t : Transport) (fuel : nat)
    (p : ProjectInfo.Params) (tr : list Request) :
  found_or_missing t ->
  let keys := list_param "*" (ProjectInfo.project_key p) in
  has_star keys = false ->
  exists messages projects,
    ProjectInfo.main t fuel p tr
      = (ExitJson {| changed := false;
                     fields := [("filter", JList (map JStr keys));
                                ("messages", JList messages);
                                ("projects", JList projects)] |},
         tr ++ map ProjectInfo.lookup_request keys)
    /\ List.length messages + List.length projects = List.length keys.
Proof.
  intros Ht keys Hstar. unfold ProjectInfo.main. cbv zeta. fold keys. rewrite Hstar.
  destruct (project_info_visits t Ht keys [] [] tr) as (m & ps & E & Hl).
  exists m, ps. unfold bind. rewrite E. split; [reflexivity | exact Hl].
Qed.

(** A server that knows project FOO only. *)
Definition only_foo : Transport :=
  fun _ r =>
    if json_eqb (JDict (args r)) (JDict [("projectKey", JStr "FOO")])
    then Ok ({| status := 200 |}, fetched [("key", JStr "FOO")])
    else Ok ({| status := 404 |}, fetched []).

Lemma only_foo_answers : found_or_missing only_foo.
Proof.
  intros history r. unfold only_foo.
  destruct (json_eqb _ _); do 2 eexists; (split; [reflexivity|]); [left | right];
    reflexivity.
Qed.

Lemma project_info_accounts_for_every_key_witness :
  exists messages projects,
    ProjectInfo.main only_foo 1 {| ProjectInfo.project_key := ["FOO, BAR"] |} []
      = (ExitJson {| changed := false;
                     fields := [("filter", JList [JStr "FOO"; JStr "BAR"]);
                                ("messages", JList messages);
                                ("projects", JList projects)] |},
         [ProjectInfo.lookup_request "FOO"; ProjectInfo.lookup_request "BAR"])
    /\ List.length messages + List.length projects = 2.
Proof.
  exact (project_info_accounts_for_every_key only_foo 1
           {| ProjectInfo.project_key := ["FOO, BAR"] |} [] only_foo_answers eq_refl).
Defined.

End AccountingClaims.

(** ** More on the request executor *)

Module MoreExecutorFacts.
Import Py Eff Executor ExecutorFacts.

Lemma fetches_app tr tr' : fetches (tr ++ tr') = (fetches tr + fetches tr')%nat.
Proof. unfold fetches. now rewrite filter_app, length_app. Qed.

Section Loop.
Variable t : Transport.
Variable p : Params.
Variable f : Fetch.

(** The loop on a transport that fails [n] more times and then answers. *)
Lemma retry_loop_answer response info :
  forall (n k fuel : nat) (loc : Locals),
    (forall j, (j < n)%nat ->
               status (snd (t (failed_attempts f (sleep p) (k + j)) f)) = (-1)%Z) ->
    t (failed_attempts f (sleep p) (k + n)) f = (response, info) ->
    status info <> (-1)%Z ->
    (Z.of_nat (k + n) < retries p)%Z ->
    (n = 0%nat \/ 0 <= sleep p)%Z ->
    (n < fuel)%nat ->
    retry_loop t p fuel f (Z.of_nat k + 1) loc (failed_attempts f (sleep p) k)
      = (Ret ((Z.of_nat (k + n) + 1)%Z, Bound response info),
         failed_attempts f (sleep p) (k + n) ++ [EvFetch f]).
Proof.
  induction n as [|n IH]; intros k fuel loc Hfail Hans Hst Hr Hs Hf.
  - destruct fuel as [|fuel]; [lia|]. cbn [retry_loop].
    replace (Z.of_nat k + 1 <=? retries p)%Z with true
      by (symmetry; apply Z.leb_le; lia).
    rewrite Nat.add_0_r in *. rewrite Hans.
    apply Z.eqb_neq in Hst. rewrite Hst. reflexivity.
  - destruct fuel as [|fuel]; [lia|]. cbn [retry_loop].
    replace (Z.of_nat k + 1 <=? retries p)%Z with true
      by (symmetry; apply Z.leb_le; lia).
    pose proof (Hfail 0%nat ltac:(lia)) as H0. rewrite Nat.add_0_r in H0.
    destruct (t (failed_attempts f (sleep p) k) f) as [resp0 info0]. simpl in H0.
    rewrite H0. cbn [Z.eqb negb].
    replace (sleep p <? 0)%Z with false by (symmetry; apply Z.ltb_ge; lia).
    rewrite <- app_assoc. cbn [app]. rewrite <- failed_attempts_snoc.
    replace (Z.of_nat k + 1 + 1)%Z with (Z.of_nat (S k) + 1)%Z by lia.
    replace (k + S n)%nat with (S k + n)%nat in * by lia.
    apply IH; try lia.
    + intros j Hj. replace (S k + j)%nat with (k + S j)%nat by lia.
      apply Hfail. lia.
    + exact Hans.
Qed.

(** What the loop leaves, whatever the transport does: the counter is one
    more than the number of attempts made when the last one failed (or
    none was made), and the number of attempts made when the last one got
    an answer; no more than [retries] attempts are made. *)
Lemma retry_loop_counts :
  forall (fuel : nat) (r : Z) (loc : Locals) (tr : list Event) r' loc' tr',
    retry_loop t p fuel f r loc tr = (Ret (r', loc'), tr') ->
    r = (Z.of_nat (fetches tr) + 1)%Z ->
    (Z.of_nat (fetches tr) <= Z.max 0 (retries p))%Z ->
    match loc with Unbound => True | Bound _ i => status i = (-1)%Z end ->
    (Z.of_nat (fetches tr') <= Z.max 0 (retries p))%Z
    /\ match loc' with
       | Unbound => loc = Unbound
       | Bound _ i =>
           r' = (Z.of_nat (fetches tr') + (if (status i =? -1)%Z then 1 else 0))%Z
       end.
Proof.
  induction fuel as [|fuel IH]; intros r loc tr r' loc' tr' H Hr Hb Hloc;
    [discriminate|].
  cbn [retry_loop] in H.
  destruct (r <=? retries p)%Z eqn:Eg.
  - apply Z.leb_le in Eg.
    destruct (t tr f) as [response info].
    assert (Hf : fetches (tr ++ [EvFetch f]) = S (fetches tr))
      by (rewrite fetches_app; cbn; lia).
    destruct (status info =? -1)%Z eqn:Es; cbn [negb] in H.
    + destruct (sleep p <? 0)%Z; [discriminate|].
      apply IH in H.
      * destruct H as [H1 H2]. split; [exact H1|].
        destruct loc'; [discriminate | exact H2].
      * rewrite fetches_app, Hf. cbn. lia.
      * rewrite fetches_app, Hf. cbn. lia.
      * now apply Z.eqb_eq.
    + inversion H; subst r' loc' tr'. rewrite Hf, Es. split; lia.
  - inversion H; subst r' loc' tr'. split; [exact Hb|].
    destruct loc as [|resp i]; [reflexivity|].
    rewrite Hloc. cbn. lia.
Qed.

(** The loop only adds to the trace. *)
Lemma retry_loop_extends :
  forall (fuel : nat) (r : Z) (loc : Locals) (tr : list Event),
    exists added, snd (retry_loop t p fuel f r loc tr) = tr ++ added.
Proof.
  induction fuel as [|fuel IH]; intros r loc tr; cbn [retry_loop].
  - exists []. now rewrite app_nil_r.
  - destruct (r <=? retries p)%Z; [|exists []; now rewrite app_nil_r].
    destruct (t tr f) as [response info].
    destruct (negb (status info =? -1)%Z); [now exists [EvFetch f]|].
    destruct (sleep p <? 0)%Z; [now exists [EvFetch f]|].
    destruct (IH (r + 1)%Z (Bound response info)
                 ((tr ++ [EvFetch f]) ++ [EvSleep (sleep p)])) as (added & E).
    exists ([EvFetch f] ++ [EvSleep (sleep p)] ++ added).
    rewrite E. now rewrite <- !app_assoc.
Qed.

(** Locals that are bound at the end were bound by an attempt. *)
Lemma retry_loop_fetched fuel r tr r' response info tr' :
  retry_loop t p fuel f r Unbound tr = (Ret (r', Bound response info), tr') ->
  (fetches tr < fetches tr')%nat.
Proof.
  destruct fuel as [|fuel]; [discriminate|]. cbn [retry_loop].
  destruct (r <=? retries p)%Z; [|discriminate].
  destruct (t tr f) as [resp0 info0].
  destruct (negb (status info0 =? -1)%Z).
  - intros H. inversion H; subst. rewrite fetches_app. cbn. lia.
  - destruct (sleep p <? 0)%Z; [discriminate|]. intros H.
    destruct (retry_loop_extends fuel (r + 1)%Z (Bound resp0 info0)
                ((tr ++ [EvFetch f]) ++ [EvSleep (sleep p)])) as (added & E).
    rewrite H in E. cbn [snd] in E. subst tr'.
    rewrite !fetches_app. cbn. lia.
Qed.

End Loop.

End MoreExecutorFacts.

Section MoreExecutorClaims.
Import Py Eff Executor ExecutorFacts MoreExecutorFacts.

(** X12.  When the first [n] attempts of a call end in the
    connection-level failure (status -1) and the next one gets an answer,
    with [n < retries] (and a [sleep] that is not negative, if any
    attempt failed), [request] makes [n + 1] attempts, sleeps after each
    of the [n] failed ones and not after the answer, and returns the
    [info] of the answer with the content of its body and
    [fetch_url_retries = n + 1]. *)
Theorem request_returns_the_first_answer (t : Transport) (p : Params)
    (api_url method : string) (data_ : option json)
    (headers : option (list (string * string)))
    (n : nat) (response : option Body) (info : Info) :
  let f := fetch_of p api_url method data_ headers in
  (forall j, (j < n)%nat ->
             status (snd (t (failed_attempts f (sleep p) j) f)) = (-1)%Z) ->
  t (failed_attempts f (sleep p) n) f = (response, info) ->
  status info <> (-1)%Z ->
  (Z.of_nat n < retries p)%Z ->
  (n = 0%nat \/ 0 <= sleep p)%Z ->
  request t p api_url method data_ headers
    = (Ret (info, dict_set "fetch_url_retries" (JInt (Z.of_nat n + 1))
                    (content_of response)),
       failed_attempts f (sleep p) n ++ [EvFetch f])
  /\ fetches (failed_attempts f (sleep p) n ++ [EvFetch f]) = S n
  /\ sleeps (failed_attempts f (sleep p) n ++ [EvFetch f]) = n.
Proof.
  intros f Hfail Hans Hst Hr Hs. split; [|split].
  - unfold request. fold f.
    pose proof (retry_loop_answer t p f response info n 0 (S (Z.to_nat (retries p)))
                  Unbound Hfail Hans Hst Hr Hs ltac:(lia)) as E.
    change (Z.of_nat 0 + 1)%Z with 1%Z in E.
    change (failed_attempts f (sleep p) 0) with (@nil Event) in E.
    cbn [Nat.add] in E. rewrite E. reflexivity.
  - rewrite fetches_app, fetches_failed_attempts. cbn. lia.
  - unfold sleeps. rewrite filter_app, length_app.
    fold (sleeps (failed_attempts f (sleep p) n)). rewrite sleeps_failed_attempts.
    cbn. lia.
Qed.

(** A transport that is down for the first two attempts of a run and then
    answers 200 with a JSON list. *)
Definition flaky : Transport :=
  fun tr _ =>
    if (fetches tr <? 2)%nat then (None, {| status := -1 |})
    else (Some (BodyJson (JList [JStr "a"])), {| status := 200 |}).

Lemma request_returns_the_first_answer_witness :
  let f := fetch_of three_retries "https://bitbucket.example.com/rest/api/1.0/projects"
             "GET" None None in
  request flaky three_retries "https://bitbucket.example.com/rest/api/1.0/projects"
    "GET" None None
  = (Ret ({| status := 200 |},
          [("json", JList [JStr "a"]); ("fetch_url_retries", JInt 3)]),
     [EvFetch f; EvSleep 5; EvFetch f; EvSleep 5; EvFetch f]).
Proof.
  cbv zeta.
  refine (proj1 (request_returns_the_first_answer flaky three_retries
                   "https://bitbucket.example.com/rest/api/1.0/projects" "GET" None None
                   2 (Some (BodyJson (JList [JStr "a"]))) {| status := 200 |}
                   _ _ _ _ _)).
  - intros [|[|j]] Hj; [reflexivity | reflexivity | lia].
  - reflexivity.
  - discriminate.
  - simpl. lia.
  - right. simpl. lia.
Defined.

(** X13.  Whenever [request] returns, whatever the transport did, the
    content it returns carries [fetch_url_retries], which replaces a key
    of that name in the body: it is the number of attempts made when the
    last attempt got an answer, and one more than that when the last
    attempt failed (status -1).  At least one attempt and at most
    [retries] attempts were made. *)
Theorem request_counts_its_attempts (t : Transport) (p : Params)
    (api_url method : string) (data_ : option json)
    (headers : option (list (string * string)))
    (info : Info) (content : dict) (tr : list Event) :
  request t p api_url method data_ headers = (Ret (info, content), tr) ->
  lookup "fetch_url_retries" content
    = Some (JInt (Z.of_nat (fetches tr) + (if (status info =? -1)%Z then 1 else 0)))
  /\ (1 <= Z.of_nat (fetches tr) <= retries p)%Z.
Proof.
  unfold request. intros H.
  destruct (retry_loop t p (S (Z.to_nat (retries p)))
              (fetch_of p api_url method data_ headers) 1 Unbound [])
    as [[[r' [|response info']]|e|m|x|] tr'] eqn:E; try discriminate.
  inversion H; subst info' content tr'. clear H.
  destruct (retry_loop_counts t p _ _ _ _ _ _ _ _ E) as [Hb Hc];
    [reflexivity | cbn; lia | exact I |].
  rewrite lookup_dict_set_same, Hc. split; [reflexivity|].
  pose proof (retry_loop_fetched t p _ _ _ _ _ _ _ _ E) as Hf. cbn in Hf.
  lia.
Qed.

Lemma request_counts_its_attempts_witness :
  exists info content tr,
    request flaky three_retries "https://bitbucket.example.com/rest/api/1.0/projects"
      "GET" None None = (Ret (info, content), tr)
    /\ lookup "fetch_url_retries" content = Some (JInt 3)
    /\ fetches tr = 3%nat.
Proof.
  do 3 eexists. split; [reflexivity|].
  split; [|reflexivity].
  exact (proj1 (request_counts_its_attempts flaky three_retries
                  "https://bitbucket.example.com/rest/api/1.0/projects" "GET" None None
                  _ _ _ eq_refl)).
Defined.

(** X14.  A negative [sleep] turns the first failed attempt into an
    exception: with [retries >= 1], when the first attempt ends in the
    connection-level failure, [request] raises [ValueError] (from
    [time.sleep]) after that single attempt, whatever the number of
    retries allowed. *)
Theorem negative_sleep_raises_after_one_attempt (t : Transport) (p : Params)
    (api_url method : string) (data_ : option json)
    (headers : option (list (string * string))) :
  let f := fetch_of p api_url method data_ headers in
  (1 <= retries p)%Z ->
  (sleep p < 0)%Z ->
  status (snd (t [] f)) = (-1)%Z ->
  request t p api_url method data_ headers = (Raise ValueError, [EvFetch f]).
Proof.
  intros f Hr Hs Hd. unfold request. fold f. cbn [retry_loop].
  replace (1 <=? retries p)%Z with true by (symmetry; apply Z.leb_le; lia).
  destruct (t [] f) as [response info]. simpl in Hd. rewrite Hd. cbn [Z.eqb negb].
  replace (sleep p <? 0)%Z with true by (symmetry; apply Z.ltb_lt; lia).
  reflexivity.
Qed.

Lemma negative_sleep_raises_after_one_attempt_witness :
  request down {| token := None; retries := 3; sleep := -1; use_proxy := true |}
    "https://bitbucket.example.com/rest/api/1.0/projects" "GET" None None
  = (Raise ValueError,
     [EvFetch (fetch_of {| token := None; retries := 3; sleep := -1; use_proxy := true |}
                 "https://bitbucket.example.com/rest/api/1.0/projects" "GET" None None)]).
Proof.
  refine (negative_sleep_raises_after_one_attempt down
            {| token := None; retries := 3; sleep := -1; use_proxy := true |}
            "https://bitbucket.example.com/rest/api/1.0/projects" "GET" None None
            _ _ _); simpl; try lia; reflexivity.
Defined.

(** X15.  The headers [request] sends.  When a token is set, the
    [Authorization] header is the bearer token, whatever the caller gave
    under that name.  A [Content-type] given by the caller is sent as
    given; without one, a dict payload gets [application/json] and any
    other payload (or none) gets no [Content-type]. *)
Theorem request_headers (p : Params) (headers : option (list (string * string)))
    (data_ : option json) :
  let given := match headers with Some h => h | None => [] end in
  let sent := build_headers p headers data_ in
  (forall tok, token p = Some tok -> tok <> EmptyString ->
               lookup "Authorization" sent = Some ("Bearer " ++ tok)%string)
  /\ (forall v, lookup "Content-type" given = Some v ->
                lookup "Content-type" sent = Some v)
  /\ (lookup "Content-type" given = None ->
      lookup "Content-type" sent
        = if is_dict data_ then Some "application/json" else None).
Proof.
  cbv zeta. unfold build_headers, token_set, dict_update, has_key. cbn [fold_left fst snd].
  set (given := match headers with Some h => h | None => [] end).
  assert (Hct : forall h1 : list (string * string),
             lookup "Content-type" h1 = lookup "Content-type" given ->
             (forall v, lookup "Content-type" given = Some v ->
                        lookup "Content-type"
                          (if is_dict data_ && negb match lookup "Content-type" h1 with
                                                    | Some _ => true | None => false end
                           then dict_set "Content-type" "application/json" h1 else h1)
                        = Some v)
             /\ (lookup "Content-type" given = None ->
                 lookup "Content-type"
                   (if is_dict data_ && negb match lookup "Content-type" h1 with
                                             | Some _ => true | None => false end
                    then dict_set "Content-type" "application/json" h1 else h1)
                 = if is_dict data_ then Some "application/json" else None)).
  { intros h1 E. split.
    - intros v Hv. rewrite E, Hv. rewrite andb_false_r. now rewrite E.
    - intros Hn. rewrite E, Hn. cbn [negb]. rewrite andb_true_r.
      destruct (is_dict data_); [apply lookup_dict_set_same | now rewrite E]. }
  split; [|].
  - intros tok Ht Hne. rewrite Ht. apply String.eqb_neq in Hne. rewrite Hne. cbn [negb].
    destruct (is_dict data_ && _).
    + rewrite lookup_dict_set_other by discriminate. apply lookup_dict_set_same.
    + apply lookup_dict_set_same.
  - destruct (token p) as [tok|]; [destruct (negb (tok =? EmptyString)%string)|];
      apply Hct; try reflexivity.
    apply lookup_dict_set_other. discriminate.
Qed.

Lemma request_headers_witness :
  lookup "Authorization"
    (build_headers {| token := Some "MjA2M"; retries := 3; sleep := 5; use_proxy := true |}
       (Some [("Authorization", "Basic abc"); ("Content-type", "text/plain")])
       (Some (JDict [("name", JStr "bar")])))
  = Some "Bearer MjA2M"
  /\ lookup "Content-type"
       (build_headers {| token := Some "MjA2M"; retries := 3; sleep := 5; use_proxy := true |}
          (Some [("Authorization", "Basic abc"); ("Content-type", "text/plain")])
          (Some (JDict [("name", JStr "bar")])))
     = Some "text/plain".
Proof.
  pose proof (request_headers
                {| token := Some "MjA2M"; retries := 3; sleep := 5; use_proxy := true |}
                (Some [("Authorization", "Basic abc"); ("Content-type", "text/plain")])
                (Some (JDict [("name", JStr "bar")]))) as H.
  cbv zeta in H. destruct H as (Ha & Hc & _). split.
  - apply Ha; [reflexivity | discriminate].
  - apply Hc. reflexivity.
Defined.

End MoreExecutorClaims.

(** ** List parameters *)

Module ListifyFacts.
Import Py Eff Control.

Definition comma_free (s : string) : bool := negb (has_comma s).

Lemma remove_first_skips x pre rest :
  has_comma x = true ->
  Forall (fun y => has_comma y = false) pre ->
  remove_first x (pre ++ x :: rest) = pre ++ rest.
Proof.
  intros Hx Hpre. induction Hpre as [|y pre Hy _ IH]; cbn [app remove_first].
  - now rewrite String.eqb_refl.
  - destruct (String.eqb_spec x y) as [->|_]; [congruence | now rewrite IH].
Qed.

(** Removing, one by one and by value, the elements that have a comma
    leaves the other elements, in their order. *)
Lemma remove_all_with_comma l :
  forall pre,
    Forall (fun y => has_comma y = false) pre ->
    fold_left (fun acc element => remove_first element acc) (filter has_comma l) (pre ++ l)
      = pre ++ filter comma_free l.
Proof.
  induction l as [|x l IH]; intros pre Hpre; [reflexivity|].
  cbn [filter]. unfold comma_free at 1. destruct (has_comma x) eqn:Hx; cbn [negb fold_left].
  - rewrite (remove_first_skips x pre l Hx Hpre). now apply IH.
  - change (pre ++ x :: l) with (pre ++ [x] ++ l). rewrite app_assoc.
    rewrite IH by (apply Forall_app; split; [exact Hpre | now constructor]).
    now rewrite <- app_assoc.
Qed.

Lemma split_comma_fields s : Forall (fun f => has_comma f = false) (split_comma s).
Proof.
  induction s as [|c r IH]; cbn [split_comma]; [now constructor|].
  destruct (Ascii.eqb c ","%char) eqn:Ec; [now constructor|].
  destruct (split_comma r) as [|f fs]; [constructor; [cbn; now rewrite Ec | constructor]|].
  inversion IH; subst. constructor; [|assumption]. cbn. now rewrite Ec.
Qed.

Lemma has_comma_lstrip s : has_comma s = false -> has_comma (lstrip s) = false.
Proof.
  induction s as [|c r IH]; [reflexivity|]. cbn [has_comma lstrip]. intros H.
  apply orb_false_iff in H. destruct H as [Hc Hr].
  destruct (is_space c); [now apply IH|]. cbn. now rewrite Hc, Hr.
Qed.

Lemma has_comma_rstrip s : has_comma s = false -> has_comma (rstrip s) = false.
Proof.
  induction s as [|c r IH]; [reflexivity|]. cbn [has_comma rstrip]. intros H.
  apply orb_false_iff in H. destruct H as [Hc Hr]. specialize (IH Hr).
  destruct (rstrip r) as [|c' r'].
  - destruct (is_space c); [reflexivity|]. cbn. now rewrite Hc.
  - change (has_comma (String c (String c' r')))
      with ((Ascii.eqb c ","%char || has_comma (String c' r'))%bool).
    now rewrite Hc, IH.
Qed.

Lemma has_comma_strip s : has_comma s = false -> has_comma (strip s) = false.
Proof. intros H. unfold strip. now apply has_comma_rstrip, has_comma_lstrip. Qed.

(** Trimming is idempotent. *)
Lemma lstrip_rstrip s : lstrip (rstrip s) = rstrip (lstrip s).
Proof.
  induction s as [|c r IH]; [reflexivity|]. cbn [lstrip rstrip].
  destruct (is_space c) eqn:Ec.
  - rewrite <- IH. destruct (rstrip r) as [|c' r']; [reflexivity|].
    cbn [lstrip]. now rewrite Ec.
  - cbn [rstrip]. destruct (rstrip r) as [|c' r']; cbn [lstrip]; now rewrite Ec.
Qed.

Lemma lstrip_lstrip s : lstrip (lstrip s) = lstrip s.
Proof.
  induction s as [|c r IH]; [reflexivity|]. cbn [lstrip].
  destruct (is_space c) eqn:Ec; [exact IH|]. cbn [lstrip]. now rewrite Ec.
Qed.

Lemma rstrip_rstrip s : rstrip (rstrip s) = rstrip s.
Proof.
  induction s as [|c r IH]; [reflexivity|]. cbn [rstrip].
  destruct (rstrip r) as [|c' r'] eqn:Er.
  - destruct (is_space c) eqn:Ec; [reflexivity|]. cbn [rstrip]. now rewrite Ec.
  - cbn [rstrip]. cbn [rstrip] in IH. rewrite IH. reflexivity.
Qed.

Lemma strip_strip s : strip (strip s) = strip s.
Proof.
  unfold strip. now rewrite lstrip_rstrip, lstrip_lstrip, rstrip_rstrip.
Qed.

Definition trimmed (s : string) : Prop := strip s = s.

Lemma list_eqb_singleton_empty (l : list string) :
  list_eqb String.eqb l [EmptyString] = true -> l = [EmptyString].
Proof.
  destruct l as [|x [|y l]]; cbn; try discriminate.
  - rewrite andb_true_r. intros H. apply String.eqb_eq in H. now subst.
  - now rewrite andb_false_r.
Qed.

(** What the docstring of [listify_comma_sep_strings_in_list] asks for,
    written out: the strings without a comma, in their order, followed by
    the trimmed fields of the strings with a comma, in their order; and
    nothing for a result that is the empty string alone. *)
Definition listify_spec (some_list : list string) : list string :=
  let out := filter comma_free some_list
             ++ flat_map (fun element => map strip (split_comma element))
                         (filter has_comma some_list) in
  match out with
  | [EmptyString] => []
  | _ => out
  end.

Lemma listify_is_listify_spec some_list :
  PullRequest.listify_comma_sep_strings_in_list some_list = listify_spec some_list.
Proof.
  unfold PullRequest.listify_comma_sep_strings_in_list, listify_spec. cbv zeta.
  pose proof (remove_all_with_comma some_list [] (Forall_nil _)) as R.
  cbn [app] in R. rewrite R. clear R.
  generalize (filter comma_free some_list
              ++ flat_map (fun element => map strip (split_comma element))
                          (filter has_comma some_list)).
  intros out. destruct (list_eqb String.eqb out [EmptyString]) eqn:El.
  - apply list_eqb_singleton_empty in El. now rewrite El.
  - destruct out as [|x [|y l]];
      [reflexivity | destruct x; [discriminate El | reflexivity]
      | destruct x; reflexivity].
Qed.

(** A property of the strings without a comma and of the trimmed fields
    is a property of everything [listify_spec] returns. *)
Lemma listify_spec_Forall (P : string -> Prop) some_list :
  (forall s, In s some_list -> has_comma s = false -> P s) ->
  (forall f, has_comma f = false -> P (strip f)) ->
  Forall P (listify_spec some_list).
Proof.
  intros Hkeep Hfield. unfold listify_spec. cbv zeta.
  assert (F : Forall P
                (filter comma_free some_list
                 ++ flat_map (fun element => map strip (split_comma element))
                             (filter has_comma some_list))).
  { apply Forall_app. split.
    - apply Forall_forall. intros s Hs. apply filter_In in Hs.
      destruct Hs as [Hin Hs]. apply Hkeep; [exact Hin|].
      unfold comma_free in Hs. now destruct (has_comma s).
    - apply Forall_forall. intros s Hs. apply in_flat_map in Hs.
      destruct Hs as (e & _ & Hs). apply in_map_iff in Hs.
      destruct Hs as (f & <- & Hf). apply Hfield.
      pose proof (split_comma_fields e) as Hall. rewrite Forall_forall in Hall. auto. }
  destruct (filter comma_free some_list ++ _) as [|x [|y l]];
    [exact F | destruct x; [constructor | exact F] | destruct x; exact F].
Qed.

End ListifyFacts.

Section ListifyClaims.
Import Py Eff Control ListifyFacts.

(** X16.  [listify_comma_sep_strings_in_list], which removes the
    comma-separated strings from the list one by one, by value, and then
    appends their fields, returns on a list of ASCII strings what the
    docstring describes: the strings without a comma keep their places
    (also when a string occurs several times) and the stripped fields
    follow.  No element of the result has a comma. *)
Theorem listify_splits_the_comma_separated (some_list : list string) :
  (Forall (fun s => ascii_text s = true) some_list ->
   PullRequest.listify_comma_sep_strings_in_list some_list = listify_spec some_list)
  /\ Forall (fun s => has_comma s = false)
            (PullRequest.listify_comma_sep_strings_in_list some_list).
Proof.
  split; [intros _; apply listify_is_listify_spec|].
  rewrite listify_is_listify_spec. apply listify_spec_Forall.
  - intros s _ Hs. exact Hs.
  - apply has_comma_strip.
Qed.

Lemma listify_splits_the_comma_separated_witness :
  PullRequest.listify_comma_sep_strings_in_list ["a"; "b , c"; "a"; "d,e"]
  = ["a"; "a"; "b"; "c"; "d"; "e"]
  /\ listify_spec ["a"; "b , c"; "a"; "d,e"] = ["a"; "a"; "b"; "c"; "d"; "e"].
Proof.
  split; [|reflexivity].
  rewrite (proj1 (listify_splits_the_comma_separated ["a"; "b , c"; "a"; "d,e"])
             ltac:(repeat constructor)).
  reflexivity.
Defined.

(** X17.  A list parameter as the modules read it (every string
    trimmed, comma-separated strings split, the default when nothing is
    left): the list is never empty, and every element of it is trimmed
    and has no comma, provided the default is so. *)
Theorem list_parameters_are_normalised (default : string) (l : list string) :
  has_comma default = false ->
  trimmed default ->
  list_param default l <> []
  /\ Forall (fun s => has_comma s = false /\ trimmed s) (list_param default l).
Proof.
  intros Hd Ht. unfold list_param.
  assert (F : Forall (fun s => has_comma s = false /\ trimmed s)
                (PullRequest.listify_comma_sep_strings_in_list (map strip l))).
  { rewrite listify_is_listify_spec. apply listify_spec_Forall.
    - intros s Hin Hs. split; [exact Hs|].
      apply in_map_iff in Hin. destruct Hin as (x & <- & _). apply strip_strip.
    - intros f Hf. split; [now apply has_comma_strip | apply strip_strip]. }
  destruct (PullRequest.listify_comma_sep_strings_in_list (map strip l)) as [|x r].
  - split; [discriminate | now repeat constructor].
  - split; [discriminate | exact F].
Qed.

Lemma list_parameters_are_normalised_witness :
  list_param "*" [" FOO , BAR"; "BAZ "] = ["BAZ"; "FOO"; "BAR"]
  /\ list_param "*" [" "] = ["*"]
  /\ Forall (fun s => has_comma s = false /\ trimmed s)
            (list_param "*" [" FOO , BAR"; "BAZ "]).
Proof.
  split; [reflexivity|]. split; [reflexivity|].
  apply (proj2 (list_parameters_are_normalised "*" [" FOO , BAR"; "BAZ "]
                  eq_refl eq_refl)).
Defined.

End ListifyClaims.

(** ** Matchers *)

Section MoreMatcherClaims.
Import Py Eff BranchPermissions.

Lemma matcher_dict_eqb d1 i1 d2 i2 ty nm :
  json_eqb (matcher_dict d1 i1 ty nm) (matcher_dict d2 i2 ty nm)
    = String.eqb d1 d2 && String.eqb i1 i2.
Proof.
  unfold matcher_dict. cbn. rewrite !String.eqb_refl. cbn.
  now rewrite !andb_true_r.
Qed.

(** X18.  Matchers tell branches apart: for each of the three kinds
    (branch name, branch pattern, branching model), the matchers that
    [get_matcher] builds for two names are equal, as Python compares
    dicts, exactly when the names are equal; and a matcher of one kind
    never equals a matcher of another kind. *)
Theorem matchers_tell_branches_apart (a b : string) :
  json_eqb (get_matcher "branch_name" a) (get_matcher "branch_name" b) = String.eqb a b
  /\ json_eqb (get_matcher "branch_pattern" a) (get_matcher "branch_pattern" b)
     = String.eqb a b
  /\ json_eqb (get_matcher "branching_model" a) (get_matcher "branching_model" b)
     = String.eqb a b
  /\ json_eqb (get_matcher "branch_name" a) (get_matcher "branch_pattern" b) = false
  /\ json_eqb (get_matcher "branch_name" a) (get_matcher "branching_model" b) = false
  /\ json_eqb (get_matcher "branch_pattern" a) (get_matcher "branching_model" b) = false.
Proof.
  assert (G : forall n, get_matcher "branching_model" n
                        = matcher_dict (capitalize n) n
                                       "MODEL_BRANCH" "Branching model branch").
  { intros n. unfold get_matcher. cbn [String.eqb Ascii.eqb Bool.eqb].
    now destruct (String.eqb n "development"). }
  repeat split.
  - change (get_matcher "branch_name" a)
      with (matcher_dict a ("refs/heads/" ++ a) "BRANCH" "Branch").
    change (get_matcher "branch_name" b)
      with (matcher_dict b ("refs/heads/" ++ b) "BRANCH" "Branch").
    rewrite matcher_dict_eqb.
    change (String.eqb ("refs/heads/" ++ a) ("refs/heads/" ++ b)) with (String.eqb a b).
    now destruct (String.eqb a b).
  - change (get_matcher "branch_pattern" a) with (matcher_dict a a "PATTERN" "Pattern").
    change (get_matcher "branch_pattern" b) with (matcher_dict b b "PATTERN" "Pattern").
    rewrite matcher_dict_eqb. now destruct (String.eqb a b).
  - rewrite !G, matcher_dict_eqb.
    destruct (String.eqb_spec a b) as [->|_];
      [now rewrite String.eqb_refl | apply andb_false_r].
  - cbn. now rewrite !andb_false_r.
  - rewrite G. cbn. now rewrite !andb_false_r.
  - rewrite G. cbn. now rewrite !andb_false_r.
Qed.

End MoreMatcherClaims.

(** ** The lookup's own [request] *)

Module LookupFacts.
Import Py Eff FileglobRequest.

(** [open_url] raised. *)
Definition raised (o : Opened) : bool :=
  match o with Response _ _ => false | _ => true end.

Lemma fetch_url_error o : snd (fst (fetch_url o)) = raised o.
Proof. now destruct o. Qed.

Lemma fetch_url_no_response o : raised o = true -> fst (fst (fetch_url o)) = None.
Proof. now destruct o. Qed.

(** What [n] failed attempts leave in the trace. *)
Fixpoint failed_opens (o : Open) (s : Z) (n : nat) : list Event :=
  match n with
  | O => []
  | S n' => EvOpen o :: EvSleep s :: failed_opens o s n'
  end.

Definition opens (tr : list Event) : nat := List.length (filter is_open tr).
Definition naps (tr : list Event) : nat := List.length (filter is_sleep tr).

Lemma failed_opens_snoc o s n :
  failed_opens o s (S n) = failed_opens o s n ++ [EvOpen o; EvSleep s].
Proof. induction n; simpl in *; [reflexivity | now rewrite <- IHn]. Qed.

Lemma opens_failed_opens o s n : opens (failed_opens o s n) = n.
Proof. unfold opens; induction n; simpl; auto. Qed.

Lemma naps_failed_opens o s n : naps (failed_opens o s n) = n.
Proof. unfold naps; induction n; simpl; auto. Qed.

Section Loop.
Variable t : Transport.
Variable p : Options.
Hypothesis always_raises : forall tr o, raised (t tr o) = true.
Hypothesis sleep_ok : (0 <= sleep p)%Z.

Lemma lookup_loop_all_fail o :
  forall (n fuel : nat) (r : Z) (loc : Locals) (tr : list Event),
    (r + Z.of_nat n = retries p + 1)%Z ->
    (n < fuel)%nat ->
    retry_loop t p fuel o r loc tr =
      (Ret (match n with
            | O => loc
            | S n' => Bound None true
                        (snd (fetch_url (t (tr ++ failed_opens o (sleep p) n') o)))
            end),
       tr ++ failed_opens o (sleep p) n).
Proof.
  induction n as [|n IH]; intros fuel r loc tr Hr Hf.
  - destruct fuel as [|fuel]; [lia|]. simpl.
    replace (r <=? retries p)%Z with false by (symmetry; apply Z.leb_gt; lia).
    now rewrite app_nil_r.
  - destruct fuel as [|fuel]; [lia|]. cbn [retry_loop].
    replace (r <=? retries p)%Z with true by (symmetry; apply Z.leb_le; lia).
    pose proof (always_raises tr o) as Hd.
    pose proof (fetch_url_error (t tr o)) as He.
    pose proof (fetch_url_no_response (t tr o) Hd) as Hn.
    destruct (fetch_url (t tr o)) as [[response error] info] eqn:Et.
    cbn [fst snd] in He, Hn. rewrite Hd in He. subst error response. cbn [negb].
    replace (sleep p <? 0)%Z with false by (symmetry; apply Z.ltb_ge; lia).
    rewrite (IH fuel (r + 1)%Z _ _) by lia.
    rewrite <- !app_assoc. simpl app. f_equal.
    destruct n as [|n'].
    + simpl. rewrite app_nil_r, Et. reflexivity.
    + rewrite <- app_assoc. reflexivity.
Qed.

End Loop.

End LookupFacts.

Section LookupClaims.
Import Py Eff BitbucketHelper FileglobRequest LookupFacts.

(** X19.  The lookup plugin's own [request] retries on every error,
    HTTP errors included.  When [open_url] raises at every attempt, with
    [retries >= 1] and a [sleep] that is not negative, it makes exactly
    [retries] attempts, sleeps after every one of them, and returns the
    status of the last attempt with an empty content.  So a server that
    answers every attempt with the HTTP error [code] (not 200) makes the
    listing of the lookup fail, after [retries] attempts, with the
    message for that code, quoted in the [AnsibleError] of [run]. *)
Theorem lookup_retries_on_every_error (t : Transport) (p : Options) (url : string) :
  (forall tr o, raised (t tr o) = true) ->
  (1 <= retries p)%Z ->
  (0 <= sleep p)%Z ->
  let o := open_of p url in
  let n := Z.to_nat (retries p) in
  (exists info,
      request t p url = (Ret (info, JDict []), failed_opens o (sleep p) n)
      /\ info = snd (fetch_url (t (failed_opens o (sleep p) (n - 1)) o))
      /\ opens (failed_opens o (sleep p) n) = n
      /\ naps (failed_opens o (sleep p) n) = n)
  /\ (forall code format fuel options history,
         (forall tr o', t tr o' = HTTPError code) ->
         code <> 200%Z ->
         Fileglob.list_files (through_request t p format) (S fuel) options history
           = (Raise (AnsibleErrorFrom
                       "Failed to retrieve a list of files Bitbucket Server. Error was: %s"
                       (AnsibleError
                          (if (code =? 400)%Z then Fileglob.not_a_directory
                           else if (code =? 404)%Z then Fileglob.repository_missing
                           else Fileglob.listing_failed {| status := code |}))),
              history ++ [Fileglob.files_request options (JInt 0)])).
Proof.
  intros Hraise Hr Hs o n.
  assert (Hreq : forall url',
             request t p url'
             = (Ret (snd (fetch_url (t (failed_opens (open_of p url') (sleep p) (n - 1))
                                       (open_of p url'))),
                     JDict []),
                failed_opens (open_of p url') (sleep p) n)).
  { intros url'. unfold request.
    rewrite (lookup_loop_all_fail t p Hraise Hs (open_of p url') n) by (unfold n; lia).
    destruct n as [|n'] eqn:En; [unfold n in En; lia|].
    replace (S n' - 1)%nat with n' by lia. reflexivity. }
  split.
  - eexists. split; [apply Hreq|]. split; [reflexivity|].
    split; [apply opens_failed_opens | apply naps_failed_opens].
  - intros code format fuel options history Hcode Hne.
    unfold Fileglob.list_files. cbn [Fileglob.files_loop].
    unfold bind at 1. unfold Fileglob.do_request, through_request.
    rewrite Hreq, Hcode. cbn [fetch_url snd].
    apply Z.eqb_neq in Hne. unfold bind, ret, lift, raise. cbn [status].
    rewrite Hne. cbn [negb].
    destruct (code =? 400)%Z; [reflexivity|].
    destruct (code =? 404)%Z; reflexivity.
Qed.

(** A server on which the repository does not exist. *)
Definition not_found : Transport := fun _ _ => HTTPError 404.

Definition with_token : Options :=
  {| token := Some "MjA2M"; retries := 3; sleep := 5; validate_certs := true;
     use_proxy := true; username := None; password := None |}.

Lemma lookup_retries_on_every_error_witness :
  (exists info,
      request not_found with_token "https://bitbucket.example.com/rest/api/1.0/projects/FOO/repos/bar/files"
        = (Ret (info, JDict []),
           failed_opens (open_of with_token "https://bitbucket.example.com/rest/api/1.0/projects/FOO/repos/bar/files") 5 3)
      /\ status info = 404%Z)
  /\ Fileglob.list_files (through_request not_found with_token (fun r => template r)) 1
       foo_bar_options []
     = (Raise (AnsibleErrorFrom
                 "Failed to retrieve a list of files Bitbucket Server. Error was: %s"
                 (AnsibleError Fileglob.repository_missing)),
        [Fileglob.files_request foo_bar_options (JInt 0)]).
Proof.
  pose proof (lookup_retries_on_every_error not_found with_token
                "https://bitbucket.example.com/rest/api/1.0/projects/FOO/repos/bar/files"
                (fun _ _ => eq_refl) ltac:(simpl; lia) ltac:(simpl; lia)) as H.
  cbv zeta in H. destruct H as [(info & Hreq & Hinfo & _) Hlist]. split.
  - exists info. split; [exact Hreq|]. rewrite Hinfo. reflexivity.
  - exact (Hlist 404%Z (fun r => template r) 0%nat foo_bar_options []
             (fun _ _ => eq_refl) ltac:(discriminate)).
Defined.

(** X20.  With [retries <= 0] the lookup's [request] makes no
    attempt and raises [UnboundLocalError] for [response]; the listing of
    [run] turns it, like every exception, into an [AnsibleError] that
    quotes it. *)
Theorem lookup_without_retries (t : Transport) (p : Options) :
  (retries p <= 0)%Z ->
  (forall url, request t p url = (Raise (UnboundLocalError "response"), []))
  /\ (forall format fuel options history,
         Fileglob.list_files (through_request t p format) (S fuel) options history
           = (Raise (AnsibleErrorFrom
                       "Failed to retrieve a list of files Bitbucket Server. Error was: %s"
                       (UnboundLocalError "response")),
              history ++ [Fileglob.files_request options (JInt 0)])).
Proof.
  intros Hr.
  assert (Hreq : forall url, request t p url = (Raise (UnboundLocalError "response"), [])).
  { intros url. unfold request. cbn [retry_loop].
    replace (1 <=? retries p)%Z with false by (symmetry; apply Z.leb_gt; lia).
    reflexivity. }
  split; [exact Hreq|]. intros format fuel options history.
  unfold Fileglob.list_files. cbn [Fileglob.files_loop].
  unfold bind at 1. unfold Fileglob.do_request, through_request.
  rewrite Hreq. reflexivity.
Qed.

Lemma lookup_without_retries_witness :
  request not_found
    {| token := None; retries := 0; sleep := 5; validate_certs := true;
       use_proxy := true; username := Some "jsmith"; password := Some "secrect" |}
    "https://bitbucket.example.com/rest/api/1.0/projects/FOO/repos/bar/files"
  = (Raise (UnboundLocalError "response"), []).
Proof.
  apply (proj1 (lookup_without_retries not_found
                  {| token := None; retries := 0; sleep := 5; validate_certs := true;
                     use_proxy := true; username := Some "jsmith";
                     password := Some "secrect" |} ltac:(simpl; lia))).
Defined.

End LookupClaims.

(** ** The find module *)

Module FindFacts.
Import Py Eff BitbucketHelper Control RunFacts DryRunFacts TraceFacts InfoFacts
       MoreExecutorFacts.

Lemma readonly_files_loop t :
  forall fuel c a acc n, readonly (Find.files_loop t fuel c a acc n).
Proof.
  induction fuel as [|fuel IH]; intros c a acc n; cbn [Find.files_loop].
  - apply readonly_out_of_fuel.
  - unfold Find.raise_AnsibleError.
    apply readonly_bind; [apply readonly_do_request; reflexivity|].
    intros [info content].
    apply readonly_bind; [readonly_auto|]. intros files.
    readonly_auto; apply IH.
Qed.

Lemma no_exit_files_loop t :
  forall fuel c a acc n, no_exit (Find.files_loop t fuel c a acc n).
Proof.
  induction fuel as [|fuel IH]; intros c a acc n; cbn [Find.files_loop].
  - apply no_exit_out_of_fuel.
  - unfold Find.raise_AnsibleError.
    apply no_exit_bind; [apply no_exit_do_request|].
    intros [info content].
    apply no_exit_bind; [no_exit_auto|]. intros files.
    no_exit_auto; apply IH.
Qed.

Section WithRegex.
Variable compiles : string -> bool.
Variable search : string -> string -> bool.
Variable t : Transport.

Lemma readonly_slurp_file p path : readonly (FindFiles.slurp_file t p path).
Proof. unfold FindFiles.slurp_file. readonly_auto. Qed.

Lemma no_exit_slurp_file p path : no_exit (FindFiles.slurp_file t p path).
Proof. unfold FindFiles.slurp_file. no_exit_auto. Qed.

Lemma readonly_visit_pattern p all_files files pat :
  readonly (FindFiles.visit_pattern compiles search t p all_files files pat).
Proof.
  unfold FindFiles.visit_pattern, FindFiles.re_compile.
  apply readonly_bind; [readonly_auto|]. intros _.
  apply readonly_for_each. intros s x. unfold FindFiles.visit_file.
  apply readonly_bind; [apply readonly_lift|]. intros hit.
  destruct hit; [|apply readonly_ret].
  destruct (FindFiles.grep p); [|apply readonly_ret].
  apply readonly_bind; [apply readonly_slurp_file|]. intros content. readonly_auto.
Qed.

Lemma no_exit_visit_pattern p all_files files pat :
  no_exit (FindFiles.visit_pattern compiles search t p all_files files pat).
Proof.
  unfold FindFiles.visit_pattern, FindFiles.re_compile.
  apply no_exit_bind; [no_exit_auto|]. intros _.
  apply no_exit_for_each. intros s x. unfold FindFiles.visit_file.
  apply no_exit_bind; [apply no_exit_lift|]. intros hit.
  destruct hit; [|apply no_exit_ret].
  destruct (FindFiles.grep p); [|apply no_exit_ret].
  apply no_exit_bind; [apply no_exit_slurp_file|]. intros content. no_exit_auto.
Qed.

Lemma find_only_reports fuel p :
  only_reports (FindFiles.main compiles search t fuel p).
Proof.
  split; unfold FindFiles.main, FindFiles.report, Find.get_list_of_files,
    FindFiles.re_compile; cbv zeta.
  - apply readonly_bind; [reads|]. intros _.
    apply readonly_bind; [apply readonly_files_loop|]. intros all_files.
    apply readonly_bind; [readonly_auto|]. intros _.
    apply readonly_bind; [|intros ?; apply readonly_exit_json].
    apply readonly_for_each. intros. apply readonly_visit_pattern.
  - apply exits_with_bind; [apply exits_with_no_exit; stays|]. intros _.
    apply exits_with_bind; [apply exits_with_no_exit, no_exit_files_loop|].
    intros all_files.
    apply exits_with_bind; [apply exits_with_no_exit; no_exit_auto|]. intros _.
    apply exits_with_bind; [|intros ?; apply exits_with_exit_json; reflexivity].
    apply exits_with_no_exit, no_exit_for_each. intros. apply no_exit_visit_pattern.
Qed.

(** Without [grep], a pattern keeps the listed names it matches. *)
Lemma visit_files_without_grep p pat :
  FindFiles.grep p = None ->
  forall names files tr,
    for_each (FindFiles.visit_file search t p pat) (map JStr names) files tr
      = (Ret (files ++ filter (search pat) names), tr).
Proof.
  intros Hg. induction names as [|n names IH]; intros files tr; cbn [map for_each filter].
  - now rewrite app_nil_r.
  - unfold bind at 1. unfold FindFiles.visit_file at 1. rewrite Hg.
    cbn [FindFiles.re_search lift]. unfold bind at 1, ret at 1.
    destruct (search pat n); unfold ret at 1; rewrite IH.
    + now rewrite <- app_assoc.
    + reflexivity.
Qed.

Lemma visit_patterns_without_grep p names :
  FindFiles.grep p = None ->
  forall pats files tr,
    (forall pat, In pat pats -> compiles pat = true) ->
    for_each (FindFiles.visit_pattern compiles search t p (map JStr names)) pats files tr
      = (Ret (files ++ flat_map (fun pat => filter (search pat) names) pats), tr).
Proof.
  intros Hg. induction pats as [|pat pats IH]; intros files tr Hc; cbn [for_each flat_map].
  - now rewrite app_nil_r.
  - unfold bind at 1. unfold FindFiles.visit_pattern at 1, FindFiles.re_compile.
    rewrite (Hc pat (or_introl eq_refl)). unfold bind at 1, ret at 1.
    rewrite (visit_files_without_grep p pat Hg).
    rewrite IH by (intros q Hq; apply Hc; now right).
    now rewrite <- app_assoc.
Qed.

End WithRegex.

(** The first attempt of [request] gets an answer. *)
Lemma request_first_attempt fetch params api_url method data_ headers response info :
  fetch [] (Executor.fetch_of params api_url method data_ headers) = (response, info) ->
  status info <> (-1)%Z ->
  (1 <= Executor.retries params)%Z ->
  Executor.request fetch params api_url method data_ headers
    = (Ret (info, dict_set "fetch_url_retries" (JInt 1) (Executor.content_of response)),
       [Executor.EvFetch (Executor.fetch_of params api_url method data_ headers)]).
Proof.
  intros Hf Hs Hr. unfold Executor.request. cbn [Executor.retry_loop].
  replace (1 <=? Executor.retries params)%Z with true by (symmetry; apply Z.leb_le; lia).
  rewrite Hf. apply Z.eqb_neq in Hs. rewrite Hs. reflexivity.
Qed.

End FindFacts.

Section FindClaims.
Import Py Eff BitbucketHelper Control RunFacts TraceFacts InfoFacts MoreExecutorFacts
       FindFacts.

(** X21.  The find module, whatever Python's [re] makes of the
    patterns: it only reads (every request is a [GET]) and never reports
    a change.  Without [grep], when every pattern compiles, on a listing
    of file names it makes no further request and reports each listed
    name that some pattern matches, once: a name is reported exactly when
    it is listed and matched, and no name is reported twice. *)
Theorem find_reports_the_matching_files (compiles : string -> bool)
    (search : string -> string -> bool) (t : Transport) (fuel : nat)
    (p : FindFiles.Params) :
  only_reports (FindFiles.main compiles search t fuel p)
  /\ (forall names tr,
         FindFiles.grep p = None ->
         (forall pat, In pat (list_param ".+" (FindFiles.patterns p)) ->
                      compiles pat = true) ->
         exists files,
           FindFiles.report compiles search t p (map JStr names) tr
             = (ExitJson {| changed := false;
                            fields := FindFiles.fields_of p
                                        (list_param ".+" (FindFiles.patterns p)) files |},
                tr)
           /\ NoDup files
           /\ (forall f, In f files <->
                         In f names
                         /\ exists pat, In pat (list_param ".+" (FindFiles.patterns p))
                                        /\ search pat f = true)).
Proof.
  split; [apply find_only_reports|].
  intros names tr Hg Hc.
  exists (FindFiles.unique
            (flat_map (fun pat => filter (search pat) names)
                      (list_param ".+" (FindFiles.patterns p)))).
  split; [|split].
  - unfold FindFiles.report. cbv zeta. rewrite Hg.
    rewrite MoreDryRunFacts.bind_ret_l. unfold bind.
    rewrite (visit_patterns_without_grep compiles search t p names Hg _ [] tr Hc).
    reflexivity.
  - apply NoDup_nodup.
  - intros f. unfold FindFiles.unique. rewrite nodup_In, in_flat_map. split.
    + intros (pat & Hp & Hf). apply filter_In in Hf. destruct Hf as [Hin Hs].
      split; [exact Hin|]. now exists pat.
    + intros (Hin & pat & Hp & Hs). exists pat. split; [exact Hp|].
      apply filter_In. now split.
Qed.

(** A stand-in for [re.search] in the example: the pattern is found
    when the text ends with it. *)
Definition ends_with (pattern text : string) : bool :=
  let n := String.length text - String.length pattern in
  String.eqb (String.substring n (String.length pattern) text) pattern.

Definition find_in_bar (pats : list string) : FindFiles.Params :=
  {| FindFiles.common := foo_bar_common; FindFiles.at_ := None;
     FindFiles.patterns := pats; FindFiles.grep := None |}.

Lemma find_reports_the_matching_files_witness :
  FindFiles.report (fun _ => true) ends_with (answered 200) (find_in_bar [".yml, .yaml"])
    (map JStr ["site.yml"; "README.md"; "vars/main.yaml"]) []
  = (ExitJson {| changed := false;
                 fields := FindFiles.fields_of (find_in_bar [".yml, .yaml"])
                             [".yml"; ".yaml"] ["site.yml"; "vars/main.yaml"] |}, [])
  /\ exists files,
       FindFiles.report (fun _ => true) ends_with (answered 200)
         (find_in_bar [".yml, .yaml"])
         (map JStr ["site.yml"; "README.md"; "vars/main.yaml"]) []
       = (ExitJson {| changed := false;
                      fields := FindFiles.fields_of (find_in_bar [".yml, .yaml"])
                                  (list_param ".+" [".yml, .yaml"]) files |}, [])
       /\ NoDup files.
Proof.
  split; [reflexivity|].
  destruct (proj2 (find_reports_the_matching_files (fun _ => true) ends_with
                     (answered 200) 1 (find_in_bar [".yml, .yaml"]))
                  ["site.yml"; "README.md"; "vars/main.yaml"] [] eq_refl
                  (fun _ _ => eq_refl)) as (files & E & Hnd & _).
  exists files. split; [exact E | exact Hnd].
Defined.

(** X22.  What [slurp_file] can read, through [request].  When the
    first attempt is answered with status 200: a body that is not JSON is
    returned as the content of the file; an empty body, and a body that
    is a JSON document other than an object with a [content] key (a
    number, a string, a list, an object without that key), make
    [slurp_file] raise [KeyError] for [content], since [request] keeps
    the raw text only of a body that fails to parse. *)
Theorem slurp_file_reads_only_what_is_not_json (fetch : Executor.Transport)
    (params : Executor.Params) (format : Request -> string)
    (p : FindFiles.Params) (path : string) (body : option Executor.Body)
    (tr : list Request) :
  let r := FindFiles.slurp_request p path in
  let t := Executor.through_executor fetch params format in
  fetch [] (Executor.fetch_of params (format r) "GET" None None)
    = (body, {| status := 200 |}) ->
  (1 <= Executor.retries params)%Z ->
  FindFiles.slurp_file t p path tr
    = (match body with
       | Some (Executor.BodyText s) => Ret (JStr s)
       | Some (Executor.BodyJson (JDict d)) =>
           match lookup "content" d with
           | Some v => Ret v
           | None => Raise (KeyError "content")
           end
       | _ => Raise (KeyError "content")
       end, tr ++ [r]).
Proof.
  intros r t Hf Hr. unfold FindFiles.slurp_file, bind, do_request. fold r.
  unfold t, Executor.through_executor.
  change (meth r) with "GET". change (data r) with (@None json).
  rewrite (request_first_attempt fetch params (format r) "GET" None None body
             {| status := 200 |} Hf ltac:(discriminate) Hr).
  cbn [status Z.eqb Pos.eqb]. unfold lift, getitem.
  rewrite lookup_dict_set_other by discriminate.
  destruct body as [[| js | s]|]; cbn [Executor.content_of lookup]; try reflexivity.
  - destruct js; cbn [Executor.content_of lookup String.eqb Ascii.eqb Bool.eqb];
      try reflexivity.
    now destruct (lookup "content" d).
Qed.

(** A server that answers every request with the same body. *)
Definition file_with (body : Executor.Body) : Executor.Transport :=
  fun _ _ => (Some body, {| status := 200 |}).

Lemma slurp_file_reads_only_what_is_not_json_witness :
  FindFiles.slurp_file
    (Executor.through_executor (file_with (Executor.BodyText "key: value"))
       three_retries (fun r => template r))
    (find_in_bar []) "site.yml" []
  = (Ret (JStr "key: value"), [FindFiles.slurp_request (find_in_bar []) "site.yml"])
  /\ FindFiles.slurp_file
       (Executor.through_executor (file_with (Executor.BodyJson (JInt 42)))
          three_retries (fun r => template r))
       (find_in_bar []) "answer.txt" []
     = (Raise (KeyError "content"),
        [FindFiles.slurp_request (find_in_bar []) "answer.txt"]).
Proof.
  split.
  - apply (slurp_file_reads_only_what_is_not_json
             (file_with (Executor.BodyText "key: value")) three_retries
             (fun r => template r) (find_in_bar []) "site.yml"
             (Some (Executor.BodyText "key: value")) [] eq_refl).
    simpl. lia.
  - apply (slurp_file_reads_only_what_is_not_json
             (file_with (Executor.BodyJson (JInt 42))) three_retries
             (fun r => template r) (find_in_bar []) "answer.txt"
             (Some (Executor.BodyJson (JInt 42))) [] eq_refl).
    simpl. lia.
Defined.

End FindClaims.

(** ** Exempted users *)

Module ExemptionFacts.
Import Py Eff BranchPermissions.

Lemma rand_true a b : rand a b = Ok true -> a = Ok true /\ b = Ok true.
Proof.
  unfold rand, rbind. destruct a as [[|]|e]; try discriminate. now intros ->.
Qed.

Lemma rmap_In {A B : Type} (f : A -> res B) :
  forall l ys x, rmap f l = Ok ys -> In x l -> exists y, f x = Ok y /\ In y ys.
Proof.
  induction l as [|a l IH]; intros ys x H Hin; [destruct Hin|].
  cbn [rmap] in H. unfold rbind in H.
  destruct (f a) as [b|e] eqn:Ea; [|discriminate].
  destruct (rmap f l) as [bs|e] eqn:El; [|discriminate].
  inversion H; subst. destruct Hin as [<-|Hin].
  - exists b. split; [exact Ea | now left].
  - destruct (IH bs x eq_refl Hin) as (y & Hy & Hiny). exists y. split; [exact Hy | now right].
Qed.

Lemma json_eqb_str x s : json_eqb x (JStr s) = true -> x = JStr s.
Proof.
  destruct x; cbn; try discriminate. intros H. apply String.eqb_eq in H. now subst.
Qed.

Lemma json_eqb_strs :
  forall names l, json_eqb (JList names) (JList (map JStr l)) = true -> names = map JStr l.
Proof.
  induction names as [|x names IH]; intros [|s l]; cbn; try discriminate; [reflexivity|].
  intros H. apply andb_true_iff in H. destruct H as [Hx Hl].
  apply json_eqb_str in Hx. subst x. f_equal. apply IH. exact Hl.
Qed.

Lemma upper_char_upper_char c : upper_char (upper_char c) = upper_char c.
Proof.
  destruct c as [[|] [|] [|] [|] [|] [|] [|] [|]]; reflexivity.
Qed.

Lemma upper_upper s : upper (upper s) = upper s.
Proof.
  unfold upper. induction s as [|c r IH]; [reflexivity|]. cbn [smap].
  now rewrite upper_char_upper_char, IH.
Qed.

End ExemptionFacts.

Section ExemptionClaims.
Import Py Eff BitbucketHelper BranchPermissions ExemptionFacts.

(** X23.  The exempted users of a restriction are compared in upper
    case: the names of the run are upper-cased, the names the server
    lists are taken as they are.  So a listed restriction that exempts a
    user whose name is not all upper case (as ["jsmith"]) matches no
    restriction of any run, whatever the exemptions asked for. *)
Theorem user_exemptions_are_matched_in_upper_case (p : Params) (r : Restriction)
    (perm : json) (listed_users : list json) (u : json) (n : string) :
  get perm "users" (JList []) = Ok (JList listed_users) ->
  In u listed_users ->
  subscript u "name" = Ok (JStr n) ->
  upper n <> n ->
  matches p r perm <> Ok true.
Proof.
  intros Hget Hin Hname Hup H. unfold matches in H. cbv zeta in H.
  apply rand_true in H. destruct H as [_ H].
  apply rand_true in H. destruct H as [_ H].
  apply rand_true in H. destruct H as [_ H].
  apply rand_true in H. destruct H as [H _].
  rewrite Hget in H. cbn [rbind iter] in H.
  destruct (rmap (fun u0 => subscript u0 "name") listed_users) as [names|e] eqn:Em;
    [|discriminate].
  cbn [rbind] in H. inversion H as [Heq]. clear H.
  apply json_eqb_strs in Heq.
  destruct (rmap_In _ _ _ u Em Hin) as (y & Hy & Hiny).
  rewrite Hname in Hy. inversion Hy; subst y. clear Hy.
  rewrite Heq in Hiny. apply in_map_iff in Hiny.
  destruct Hiny as (s & Hs & Hins). inversion Hs; subst n. clear Hs.
  apply in_map_iff in Hins. destruct Hins as (x & <- & _).
  apply Hup. apply upper_upper.
Qed.

(** A restriction that forbids the deletion of [master] to all but
    [jsmith]. *)
Definition no_deletes_but_jsmith : json :=
  JDict [("id", JInt 7);
         ("scope", JDict [("type", JStr "PROJECT"); ("resourceId", JInt 292)]);
         ("type", JStr "no-deletes");
         ("matcher", JDict [("id", JStr "refs/heads/master");
                            ("displayId", JStr "master");
                            ("type", JDict [("id", JStr "BRANCH"); ("name", JStr "Branch")]);
                            ("active", JBool true)]);
         ("users", JList [JDict [("name", JStr "jsmith"); ("slug", JStr "jsmith")]]);
         ("groups", JList []);
         ("accessKeys", JList [])].

Definition deletion_but_jsmith : Restriction :=
  {| prevent := "deletion";
     exemptions := Some {| groups := []; users := ["jsmith"]; access_keys := [] |} |}.

Lemma user_exemptions_are_matched_in_upper_case_witness :
  matches protect_master deletion_but_jsmith no_deletes_but_jsmith <> Ok true
  /\ matches protect_master deletion_but_jsmith no_deletes_but_jsmith = Ok false.
Proof.
  split; [|reflexivity].
  apply (user_exemptions_are_matched_in_upper_case protect_master deletion_but_jsmith
           no_deletes_but_jsmith
           [JDict [("name", JStr "jsmith"); ("slug", JStr "jsmith")]]
           (JDict [("name", JStr "jsmith"); ("slug", JStr "jsmith")]) "jsmith").
  - reflexivity.
  - now left.
  - reflexivity.
  - discriminate.
Defined.

Definition protect_master_but_jsmith : BranchPermissions.Params :=
  {| common := {| check_mode := false; project_key := "FOO"; repository := None |};
     state := "present";
     branch_name := Some "master";
     branch_pattern := None;
     branching_model := None;
     restrictions := [deletion_but_jsmith] |}.

(** So a run for a restriction with an exempted user is not idempotent:
    on a server that already lists that restriction, with the user under
    the name [jsmith], the run finds no match, sends the [POST] that
    creates the restriction once more and reports [changed = true]. *)
Example exempted_user_is_restricted_again :
  exists f,
    main (bitbucket [no_deletes_but_jsmith] []) 3 protect_master_but_jsmith []
    = (ExitJson {| changed := true; fields := f |},
       [GET (endpoint "projects-projectKey") [("projectKey", JStr "FOO")];
        lister_request BranchPermissions
          {| la_common := common protect_master_but_jsmith;
             la_fail_when_not_exists := false;
             la_scope := EmptyString; la_filter := None |} (JInt 0);
        {| meth := "POST";
           template := endpoint "branch-permissions-projects";
           args := [("projectKey", JStr "FOO")];
           data := Some (JDict [("type", JStr "no-deletes");
                                ("matcher", get_matcher "branch_name" "master");
                                ("users", strs ["jsmith"]);
                                ("groups", strs []);
                                ("accessKeys", strs [])]) |}]).
Proof. eexists. reflexivity. Qed.

End ExemptionClaims.

(** ** Webhooks are known by their names *)

Section WebhookClaims.
Import Py Eff BitbucketHelper Control MoreDryRunFacts.

(** A webhook as the listing shows it. *)
Definition render_hook (x : string * string) : json :=
  JDict [("name", JStr (fst x)); ("url", JStr (snd x)); ("active", JBool true)].

Definition hook_named (n : string) (x : string * string) : bool := String.eqb (fst x) n.

Lemma rany_is_webhook n l :
  rany (Webhook.is_webhook n) (map render_hook l) = Ok (existsb (hook_named n) l).
Proof.
  induction l as [|x l IH]; [reflexivity|].
  cbn [map rany existsb]. unfold Webhook.is_webhook at 1. cbn.
  unfold hook_named at 1. destruct (fst x =? n)%string; [reflexivity | exact IH].
Qed.

(** The request [create_webhook] sends. *)
Definition hook_request (p : Webhook.Params) : Request :=
  {| meth := "POST"; template := endpoint "webhooks";
     args := [("projectKey", JStr (project_key (Webhook.common p)));
              ("repositorySlug", opt (repository (Webhook.common p)))];
     data := Some (JDict [("name", JStr (Webhook.webhook_name p));
                          ("url", JStr (Webhook.webhook_url p));
                          ("events", JList (map JStr (split_comma (Webhook.event p))));
                          ("active", JStr "true")]) |}.

Lemma create_webhook_sends t p tr :
  snd (Webhook.create_webhook t p tr) = tr ++ [hook_request p].
Proof.
  unfold Webhook.create_webhook, bind, do_request. cbv zeta. fold (hook_request p).
  destruct (t tr (hook_request p)) as [[info content]|e]; [|reflexivity].
  repeat match goal with
         | |- context [if ?b then _ else _] => destruct b
         end; reflexivity.
Qed.

(** X24.  With [state = present], on a server that has the project
    and the repository and lists the webhooks [hooks] (names and URLs):
    when a listed webhook has the name asked for, the webhook module
    reports [changed = false] and sends nothing after the listing,
    whatever the URL and the events asked for and those of the listed
    webhook; when none has the name, a real run sends exactly one more
    request, the [POST] that creates the webhook. *)
Theorem webhooks_are_known_by_name (hooks : list (string * string)) (fuel : nat)
    (p : Webhook.Params) :
  Webhook.state p = "present" ->
  let c := Webhook.common p in
  let run := Webhook.main (webhooks (map render_hook hooks)) (S fuel) p [] in
  let lookups :=
    [GET (endpoint "projects-projectKey") [("projectKey", JStr (project_key c))];
     GET (endpoint "repos-repositorySlug")
         [("projectKey", JStr (project_key c)); ("repositorySlug", opt (repository c))];
     lister_request Webhooks
       {| la_common := c; la_fail_when_not_exists := false;
          la_scope := EmptyString; la_filter := None |} (JInt 0)] in
  (existsb (hook_named (Webhook.webhook_name p)) hooks = true ->
   run = (ExitJson {| changed := false;
                      fields := Webhook.seed p ++ [("json", JDict [])] |}, lookups))
  /\ (existsb (hook_named (Webhook.webhook_name p)) hooks = false ->
      check_mode c = false ->
      snd run = lookups ++ [hook_request p]).
Proof.
  intros Hs. cbv zeta.
  assert (E : forall k : option (list json) -> M unit,
             bind (Checks.require_project_and_repository
                     (webhooks (map render_hook hooks)) (Webhook.common p))
                  (fun _ => bind (get_webhooks_info (webhooks (map render_hook hooks))
                                    (S fuel) (Webhook.common p) false None) k) []
             = k (Some (map render_hook hooks))
                 [GET (endpoint "projects-projectKey")
                      [("projectKey", JStr (project_key (Webhook.common p)))];
                  GET (endpoint "repos-repositorySlug")
                      [("projectKey", JStr (project_key (Webhook.common p)));
                       ("repositorySlug", opt (repository (Webhook.common p)))];
                  lister_request Webhooks
                    {| la_common := Webhook.common p; la_fail_when_not_exists := false;
                       la_scope := EmptyString; la_filter := None |} (JInt 0)]).
  { intros k. reflexivity. }
  unfold Webhook.main. cbv zeta. rewrite E. rewrite Hs.
  cbn [String.eqb Ascii.eqb Bool.eqb Webhook.listed rbind].
  rewrite rany_is_webhook. split.
  - intros ->. reflexivity.
  - intros -> ->. cbn [lift negb]. rewrite bind_ret_l. cbn [negb].
    rewrite snd_bind_pure by reflexivity. apply create_webhook_sends.
Qed.

Definition jenkins_hook (u : string) : Webhook.Params :=
  {| Webhook.common := foo_bar_common;
     Webhook.state := "present";
     Webhook.webhook_name := "wh_repo1";
     Webhook.webhook_url := u;
     Webhook.event := "repo:refs_changed" |}.

Lemma webhooks_are_known_by_name_witness :
  fst (Webhook.main
         (webhooks (map render_hook [("wh_repo1", "https://old.example.com/hook/")])) 1
         (jenkins_hook "https://jenkins.example.com/bitbucket-hook/") [])
  = ExitJson {| changed := false;
                fields := Webhook.seed
                            (jenkins_hook "https://jenkins.example.com/bitbucket-hook/")
                          ++ [("json", JDict [])] |}
  /\ nth_error
       (snd (Webhook.main
               (webhooks (map render_hook [("wh_other", "https://old.example.com/hook/")])) 1
               (jenkins_hook "https://jenkins.example.com/bitbucket-hook/") []))
       3
     = Some (hook_request (jenkins_hook "https://jenkins.example.com/bitbucket-hook/")).
Proof.
  split.
  - rewrite (proj1 (webhooks_are_known_by_name
                      [("wh_repo1", "https://old.example.com/hook/")] 0
                      (jenkins_hook "https://jenkins.example.com/bitbucket-hook/") eq_refl)
                   eq_refl).
    reflexivity.
  - rewrite (proj2 (webhooks_are_known_by_name
                      [("wh_other", "https://old.example.com/hook/")] 0
                      (jenkins_hook "https://jenkins.example.com/bitbucket-hook/") eq_refl)
                   eq_refl eq_refl).
    reflexivity.
Defined.

End WebhookClaims.
